(** * Grasshopper bridge: a shallow embedding of [grasshopper_mcp/bridge.py]

    The development follows the source file top down: Python values and
    the string helpers the code relies on, the transport client
    ([send_to_grasshopper]), the tools built on top of it
    ([add_component], [create_slider_with_value], [connect_components]),
    the lexical analyzer ([analyze_code_variables]) and the guide composer
    ([_generate_guide_text]).

    Modelling conventions.
    - Python [str] is [string]; the model covers ASCII text, code points
      above 127 are neither letters nor white space here.
    - The numbers in the commands are exact rationals ([Q]); the literals
      of the source (0.01, 0.1, 0.5, 2.0, 10.0) are the rationals they
      denote.  This reading does not round and has neither not-a-number
      nor infinities, so it serves where the numbers are exact.  The range
      computations of [add_component] and [create_slider_with_value] are
      read a second time on IEEE 754 binary64 numbers ([Float64]), and
      what holds of every [float] is stated there.
    - A Python [dict] with string keys is a [gmap string _]; a [set] of
      strings is a [gset string].
    - Every call of [send_to_grasshopper] talks to the outside world.  The
      world is an explicit [environment]; a computation threads the list of
      commands issued so far and ends in a value, a raised exception, or
      never returns (a [recv] that blocks for ever). *)

From Stdlib Require Import QArith Qabs Qminmax Lqa ZArith Ascii String List.
From Stdlib Require Import Floats.SpecFloat.
From stdpp Require Import gmap strings list.

#[local] Set Warnings "-register-all".
#[local] Open Scope string_scope.

(** ** Strings: the [str] methods used by the bridge *)

Module PyStr.

Definition code (c : ascii) : N := N_of_ascii c.

Definition between (lo hi : N) (c : ascii) : bool :=
  ((lo <=? code c) && (code c <=? hi))%N.

Definition is_upper : ascii → bool := between 65 90.
Definition is_lower : ascii → bool := between 97 122.
Definition is_digit : ascii → bool := between 48 57.

(** [str.isspace] on ASCII: TAB, LF, VT, FF, CR, FS, GS, RS, US, SPACE. *)
Definition is_space (c : ascii) : bool :=
  between 9 13 c || between 28 32 c.

(** The class [\w] of [re] on ASCII text. *)
Definition is_word (c : ascii) : bool :=
  is_upper c || is_lower c || is_digit c || (code c =? 95)%N.

(** The class [[a-zA-Z_]]. *)
Definition is_ident_start (c : ascii) : bool :=
  is_upper c || is_lower c || (code c =? 95)%N.

Definition to_lower (c : ascii) : ascii :=
  if is_upper c then ascii_of_N (code c + 32) else c.

Definition to_upper (c : ascii) : ascii :=
  if is_lower c then ascii_of_N (code c - 32) else c.

(** [s.lower()] and [s.upper()]. *)
Fixpoint lower (s : string) : string :=
  match s with
  | EmptyString => EmptyString
  | String c s' => String (to_lower c) (lower s')
  end.

Fixpoint upper (s : string) : string :=
  match s with
  | EmptyString => EmptyString
  | String c s' => String (to_upper c) (upper s')
  end.

(** [s.startswith(p)]. *)
Definition startswith (s p : string) : bool := String.prefix p s.

(** [p in s] for two strings: [p] occurs in [s] as a substring. *)
Fixpoint contains (s p : string) : bool :=
  String.prefix p s ||
  match s with
  | EmptyString => false
  | String _ s' => contains s' p
  end.

Fixpoint lstrip (s : string) : string :=
  match s with
  | EmptyString => EmptyString
  | String c s' => if is_space c then lstrip s' else s
  end.

Fixpoint rstrip (s : string) : string :=
  match s with
  | EmptyString => EmptyString
  | String c s' =>
      match rstrip s' with
      | EmptyString => if is_space c then EmptyString else String c EmptyString
      | r => String c r
      end
  end.

(** [s.strip()]. *)
Definition strip (s : string) : string := rstrip (lstrip s).

Definition newline : ascii := ascii_of_N 10.

(** [s.split('\n')]: never empty, one more piece than there are
    line feeds. *)
Fixpoint split_lines (s : string) : list string :=
  match s with
  | EmptyString => [EmptyString]
  | String c s' =>
      if Ascii.eqb c newline then EmptyString :: split_lines s'
      else match split_lines s' with
           | h :: t => String c h :: t
           | [] => [String c EmptyString]
           end
  end.

(** [x in xs] for a string and a list of string literals. *)
Definition in_list (x : string) (xs : list string) : bool :=
  existsb (String.eqb x) xs.

End PyStr.

(** ** Python values as they travel through the bridge *)

Inductive json : Type :=
| JNull
| JBool (b : bool)
| JInt (z : Z)
| JFloat (q : Q)
| JStr (s : string)
| JList (l : list json)
| JDict (d : gmap string json).

(** A raised exception: its class and [str(e)].  Every class that occurs
    below derives from [Exception]. *)
Record exn : Type := Exn { exn_class : string; exn_str : string }.

Module PyVal.

(** Truth value of an object, as tested by [if v] and [v and ...]. *)
Definition truthy (v : json) : bool :=
  match v with
  | JNull => false
  | JBool b => b
  | JInt z => negb (z =? 0)%Z
  | JFloat q => negb (Qeq_bool q 0)
  | JStr s => negb (String.eqb s EmptyString)
  | JList l => match l with [] => false | _ => true end
  | JDict d => negb (bool_decide (d = ∅))
  end.

(** [v == s] for a string [s]. *)
Definition eq_str (v : json) (s : string) : bool :=
  match v with
  | JStr s' => String.eqb s' s
  | _ => false
  end.

(** [v == 0]: integers and floats compare by value, and [False == 0]
    holds because [bool] is a subclass of [int]. *)
Definition eq_zero (v : json) : bool :=
  match v with
  | JInt z => (z =? 0)%Z
  | JFloat q => Qeq_bool q 0
  | JBool b => negb b
  | _ => false
  end.

(** The exceptions that the operations below raise.  The class is
    Python's; the message is abridged: Python's own text also names the
    type of the operand. *)
Definition type_error (msg : string) : exn := Exn "TypeError" msg.
Definition attribute_error (msg : string) : exn := Exn "AttributeError" msg.

(** [key in v] for a string [key]: key test on a dict, substring test on
    a string, element test on a list, [TypeError] on anything else. *)
Definition contains_key (key : string) (v : json) : exn + bool :=
  match v with
  | JDict d => inr (bool_decide (is_Some (d !! key)))
  | JStr s => inr (PyStr.contains s key)
  | JList l => inr (existsb (fun e => eq_str e key) l)
  | _ => inl (type_error "argument is not iterable")
  end.

(** [v[key]] for a string [key] that the caller has found with [in]. *)
Definition subscript (v : json) (key : string) : exn + json :=
  match v with
  | JDict d =>
      match d !! key with
      | Some x => inr x
      | None => inl (Exn "KeyError" key)
      end
  | JStr _ => inl (type_error "string indices must be integers")
  | JList _ => inl (type_error "list indices must be integers or slices")
  | _ => inl (type_error "object is not subscriptable")
  end.

(** [v.get(key)]: [None] for a missing key, [AttributeError] when [v]
    is not a dict. *)
Definition get (v : json) (key : string) : exn + json :=
  match v with
  | JDict d => inr (default JNull (d !! key))
  | _ => inl (attribute_error "object has no attribute 'get'")
  end.

(** What [for x in v] visits.  Iterating a dict yields its keys and
    iterating a string its characters; the callers below only
    distinguish "nothing", "a list of elements" and "some strings". *)
Definition iterate (v : json) : exn + list json :=
  match v with
  | JList l => inr l
  | JDict d => inr (JStr <$> (map_to_list d).*1)
  | JStr s => inr ((fun c => JStr (String c EmptyString)) <$> list_ascii_of_string s)
  | _ => inl (type_error "object is not iterable")
  end.

End PyVal.

(** ** Computations that talk to the peer *)

(** The [command] dict built by [send_to_grasshopper]:
    [{"type": command_type, "parameters": params}]. *)
Record command : Type :=
  Command { cmd_type : string; cmd_parameters : gmap string json }.

Inductive outcome (A : Type) : Type :=
| Returned (a : A)
| Raised (e : exn)
| Blocked.
Arguments Returned {A} a.
Arguments Raised {A} e.
Arguments Blocked {A}.

(** A computation receives the commands issued so far and gives back its
    outcome together with the extended list. *)
Definition M (A : Type) : Type := list command → outcome A * list command.

Definition ret {A} (a : A) : M A := fun log => (Returned a, log).

Definition raise {A} (e : exn) : M A := fun log => (Raised e, log).

Definition bind {A B} (c : M A) (k : A → M B) : M B :=
  fun log =>
    match c log with
    | (Returned a, log') => k a log'
    | (Raised e, log') => (Raised e, log')
    | (Blocked, log') => (Blocked, log')
    end.

Notation "'do' x '<-' c ';' k" := (bind c (fun x => k))
  (at level 10, x name, c at level 100, k at level 200, only parsing).

(** Result of a library call that either raises or returns. *)
Definition of_sum {A} (r : exn + A) : M A :=
  match r with
  | inl e => raise e
  | inr a => ret a
  end.

(** A call made for its effect only; [Some e] means it raises [e]. *)
Definition may_fail (r : option exn) : M unit :=
  match r with
  | Some e => raise e
  | None => ret tt
  end.

Definition of_outcome {A} (o : outcome A) : M A := fun log => (o, log).

(** [try: body except Exception as e: handler e].  All modelled exception
    classes derive from [Exception], so the handler sees each of them. *)
Definition try_except {A} (body : M A) (handler : exn → M A) : M A :=
  fun log =>
    match body log with
    | (Raised e, log') => handler e log'
    | r => r
    end.

(** *** The outside world *)

(** What [client.recv(4096)] does on one call. *)
Inductive recv_event : Type :=
| Chunk (data : list Byte.byte)
| RecvFails (e : exn).

(** The behaviour of one connection: which socket calls fail, and what
    successive [recv] calls deliver.  When the events are used up the peer
    sends nothing more and keeps the connection open. *)
Record exchange : Type := Exchange {
  socket_fails : option exn;
  connect_fails : option exn;
  sendall_fails : option exn;
  recv_events : list recv_event;
  close_fails : option exn
}.

(** The environment of a run: how the peer behaves on each connection
    (it sees every command issued so far, the current one last), and the
    two library functions applied to the bytes received. *)
Record environment : Type := Environment {
  peer : list command → exchange;
  utf8_sig_decode : list Byte.byte → exn + string;
  json_loads : string → exn + json
}.

Module Transport.

(** [response_data.endswith(b"\n")]. *)
Definition ends_with_newline (data : list Byte.byte) : bool :=
  match last data with
  | Some Byte.x0a => true
  | _ => false
  end.

(** The receive loop of [send_to_grasshopper]:
    an empty chunk or a trailing line feed ends it. *)
Fixpoint recv_loop (events : list recv_event) (response_data : list Byte.byte)
  : outcome (list Byte.byte) :=
  match events with
  | [] => Blocked
  | RecvFails e :: _ => Raised e
  | Chunk chunk :: events' =>
      match chunk with
      | [] => Returned response_data
      | _ =>
          let response_data := (response_data ++ chunk)%list in
          if ends_with_newline response_data then Returned response_data
          else recv_loop events' response_data
      end
  end.

Definition error_prefix : string := "Error communicating with Grasshopper: ".

(** The dict returned by the [except] clause. *)
Definition failure_response (e : exn) : json :=
  JDict (<["error" := JStr (error_prefix ++ exn_str e)]>
         (<["success" := JBool false]> ∅)).

(** The body of the [try] block, for one connection. *)
Definition exchange_body (E : environment) (x : exchange) : M json :=
  do _ <- may_fail (socket_fails x);
  do _ <- may_fail (connect_fails x);
  do _ <- may_fail (sendall_fails x);
  do response_data <- of_outcome (recv_loop (recv_events x) []);
  do decoded <- of_sum (utf8_sig_decode E response_data);
  let response_str := PyStr.strip decoded in
  do response <- of_sum (json_loads E response_str);
  do _ <- may_fail (close_fails x);
  ret response.

End Transport.

(** [send_to_grasshopper(command_type, params)]. *)
Definition send_to_grasshopper (E : environment) (command_type : string)
    (params : option (gmap string json)) : M json :=
  fun log =>
    let params := default ∅ params in
    let command := Command command_type params in
    let log := (log ++ [command])%list in
    try_except
      (Transport.exchange_body E (peer E log))
      (fun e => ret (Transport.failure_response e))
      log.

(** ** Numbers: the built-ins used on [float] arguments *)

Module PyNum.

(** [a < b] as a test. *)
Definition ltb (a b : Q) : bool := negb (Qle_bool b a).

(** [max(a, b)]: the first argument unless the second is greater. *)
Definition max (a b : Q) : Q := if ltb a b then b else a.

(** [min(a, b)]: the first argument unless the second is smaller. *)
Definition min (a b : Q) : Q := if ltb b a then b else a.

Definition abs (a : Q) : Q := Qabs a.

End PyNum.

(** ** [add_component] *)

(** The literal [component_mapping] of [add_component], in source order. *)
Definition component_mapping_items : list (string * string) :=
  [ ("number slider", "Number Slider");
    ("numeric slider", "Number Slider");
    ("num slider", "Number Slider");
    ("slider", "Number Slider");
    ("md slider", "MD Slider");
    ("multidimensional slider", "MD Slider");
    ("multi-dimensional slider", "MD Slider");
    ("graph mapper", "Graph Mapper");
    ("boolean", "Boolean Toggle");
    ("bool", "Boolean Toggle");
    ("toggle", "Boolean Toggle");
    ("integer", "Integer");
    ("int", "Integer");
    ("add", "Addition");
    ("addition", "Addition");
    ("plus", "Addition");
    ("sum", "Addition");
    ("+", "Addition");
    ("subtract", "Subtraction");
    ("subtraction", "Subtraction");
    ("minus", "Subtraction");
    ("difference", "Subtraction");
    ("-", "Subtraction");
    ("multiply", "Multiplication");
    ("multiplication", "Multiplication");
    ("times", "Multiplication");
    ("product", "Multiplication");
    ("*", "Multiplication");
    ("divide", "Division");
    ("division", "Division");
    ("/", "Division");
    ("list item", "List Item");
    ("item", "List Item");
    ("list length", "List Length");
    ("length", "List Length");
    ("series", "Series");
    ("range", "Range");
    ("move", "Move");
    ("translate", "Move");
    ("rotate", "Rotate");
    ("scale", "Scale");
    ("construct point", "Construct Point");
    ("point", "Construct Point");
    ("pt", "Construct Point");
    ("vector 2pt", "Vector 2Pt");
    ("vector", "Vector 2Pt");
    ("distance", "Distance");
    ("dist", "Distance");
    ("line", "Line");
    ("rectangle", "Rectangle");
    ("rect", "Rectangle");
    ("circle", "Circle");
    ("loft", "Loft");
    ("curve length", "Curve Length");
    ("evaluate curve", "Evaluate Curve");
    ("divide curve", "Divide Curve");
    ("join curves", "Join Curves");
    ("offset curve", "Offset Curve");
    ("box", "Box");
    ("cube", "Box");
    ("sphere", "Sphere");
    ("cylinder", "Cylinder");
    ("cone", "Cone");
    ("panel", "Panel");
    ("text panel", "Panel");
    ("output panel", "Panel");
    ("display", "Panel") ].

(** A dict display evaluates its items left to right, a later item
    replacing an earlier one with the same key. *)
Definition dict_of_items {V} (items : list (string * V)) : gmap string V :=
  foldl (fun d kv => <[kv.1 := kv.2]> d) ∅ items.

Definition component_mapping : gmap string string :=
  dict_of_items component_mapping_items.

(** Lines 175-177: the component type after normalisation. *)
Definition normalize_component_type (component_type : string) : string :=
  let normalized_type := PyStr.lower component_type in
  match component_mapping !! normalized_type with
  | Some canonical => canonical
  | None => component_type
  end.

(** [params[key] = v] guarded by [v is not None]. *)
Definition set_if_given (key : string) (v : option Q)
    (params : gmap string json) : gmap string json :=
  match v with
  | Some q => <[key := JFloat q]> params
  | None => params
  end.

Definition is_None {A} (o : option A) : bool :=
  match o with
  | None => true
  | Some _ => false
  end.

(** Lines 196-216: the range added when no bound is supplied. *)
Definition auto_adjust_range (min_value max_value value : option Q)
    (params : gmap string json) : gmap string json :=
  match value with
  | Some value =>
      if is_None min_value && is_None max_value then
        if PyNum.ltb 1 value then
          <["max" := JFloat (PyNum.max 10 (value * 2))]>
            (<["min" := JFloat 0]> params)
        else if PyNum.ltb value 0 then
          <["max" := JFloat (PyNum.max 10 (PyNum.abs value * 2))]>
            (<["min" := JFloat (PyNum.min (value * 2) (-10))]> params)
        else
          <["max" := JFloat (PyNum.max 2 (value * 2))]>
            (<["min" := JFloat 0]> params)
      else params
  | None =>
      if is_None min_value && is_None max_value then
        <["max" := JFloat 10]> (<["min" := JFloat 0]> params)
      else params
  end.

(** The [params] dict of [add_component] at the point where it is sent. *)
Definition add_component_params (component_type : string) (x y : Q)
    (min_value max_value value : option Q) : gmap string json :=
  let component_type := normalize_component_type component_type in
  let params : gmap string json :=
    <["y" := JFloat y]> (<["x" := JFloat x]> (<["type" := JStr component_type]> ∅)) in
  if PyStr.contains (PyStr.lower component_type) "slider" then
    let params := set_if_given "min" min_value params in
    let params := set_if_given "max" max_value params in
    let params := set_if_given "value" value params in
    auto_adjust_range min_value max_value value params
  else params.

Definition add_component (E : environment) (component_type : string) (x y : Q)
    (min_value max_value value : option Q) : M json :=
  send_to_grasshopper E "add_component"
    (Some (add_component_params component_type x y min_value max_value value)).

(** ** [create_slider_with_value] *)

(** Lines 237-246: the locals [min_val] and [max_val]. *)
Definition min_val (target_value : Q) : Q :=
  if Qle_bool target_value 0 then
    if PyNum.ltb target_value 0 then PyNum.min (target_value * 2) (-10) else -10
  else if Qle_bool target_value 1 then 0
  else 0.

Definition max_val (target_value : Q) : Q :=
  if Qle_bool target_value 0 then PyNum.max 10 (PyNum.abs target_value * 2)
  else if Qle_bool target_value 1 then PyNum.max 2 (target_value * 2)
  else PyNum.max (target_value * 2) (target_value + 10).

(** Lines 249-254: the local [precision]. *)
Definition precision (target_value : Q) : Q :=
  if PyNum.ltb (PyNum.abs target_value) (1 # 10) then 1 # 100
  else if PyNum.ltb (PyNum.abs target_value) 1 then 1 # 10
  else 1 # 2.

(** Lines 259-270: the [params] dict. *)
Definition create_slider_with_value_params (x y target_value : Q) (name : string)
    : gmap string json :=
  let params : gmap string json :=
    <["rounding" := JFloat (precision target_value)]>
    (<["value" := JFloat target_value]>
    (<["max" := JFloat (max_val target_value)]>
    (<["min" := JFloat (min_val target_value)]>
    (<["y" := JFloat y]>
    (<["x" := JFloat x]>
    (<["type" := JStr "Number Slider"]> ∅)))))) in
  if negb (String.eqb name EmptyString) then <["name" := JStr name]> params else params.

(** Lines 273-281.  The two log lines evaluate [result.get], which raises
    when the peer answered with something that is not an object. *)
Definition create_slider_with_value (E : environment) (x y target_value : Q)
    (name : string) : M json :=
  do result <- send_to_grasshopper E "add_component"
                 (Some (create_slider_with_value_params x y target_value name));
  do ok <- (if PyVal.truthy result then of_sum (PyVal.get result "success")
            else ret result);
  do _ <- (if PyVal.truthy ok then ret JNull
           else of_sum (PyVal.get result "error"));
  ret result.

(** ** [connect_components] *)

Module Connect.

(** Line 360: the component types whose inputs are assigned
    automatically. *)
Definition binary_input_types : list string :=
  ["Addition"; "Subtraction"; "Multiplication"; "Division"; "Math"].

(** [component_type in [...]] for the value the peer reported. *)
Definition is_binary_input_type (component_type : json) : bool :=
  existsb (PyVal.eq_str component_type) binary_input_types.

(** [a and b] where [b] may raise and is only evaluated when [a] holds. *)
Definition and_then (a : bool) (b : exn + bool) : exn + bool :=
  if a then b else inr false.

(** Line 347:
    [target_info and "result" in target_info and "type" in target_info["result"]]. *)
Definition has_result_type (target_info : json) : exn + bool :=
  and_then (PyVal.truthy target_info)
    match PyVal.contains_key "result" target_info with
    | inl e => inl e
    | inr false => inr false
    | inr true =>
        match PyVal.subscript target_info "result" with
        | inl e => inl e
        | inr result => PyVal.contains_key "type" result
        end
    end.

(** Lines 355-357: keep the connections whose [targetId] is the target. *)
Fixpoint connections_to (target_id : string) (conns : list json)
  : exn + list json :=
  match conns with
  | [] => inr []
  | conn :: conns' =>
      match PyVal.get conn "targetId" with
      | inl e => inl e
      | inr tid =>
          match connections_to target_id conns' with
          | inl e => inl e
          | inr rest =>
              inr (if PyVal.eq_str tid target_id then conn :: rest else rest)
          end
      end
  end.

(** Lines 352-357: [existing_connections]. *)
Definition existing_connections (target_id : string) (connections : json)
  : exn + list json :=
  match and_then (PyVal.truthy connections)
          (PyVal.contains_key "result" connections) with
  | inl e => inl e
  | inr false => inr []
  | inr true =>
      match PyVal.subscript connections "result" with
      | inl e => inl e
      | inr result =>
          match PyVal.iterate result with
          | inl e => inl e
          | inr conns => connections_to target_id conns
          end
      end
  end.

(** Line 366:
    [conn.get("targetParam") == "A" or conn.get("targetParamIndex") == 0]. *)
Definition occupies_first_input (conn : json) : exn + bool :=
  match PyVal.get conn "targetParam" with
  | inl e => inl e
  | inr p =>
      if PyVal.eq_str p "A" then inr true
      else match PyVal.get conn "targetParamIndex" with
           | inl e => inl e
           | inr i => inr (PyVal.eq_zero i)
           end
  end.

(** Lines 364-368: the loop that sets [first_input_occupied] and leaves
    at the first hit. *)
Fixpoint first_input_occupied (existing : list json) : exn + bool :=
  match existing with
  | [] => inr false
  | conn :: existing' =>
      match occupies_first_input conn with
      | inl e => inl e
      | inr true => inr true
      | inr false => first_input_occupied existing'
      end
  end.

(** Lines 360-374: the value of [target_param] after the block. *)
Definition assign_target_param (component_type : json) (existing : list json)
    (target_param : option string) (target_param_index : option Z)
  : exn + option string :=
  if is_binary_input_type component_type then
    if is_None target_param && is_None target_param_index then
      match first_input_occupied existing with
      | inl e => inl e
      | inr true => inr (Some "B")
      | inr false => inr (Some "A")
      end
    else inr target_param
  else inr target_param.

(** Lines 381-389: one side of the connection; the name wins over the
    index. *)
Definition set_port (name_key index_key : string) (param : option string)
    (param_index : option Z) (params : gmap string json) : gmap string json :=
  match param, param_index with
  | Some p, _ => <[name_key := JStr p]> params
  | None, Some i => <[index_key := JInt i]> params
  | None, None => params
  end.

(** Lines 376-389: the [params] dict. *)
Definition connect_params (source_id target_id : string)
    (source_param target_param : option string)
    (source_param_index target_param_index : option Z) : gmap string json :=
  let params : gmap string json :=
    <["targetId" := JStr target_id]> (<["sourceId" := JStr source_id]> ∅) in
  let params := set_port "sourceParam" "sourceParamIndex"
                  source_param source_param_index params in
  set_port "targetParam" "targetParamIndex"
    target_param target_param_index params.

End Connect.

Definition connect_components (E : environment) (source_id target_id : string)
    (source_param target_param : option string)
    (source_param_index target_param_index : option Z) : M json :=
  do target_info <- send_to_grasshopper E "get_component_info"
                      (Some (<["id" := JStr target_id]> ∅));
  do typed <- of_sum (Connect.has_result_type target_info);
  do target_param <-
    (if typed : bool then
       do result <- of_sum (PyVal.subscript target_info "result");
       do component_type <- of_sum (PyVal.subscript result "type");
       do connections <- send_to_grasshopper E "get_connections" None;
       do existing <- of_sum (Connect.existing_connections target_id connections);
       of_sum (Connect.assign_target_param component_type existing
                 target_param target_param_index)
     else ret target_param);
  send_to_grasshopper E "connect_components"
    (Some (Connect.connect_params source_id target_id source_param target_param
             source_param_index target_param_index)).

(** ** [analyze_code_variables] *)

Module Analyzer.

Fixpoint take_while (p : ascii → bool) (s : string) : string :=
  match s with
  | EmptyString => EmptyString
  | String c s' => if p c then String c (take_while p s') else EmptyString
  end.

Fixpoint drop_while (p : ascii → bool) (s : string) : string :=
  match s with
  | EmptyString => EmptyString
  | String c s' => if p c then drop_while p s' else s
  end.

(** [re.match(r'^(\w+)\s*=', line)], giving [group(1)] on a match.
    The greedy run of word characters cannot give any back: what follows
    it must be white space or [=], and neither is a word character. *)
Definition assignment_match (line : string) : option string :=
  match take_while PyStr.is_word line with
  | EmptyString => None
  | var_name =>
      match drop_while PyStr.is_space (drop_while PyStr.is_word line) with
      | String "=" _ => Some var_name
      | _ => None
      end
  end.

(** Where the scanner of [findall] stands: after a character that is not
    a word character, inside an identifier, or inside a run of word
    characters that began with a digit (no word boundary inside it). *)
Inductive scan_state : Type :=
| Outside
| InIdentifier (acc : string)
| InOtherWord.

Definition scan_step (st : scan_state) (c : ascii)
  : scan_state * list string :=
  match st with
  | Outside =>
      if PyStr.is_ident_start c then (InIdentifier (String c EmptyString), [])
      else if PyStr.is_word c then (InOtherWord, [])
      else (Outside, [])
  | InIdentifier acc =>
      if PyStr.is_word c then (InIdentifier (acc ++ String c EmptyString), [])
      else (Outside, [acc])
  | InOtherWord =>
      if PyStr.is_word c then (InOtherWord, []) else (Outside, [])
  end.

Fixpoint scan (st : scan_state) (s : string) : list string :=
  match s with
  | EmptyString =>
      match st with
      | InIdentifier acc => [acc]
      | _ => []
      end
  | String c s' =>
      let '(st', found) := scan_step st c in
      (found ++ scan st' s')%list
  end.

(** [re.findall] with the identifier pattern of lines 904 and 926 (a
    word boundary, a letter or underscore, any number of letters, digits
    and underscores, a word boundary): the maximal runs of word
    characters that begin with a letter or an underscore, from left to
    right. *)
Definition used_vars (line : string) : list string := scan Outside line.

(** The constants of one dialect: comment marker, conventional output
    names, and the names that are never inputs. *)
Record dialect : Type := Dialect {
  comment_marker : string;
  output_names : list string;
  skipped_names : list string
}.

(** Lines 891, 899 and 907. *)
Definition python : dialect := {|
  comment_marker := "#";
  output_names :=
    ["result"; "output"; "a"; "b"; "c"; "out"; "geometry"; "points";
     "curves"; "surfaces"];
  skipped_names :=
    ["print"; "len"; "range"; "for"; "if"; "else"; "elif"; "while"; "def";
     "class"; "import"; "from"; "as"; "True"; "False"; "None"; "and"; "or";
     "not"; "in"; "is"; "math"; "ghpythonlib"; "Rhino"; "Grasshopper";
     "System"]
|}.

(** Lines 915, 922 and 928. *)
Definition csharp : dialect := {|
  comment_marker := "//";
  output_names := ["result"; "output"; "a"; "b"; "c"; "out"];
  skipped_names :=
    ["var"; "int"; "double"; "string"; "bool"; "if"; "else"; "for"; "while";
     "foreach"; "using"; "namespace"; "class"; "public"; "private";
     "static"; "void"; "return"; "true"; "false"; "null"; "new"; "this";
     "base"; "Point3d"; "Vector3d"; "Plane"; "Circle"; "Line"; "Curve";
     "Surface"; "Brep"; "Mesh"; "Math"; "System"; "Rhino"; "Grasshopper"]
|}.

(** The sets [inputs] and [outputs] while the lines are visited. *)
Record found : Type := Found { inputs : gset string; outputs : gset string }.

(** The inner loop over [used_vars] (lines 905-909 and 927-930). *)
Definition add_inputs (d : dialect) (assigned : option string)
    (vars : list string) (inputs : gset string) : gset string :=
  foldl (fun inputs var =>
           if negb (PyStr.in_list var (skipped_names d))
           then match assigned with
                | Some name =>
                    if negb (String.eqb var name) then {[var]} ∪ inputs
                    else inputs
                | None => {[var]} ∪ inputs
                end
           else inputs)
        inputs vars.

(** The body of the loop over [lines], for one line. *)
Definition visit_line (d : dialect) (st : found) (line : string) : found :=
  let line := PyStr.strip line in
  if String.eqb line EmptyString || PyStr.startswith line (comment_marker d) then st
  else
    let assigned := assignment_match line in
    let outputs :=
      match assigned with
      | Some var_name =>
          if PyStr.in_list (PyStr.lower var_name) (output_names d)
          then {[var_name]} ∪ outputs st
          else outputs st
      | None => outputs st
      end in
    Found (add_inputs d assigned (used_vars line) (inputs st)) outputs.

(** Lines 881-930: the two sets when the loop over the lines ends.  A
    language other than "python" and "csharp" has no loop. *)
Definition scanned (code language : string) : found :=
  let lines := PyStr.split_lines code in
  let start := Found ∅ ∅ in
  if String.eqb (PyStr.lower language) "python"
  then foldl (visit_line python) start lines
  else if String.eqb (PyStr.lower language) "csharp"
  then foldl (visit_line csharp) start lines
  else start.

(** Line 933: [inputs = inputs - outputs]. *)
Definition variables (code language : string) : found :=
  let st := scanned code language in
  Found (inputs st ∖ outputs st) (outputs st).

Definition self_contained_warning : string :=
  "No variables detected - code might be self-contained".

(** Lines 936-937. *)
Definition warnings_for (st : found) : list string :=
  if bool_decide (inputs st = ∅) && bool_decide (outputs st = ∅)
  then [self_contained_warning] else [].

End Analyzer.

(** The dict returned by [analyze_code_variables]; its keys are fixed. *)
Record analysis : Type := Analysis {
  analysis_inputs : list string;
  analysis_outputs : list string;
  analysis_warnings : list string
}.

(** [list(s)] for a set [s] enumerates it in an order the language does
    not fix; [list_of_set] stands for the enumeration of one run.  The
    order may also depend on how the set was built, so a statement about
    two runs takes one enumeration for each. *)
Definition enumeration : Type := gset string → list string.

Definition analyze_code_variables (list_of_set : enumeration)
    (code language : string) : analysis :=
  let st := Analyzer.variables code language in
  {| analysis_inputs := list_of_set (Analyzer.inputs st);
     analysis_outputs := list_of_set (Analyzer.outputs st);
     analysis_warnings := Analyzer.warnings_for st |}.

(** ** [_generate_guide_text] *)

(** An element of [input_params] or [output_params]: a dict with string
    fields ([name], [type], [description], as the docstring of
    [execute_code] gives them), or anything else, which the
    [isinstance(param, dict)] filter drops. *)
Inductive param_entry : Type :=
| ParamDict (fields : gmap string string)
| NotADict.

Module Guide.

(** A dict whose iteration order matters: keys in order of first
    insertion.  A key is a parameter name or [None]. *)
Definition ordered_dict : Type := list (option string * gmap string string).

Definition mem (key : option string) (d : ordered_dict) : bool :=
  existsb (fun kv => bool_decide (kv.1 = key)) d.

(** [d[key] = value]: replaces the value in place when the key is
    present and appends the item otherwise. *)
Fixpoint set_item (key : option string) (value : gmap string string)
    (d : ordered_dict) : ordered_dict :=
  match d with
  | [] => [(key, value)]
  | (k, v) :: d' =>
      if bool_decide (k = key) then (k, value) :: d'
      else (k, v) :: set_item key value d'
  end.

(** [{param.get("name"): param for param in params if isinstance(param, dict)}]. *)
Definition explicit_entries (params : list param_entry) : ordered_dict :=
  foldl (fun d param =>
           match param with
           | ParamDict fields => set_item (fields !! "name") fields d
           | NotADict => d
           end)
        [] params.

(** The loop that adds the analyzer's variables (lines 844-846 and
    856-858); [entry var] is the dict stored for a new name. *)
Definition add_found (entry : string → gmap string string)
    (vars : list string) (d : ordered_dict) : ordered_dict :=
  foldl (fun d var =>
           if negb (mem (Some var) d) then set_item (Some var) (entry var) d
           else d)
        d vars.

Definition input_entry (var : string) : gmap string string :=
  <["description" := "Variable used in code: " ++ var]>
    (<["type" := "number"]> ∅).

Definition output_entry (var : string) : gmap string string :=
  <["description" := "Result variable: " ++ var]>
    (<["type" := "geometry"]> ∅).

Definition nl : string := String PyStr.newline EmptyString.

(** [str(name)] for a key. *)
Definition str_of_key (key : option string) : string :=
  match key with
  | Some name => name
  | None => "None"
  end.

(** One line of a section:
    ["- Name: {name}, Type: {info.get('type', default_type)}\n"]. *)
Definition item_line (default_type : string)
    (item : option string * gmap string string) : string :=
  "- Name: " ++ str_of_key item.1 ++ ", Type: "
    ++ default default_type (item.2 !! "type") ++ nl.

(** Lines 848-852 and 860-864: the text of one section. *)
Definition section_text (default_type : string) (d : ordered_dict) : string :=
  match d with
  | [] => "None required." ++ nl
  | _ => foldl (fun guide item => guide ++ item_line default_type item) EmptyString d
  end.

(** Lines 833-839. *)
Definition preamble (language : string) : string :=
  "SCRIPT SETUP GUIDE (" ++ PyStr.upper language ++ ")" ++ nl
    ++ "1. Zoom in on script component to see ⊕/⊖" ++ nl
    ++ "2. Use ⊕ to add/remove parameters." ++ nl
    ++ "3. Right-click params to set Name & Type Hint." ++ nl
    ++ nl
    ++ "---INPUTS---" ++ nl.

Definition all_inputs (found : list string) (input_params : list param_entry)
  : ordered_dict :=
  add_found input_entry found (explicit_entries input_params).

Definition all_outputs (found : list string) (output_params : list param_entry)
  : ordered_dict :=
  add_found output_entry found (explicit_entries output_params).

End Guide.

Definition _generate_guide_text (list_of_set : enumeration)
    (code language : string)
    (input_params output_params : option (list param_entry)) : string :=
  let input_params := default [] input_params in
  let output_params := default [] output_params in
  let variables_in_code := analyze_code_variables list_of_set code language in
  let guide := Guide.preamble language in
  let all_inputs :=
    Guide.all_inputs (analysis_inputs variables_in_code) input_params in
  let guide := guide ++ Guide.section_text "number" all_inputs in
  let guide := guide ++ Guide.nl ++ "---OUTPUTS---" ++ Guide.nl in
  let all_outputs :=
    Guide.all_outputs (analysis_outputs variables_in_code) output_params in
  let guide := guide ++ Guide.section_text "geometry" all_outputs in
  guide.

(** ** Vocabulary of the statements below *)

(** The stage at which one exchange fails first, with the exception
    raised there: creating the socket, connecting, sending, receiving,
    decoding the bytes, parsing the text, closing. *)
Inductive first_failure (E : environment) (x : exchange) : exn → Prop :=
| socket_failure e :
    socket_fails x = Some e → first_failure E x e
| connect_failure e :
    socket_fails x = None → connect_fails x = Some e → first_failure E x e
| sendall_failure e :
    socket_fails x = None → connect_fails x = None →
    sendall_fails x = Some e → first_failure E x e
| recv_failure e :
    socket_fails x = None → connect_fails x = None → sendall_fails x = None →
    Transport.recv_loop (recv_events x) [] = Raised e → first_failure E x e
| decode_failure e data :
    socket_fails x = None → connect_fails x = None → sendall_fails x = None →
    Transport.recv_loop (recv_events x) [] = Returned data →
    utf8_sig_decode E data = inl e → first_failure E x e
| json_failure e data text :
    socket_fails x = None → connect_fails x = None → sendall_fails x = None →
    Transport.recv_loop (recv_events x) [] = Returned data →
    utf8_sig_decode E data = inr text →
    json_loads E (PyStr.strip text) = inl e → first_failure E x e
| close_failure e data text response :
    socket_fails x = None → connect_fails x = None → sendall_fails x = None →
    Transport.recv_loop (recv_events x) [] = Returned data →
    utf8_sig_decode E data = inr text →
    json_loads E (PyStr.strip text) = inr response →
    close_fails x = Some e → first_failure E x e.

(** A peer that refuses every connection, with library functions that
    accept nothing: the smallest environment. *)
Definition refusing_peer : environment := {|
  peer := fun _ =>
    Exchange None (Some (Exn "ConnectionRefusedError" "[Errno 111] Connection refused"))
      None [] None;
  utf8_sig_decode := fun _ => inl (Exn "UnicodeDecodeError" "invalid start byte");
  json_loads := fun _ => inl (Exn "JSONDecodeError" "Expecting value")
|}.

(** Started after the commands in [log], the computation issues exactly
    the command [cmd], whatever its outcome. *)
Definition issues {A} (c : M A) (log : list command) (cmd : command) : Prop :=
  (c log).2 = (log ++ [cmd])%list.

(** A component type that takes the slider branch of [add_component]
    (line 187). *)
Definition is_slider_type (component_type : string) : Prop :=
  PyStr.contains (PyStr.lower (normalize_component_type component_type)) "slider"
  = true.

(** Two characters that are the same letter in possibly different case. *)
Definition same_letter (c c' : ascii) : Prop :=
  c' = c
  ∨ (PyStr.is_lower c = true ∧ PyStr.code c = PyStr.code c' + 32)%N
  ∨ (PyStr.is_upper c = true ∧ PyStr.code c' = PyStr.code c + 32)%N.

(** [case_variant s s']: [s'] spells [s] with the case of some letters
    changed. *)
Inductive case_variant : string → string → Prop :=
| case_variant_empty : case_variant EmptyString EmptyString
| case_variant_char c c' s s' :
    same_letter c c' → case_variant s s' →
    case_variant (String c s) (String c' s').

(** The two queries that [connect_components] makes before connecting. *)
Definition info_query (target_id : string) : command :=
  Command "get_component_info" (<["id" := JStr target_id]> ∅).

Definition connections_query : command := Command "get_connections" ∅.

(** What the call of [send_to_grasshopper] for [cmd] gives when the
    commands in [log] went before. *)
Definition reply (E : environment) (log : list command) (cmd : command)
  : outcome json :=
  (send_to_grasshopper E (cmd_type cmd) (Some (cmd_parameters cmd)) log).1.

(** The answer to [get_component_info] reports the component type [ty]:
    it is an object whose [result] is an object with a [type] entry. *)
Definition reports_type (target_info : json) (ty : json) : Prop :=
  ∃ d r, target_info = JDict d
         ∧ d !! "result" = Some (JDict r)
         ∧ r !! "type" = Some ty.

(** The answer to [get_connections] lists the connections [conns]: an
    object whose [result] is a list of objects, or an object without
    [result] (no connection is known then). *)
Inductive lists_connections : json → list (gmap string json) → Prop :=
| lists_no_result d :
    d !! "result" = None → lists_connections (JDict d) []
| lists_result d conns :
    d !! "result" = Some (JList (JDict <$> conns)) →
    lists_connections (JDict d) conns.

(** A connection into [target_id] that sits on its first input: named "A",
    or with an index equal to 0. *)
Definition occupies_first (target_id : string) (conn : gmap string json) : Prop :=
  conn !! "targetId" = Some (JStr target_id)
  ∧ (conn !! "targetParam" = Some (JStr "A")
     ∨ ∃ i, conn !! "targetParamIndex" = Some i ∧ PyVal.eq_zero i = true).

Definition first_input_taken (target_id : string)
    (conns : list (gmap string json)) : Prop :=
  ∃ conn, conn ∈ conns ∧ occupies_first target_id conn.

(** The test "this connection goes into [target_id]". *)
Definition into (target_id : string) (conn : gmap string json) : bool :=
  PyVal.eq_str (default JNull (conn !! "targetId")) target_id.


(** *** Sample peers *)

Definition line_feed : list Byte.byte := [Byte.x0a].

(** The answer of a peer for component "t", an Addition. *)
Definition addition_info : json :=
  JDict (<["result" := JDict (<["type" := JStr "Addition"]>
                               (<["id" := JStr "t"]> ∅))]>
         (<["success" := JBool true]> ∅)).

(** One connection into "t", on its input "A". *)
Definition connection_into_A : gmap string json :=
  <["targetParam" := JStr "A"]>
    (<["targetId" := JStr "t"]> (<["sourceId" := JStr "s0"]> ∅)).

Definition one_connection : json :=
  JDict (<["result" := JList [JDict connection_into_A]]>
         (<["success" := JBool true]> ∅)).

(** A failure answer that spells out an empty result:
    [{"success": false, "error": "Component not found", "result": null}]. *)
Definition not_found_info : json :=
  JDict (<["result" := JNull]>
         (<["error" := JStr "Component not found"]>
         (<["success" := JBool false]> ∅))).

(** A peer that answers every command with one line naming the command
    type; [loads] turns that line into the answer for the command. *)
Definition answering_peer (answer : string → json) : environment := {|
  peer := fun log =>
    let name := match last log with
                | Some cmd => cmd_type cmd
                | None => EmptyString
                end in
    Exchange None None None
      [Chunk (list_byte_of_string name ++ line_feed)%list] None;
  utf8_sig_decode := fun data => inr (string_of_list_byte data);
  json_loads := fun text => inr (answer text)
|}.

(** The peer holds an Addition "t" whose input "A" is connected. *)
Definition addition_peer : environment :=
  answering_peer (fun text =>
    if String.eqb text "get_component_info" then addition_info
    else if String.eqb text "get_connections" then one_connection
    else JDict (<["success" := JBool true]> ∅)).

(** The peer does not know the component and says so with a null result. *)
Definition not_found_peer : environment :=
  answering_peer (fun text =>
    if String.eqb text "get_component_info" then not_found_info
    else JDict (<["success" := JBool true]> ∅)).

(** *** Enumerations of sets and the order of discovery *)

(** What every [list(s)] satisfies: each element of the set once. *)
Definition valid_enumeration (list_of_set : enumeration) : Prop :=
  ∀ X, NoDup (list_of_set X) ∧ ∀ x, x ∈ list_of_set X ↔ x ∈ X.

(** The enumeration in the reverse order of [elements]. *)
Definition reversed_elements : enumeration := fun X => reverse (elements X).

Module Discovery.

(** The order in which the analyzer first meets each name: the scan of
    [Analyzer.visit_line], with lists in place of sets and a name
    appended on its first addition only. *)
Definition add_once (x : string) (l : list string) : list string :=
  if PyStr.in_list x l then l else (l ++ [x])%list.

Definition add_inputs (d : Analyzer.dialect) (assigned : option string)
    (vars inputs : list string) : list string :=
  foldl (fun inputs var =>
           if negb (PyStr.in_list var (Analyzer.skipped_names d))
           then match assigned with
                | Some name =>
                    if negb (String.eqb var name) then add_once var inputs
                    else inputs
                | None => add_once var inputs
                end
           else inputs)
        inputs vars.

Definition visit_line (d : Analyzer.dialect)
    (st : list string * list string) (line : string)
  : list string * list string :=
  let line := PyStr.strip line in
  if String.eqb line EmptyString || PyStr.startswith line (Analyzer.comment_marker d)
  then st
  else
    let assigned := Analyzer.assignment_match line in
    let outputs :=
      match assigned with
      | Some var_name =>
          if PyStr.in_list (PyStr.lower var_name) (Analyzer.output_names d)
          then add_once var_name st.2
          else st.2
      | None => st.2
      end in
    (add_inputs d assigned (Analyzer.used_vars line) st.1, outputs).

Definition scanned (code language : string) : list string * list string :=
  let lines := PyStr.split_lines code in
  if String.eqb (PyStr.lower language) "python"
  then foldl (visit_line Analyzer.python) ([], []) lines
  else if String.eqb (PyStr.lower language) "csharp"
  then foldl (visit_line Analyzer.csharp) ([], []) lines
  else ([], []).

(** Inputs in discovery order, the outputs taken out; outputs in
    discovery order. *)
Definition inputs (code language : string) : list string :=
  let st := scanned code language in
  List.filter (fun x => negb (PyStr.in_list x st.2)) st.1.

Definition outputs (code language : string) : list string :=
  (scanned code language).2.

End Discovery.

(** The guide composed from given lists of found variables: the body of
    [_generate_guide_text] after the analysis. *)
Definition guide_text_from (found_inputs found_outputs : list string)
    (language : string) (input_params output_params : list param_entry)
  : string :=
  Guide.preamble language
    ++ Guide.section_text "number" (Guide.all_inputs found_inputs input_params)
    ++ Guide.nl ++ "---OUTPUTS---" ++ Guide.nl
    ++ Guide.section_text "geometry"
         (Guide.all_outputs found_outputs output_params).

(** The names declared by the dict entries, in order of declaration. *)
Definition declared_names (params : list param_entry)
  : list (option string) :=
  omap (fun param =>
          match param with
          | ParamDict fields => Some (fields !! "name")
          | NotADict => None
          end) params.

(** A list without its repetitions, each element at its first place. *)
Definition first_occurrences {A} `{EqDecision A} (l : list A) : list A :=
  reverse (remove_dups (reverse l)).

(** ** More vocabulary: the bytes of one exchange *)

(** The socket calls of the exchange succeed and [recv] delivers
    [events]. *)
Definition delivers (x : exchange) (events : list recv_event) : Prop :=
  socket_fails x = None ∧ connect_fails x = None ∧ sendall_fails x = None
  ∧ recv_events x = events ∧ close_fails x = None.

(** The library functions turn the bytes [data] into [response]. *)
Definition parses_to (E : environment) (data : list Byte.byte) (response : json)
  : Prop :=
  ∃ text, utf8_sig_decode E data = inr text
          ∧ json_loads E (PyStr.strip text) = inr response.

(** The command that [connect_components] ends with when the target port
    is [chosen]. *)
Definition connect_command (source_id target_id : string)
    (source_param chosen : option string)
    (source_param_index target_param_index : option Z) : command :=
  Command "connect_components"
    (Connect.connect_params source_id target_id source_param chosen
       source_param_index target_param_index).

(** The peer holds an Addition "t", and its list of connections is null. *)
Definition null_connections_peer : environment :=
  answering_peer (fun text =>
    if String.eqb text "get_component_info" then addition_info
    else JDict (<["result" := JNull]> ∅)).

(** *** What a line contributes to the analysis *)

(** The line is visited: once stripped it is neither empty nor a
    comment of the dialect. *)
Definition visited (d : Analyzer.dialect) (line : string) : Prop :=
  PyStr.strip line ≠ EmptyString
  ∧ PyStr.startswith (PyStr.strip line) (Analyzer.comment_marker d) = false.

(** The line makes [x] an input: [x] is an identifier of the line, not a
    name the dialect skips, and not the name the line assigns to. *)
Definition gives_input (d : Analyzer.dialect) (line x : string) : Prop :=
  visited d line
  ∧ In x (Analyzer.used_vars (PyStr.strip line))
  ∧ PyStr.in_list x (Analyzer.skipped_names d) = false
  ∧ Analyzer.assignment_match (PyStr.strip line) ≠ Some x.

(** The line makes [x] an output: it assigns to [x], and [x] in lower
    case is one of the output names of the dialect. *)
Definition gives_output (d : Analyzer.dialect) (line x : string) : Prop :=
  visited d line
  ∧ Analyzer.assignment_match (PyStr.strip line) = Some x
  ∧ PyStr.in_list (PyStr.lower x) (Analyzer.output_names d) = true.

(** The dialect chosen for a language, if any (lines 887 and 911). *)
Definition dialect_of (language : string) : option Analyzer.dialect :=
  if String.eqb (PyStr.lower language) "python" then Some Analyzer.python
  else if String.eqb (PyStr.lower language) "csharp" then Some Analyzer.csharp
  else None.

(** *** Declared parameters *)


(** ** Static data *)

(** The literal [component_hints] of [get_grasshopper_status]
    (lines 961-988). *)
Definition component_hints : json :=
  JDict (dict_of_items
    [ ("Number Slider",
       JDict (dict_of_items
         [ ("description",
            JStr "Single numeric value slider with adjustable range");
           ("common_usage",
            JStr "Use for single numeric inputs like radius, height, count, etc.");
           ("parameters",
            JList
              [ JStr "min";
                JStr "max";
                JStr "value";
                JStr "rounding";
                JStr "type" ]);
           ("creation_methods",
            JDict (dict_of_items
              [ ("add_component",
                 JStr "add_component('Number Slider', x, y, min_value, max_value, value)");
                ("smart_creation",
                 JStr "create_slider_with_value(x, y, target_value) - automatically sets appropriate range") ]));
           ("important_note",
            JStr "Always specify min/max values or use create_slider_with_value for values > 1.0");
           ("NOT_TO_BE_CONFUSED_WITH",
            JStr "MD Slider (which is for multi-dimensional values)") ]));
      ("MD Slider",
       JDict (dict_of_items
         [ ("description", JStr "Multi-dimensional slider for vector input");
           ("common_usage",
            JStr "Use for vector inputs, NOT for simple numeric values");
           ("NOT_TO_BE_CONFUSED_WITH",
            JStr "Number Slider (which is for single numeric values)") ]));
      ("Panel",
       JDict (dict_of_items
         [ ("description", JStr "Displays text or numeric data");
           ("common_usage", JStr "Use for displaying outputs and debugging") ]));
      ("Addition",
       JDict (dict_of_items
         [ ("description", JStr "Adds two or more numbers");
           ("common_usage",
            JStr "Connect two Number Sliders to inputs A and B");
           ("parameters", JList [JStr "A"; JStr "B"]);
           ("connection_tip",
            JStr "First slider should connect to input A, second to input B") ])) ]).

(** The list under [recommendations] (lines 1044-1051). *)
Definition recommendations : json :=
  JList
    [ JStr "When needing a simple numeric input control, ALWAYS use 'Number Slider', not MD Slider";
      JStr "For vector inputs (like 3D points), use 'MD Slider' or 'Construct Point' with multiple Number Sliders";
      JStr "Use 'Panel' to display outputs and debug values";
      JStr "When connecting multiple sliders to Addition, first slider goes to input A, second to input B";
      JStr "IMPORTANT: For slider values > 1.0, use create_slider_with_value(x, y, target_value) or specify min/max values";
      JStr "For sphere radius = 3.0, use create_slider_with_value(x, y, 3.0) to auto-set range [0.0, 6.0]" ].

(** The dict returned by [get_component_library] (lines 1313-1522). *)
Definition get_component_library : json :=
  JDict (dict_of_items
    [ ("categories",
       JList
         [ JDict (dict_of_items
             [ ("name", JStr "Params");
               ("components",
                JList
                  [ JDict (dict_of_items
                      [ ("name", JStr "Point");
                        ("fullName", JStr "Point Parameter");
                        ("description", JStr "Creates a point parameter");
                        ("inputs",
                         JList
                           [ JDict (dict_of_items
                               [ ("name", JStr "X");
                                 ("type", JStr "Number");
                                 ("description", JStr "X coordinate") ]);
                             JDict (dict_of_items
                               [ ("name", JStr "Y");
                                 ("type", JStr "Number");
                                 ("description", JStr "Y coordinate") ]);
                             JDict (dict_of_items
                               [ ("name", JStr "Z");
                                 ("type", JStr "Number");
                                 ("description", JStr "Z coordinate") ]) ]);
                        ("outputs",
                         JList
                           [ JDict (dict_of_items
                               [ ("name", JStr "Pt");
                                 ("type", JStr "Point");
                                 ("description", JStr "Point output") ]) ]) ]);
                    JDict (dict_of_items
                      [ ("name", JStr "Number Slider");
                        ("fullName", JStr "Number Slider");
                        ("description",
                         JStr "Creates a slider for numeric input with adjustable range and precision");
                        ("inputs", JList []);
                        ("outputs",
                         JList
                           [ JDict (dict_of_items
                               [ ("name", JStr "N");
                                 ("type", JStr "Number");
                                 ("description", JStr "Number output") ]) ]);
                        ("settings",
                         JDict (dict_of_items
                           [ ("min",
                              JDict (dict_of_items
                                [ ("description",
                                   JStr "Minimum value of the slider");
                                  ("default", JInt 0) ]));
                             ("max",
                              JDict (dict_of_items
                                [ ("description",
                                   JStr "Maximum value of the slider");
                                  ("default", JInt 10) ]));
                             ("value",
                              JDict (dict_of_items
                                [ ("description",
                                   JStr "Current value of the slider");
                                  ("default", JInt 5) ]));
                             ("rounding",
                              JDict (dict_of_items
                                [ ("description",
                                   JStr "Rounding precision (0.01, 0.1, 1, etc.)");
                                  ("default", JFloat (1 # 10)) ]));
                             ("type",
                              JDict (dict_of_items
                                [ ("description",
                                   JStr "Slider type (integer, floating point)");
                                  ("default", JStr "float") ]));
                             ("name",
                              JDict (dict_of_items
                                [ ("description",
                                   JStr "Custom name for the slider");
                                  ("default", JStr EmptyString) ])) ]));
                        ("usage_examples",
                         JList
                           [ JStr "Create a Number Slider with min=0, max=100, value=50";
                             JStr "Create a Number Slider for radius with min=0.1, max=10, value=2.5, rounding=0.1" ]);
                        ("common_issues",
                         JList
                           [ JStr "Confusing with other slider types";
                             JStr "Not setting appropriate min/max values for the intended use" ]);
                        ("disambiguation",
                         JDict (dict_of_items
                           [ ("similar_components",
                              JList
                                [ JDict (dict_of_items
                                    [ ("name", JStr "MD Slider");
                                      ("description",
                                       JStr "Multi-dimensional slider for vector input, NOT for simple numeric values");
                                      ("how_to_distinguish",
                                       JStr "Use Number Slider for single numeric values; use MD Slider only when you need multi-dimensional control") ]);
                                  JDict (dict_of_items
                                    [ ("name", JStr "Graph Mapper");
                                      ("description",
                                       JStr "Maps values through a graph function, NOT a simple slider");
                                      ("how_to_distinguish",
                                       JStr "Use Number Slider for direct numeric input; use Graph Mapper only for function-based mapping") ]) ]);
                             ("correct_usage",
                              JStr "When needing a simple numeric input control, ALWAYS use 'Number Slider', not MD Slider or other variants") ])) ]);
                    JDict (dict_of_items
                      [ ("name", JStr "Panel");
                        ("fullName", JStr "Panel");
                        ("description", JStr "Displays text or numeric data");
                        ("inputs",
                         JList
                           [ JDict (dict_of_items
                               [ ("name", JStr "Input");
                                 ("type", JStr "Any");
                                 ("description", JStr "Any input data") ]) ]);
                        ("outputs", JList []) ]) ]) ]);
           JDict (dict_of_items
             [ ("name", JStr "Maths");
               ("components",
                JList
                  [ JDict (dict_of_items
                      [ ("name", JStr "Math");
                        ("fullName", JStr "Mathematics");
                        ("description",
                         JStr "Performs mathematical operations");
                        ("inputs",
                         JList
                           [ JDict (dict_of_items
                               [ ("name", JStr "A");
                                 ("type", JStr "Number");
                                 ("description", JStr "First number") ]);
                             JDict (dict_of_items
                               [ ("name", JStr "B");
                                 ("type", JStr "Number");
                                 ("description", JStr "Second number") ]) ]);
                        ("outputs",
                         JList
                           [ JDict (dict_of_items
                               [ ("name", JStr "Result");
                                 ("type", JStr "Number");
                                 ("description",
                                  JStr "Result of the operation") ]) ]);
                        ("operations",
                         JList
                           [ JStr "Addition";
                             JStr "Subtraction";
                             JStr "Multiplication";
                             JStr "Division";
                             JStr "Power";
                             JStr "Modulo" ]) ]) ]) ]);
           JDict (dict_of_items
             [ ("name", JStr "Vector");
               ("components",
                JList
                  [ JDict (dict_of_items
                      [ ("name", JStr "XY Plane");
                        ("fullName", JStr "XY Plane");
                        ("description",
                         JStr "Creates an XY plane at the world origin or at a specified point");
                        ("inputs",
                         JList
                           [ JDict (dict_of_items
                               [ ("name", JStr "Origin");
                                 ("type", JStr "Point");
                                 ("description", JStr "Origin point");
                                 ("optional", JBool true) ]) ]);
                        ("outputs",
                         JList
                           [ JDict (dict_of_items
                               [ ("name", JStr "Plane");
                                 ("type", JStr "Plane");
                                 ("description", JStr "XY plane") ]) ]) ]);
                    JDict (dict_of_items
                      [ ("name", JStr "Construct Point");
                        ("fullName", JStr "Construct Point");
                        ("description",
                         JStr "Constructs a point from X, Y, Z coordinates");
                        ("inputs",
                         JList
                           [ JDict (dict_of_items
                               [ ("name", JStr "X");
                                 ("type", JStr "Number");
                                 ("description", JStr "X coordinate") ]);
                             JDict (dict_of_items
                               [ ("name", JStr "Y");
                                 ("type", JStr "Number");
                                 ("description", JStr "Y coordinate") ]);
                             JDict (dict_of_items
                               [ ("name", JStr "Z");
                                 ("type", JStr "Number");
                                 ("description", JStr "Z coordinate") ]) ]);
                        ("outputs",
                         JList
                           [ JDict (dict_of_items
                               [ ("name", JStr "Pt");
                                 ("type", JStr "Point");
                                 ("description", JStr "Constructed point") ]) ]) ]) ]) ]);
           JDict (dict_of_items
             [ ("name", JStr "Curve");
               ("components",
                JList
                  [ JDict (dict_of_items
                      [ ("name", JStr "Circle");
                        ("fullName", JStr "Circle");
                        ("description", JStr "Creates a circle");
                        ("inputs",
                         JList
                           [ JDict (dict_of_items
                               [ ("name", JStr "Plane");
                                 ("type", JStr "Plane");
                                 ("description",
                                  JStr "Base plane for the circle") ]);
                             JDict (dict_of_items
                               [ ("name", JStr "Radius");
                                 ("type", JStr "Number");
                                 ("description", JStr "Circle radius") ]) ]);
                        ("outputs",
                         JList
                           [ JDict (dict_of_items
                               [ ("name", JStr "C");
                                 ("type", JStr "Circle");
                                 ("description", JStr "Circle output") ]) ]) ]);
                    JDict (dict_of_items
                      [ ("name", JStr "Line");
                        ("fullName", JStr "Line");
                        ("description",
                         JStr "Creates a line between two points");
                        ("inputs",
                         JList
                           [ JDict (dict_of_items
                               [ ("name", JStr "Start");
                                 ("type", JStr "Point");
                                 ("description", JStr "Start point") ]);
                             JDict (dict_of_items
                               [ ("name", JStr "End");
                                 ("type", JStr "Point");
                                 ("description", JStr "End point") ]) ]);
                        ("outputs",
                         JList
                           [ JDict (dict_of_items
                               [ ("name", JStr "L");
                                 ("type", JStr "Line");
                                 ("description", JStr "Line output") ]) ]) ]) ]) ]);
           JDict (dict_of_items
             [ ("name", JStr "Surface");
               ("components",
                JList
                  [ JDict (dict_of_items
                      [ ("name", JStr "Extrude");
                        ("fullName", JStr "Extrude");
                        ("description",
                         JStr "Extrudes a curve to create a surface or a solid");
                        ("inputs",
                         JList
                           [ JDict (dict_of_items
                               [ ("name", JStr "Base");
                                 ("type", JStr "Curve");
                                 ("description", JStr "Base curve to extrude") ]);
                             JDict (dict_of_items
                               [ ("name", JStr "Direction");
                                 ("type", JStr "Vector");
                                 ("description",
                                  JStr "Direction of extrusion");
                                 ("optional", JBool true) ]);
                             JDict (dict_of_items
                               [ ("name", JStr "Height");
                                 ("type", JStr "Number");
                                 ("description", JStr "Height of extrusion") ]) ]);
                        ("outputs",
                         JList
                           [ JDict (dict_of_items
                               [ ("name", JStr "Brep");
                                 ("type", JStr "Brep");
                                 ("description", JStr "Extruded brep") ]) ]) ]) ]) ]) ]);
      ("dataTypes",
       JList
         [ JDict (dict_of_items
             [ ("name", JStr "Number");
               ("description", JStr "A numeric value");
               ("compatibleWith",
                JList [JStr "Number"; JStr "Integer"; JStr "Double"]) ]);
           JDict (dict_of_items
             [ ("name", JStr "Point");
               ("description", JStr "A 3D point in space");
               ("compatibleWith", JList [JStr "Point3d"; JStr "Point"]) ]);
           JDict (dict_of_items
             [ ("name", JStr "Vector");
               ("description", JStr "A 3D vector");
               ("compatibleWith", JList [JStr "Vector3d"; JStr "Vector"]) ]);
           JDict (dict_of_items
             [ ("name", JStr "Plane");
               ("description", JStr "A plane in 3D space");
               ("compatibleWith", JList [JStr "Plane"]) ]);
           JDict (dict_of_items
             [ ("name", JStr "Circle");
               ("description", JStr "A circle curve");
               ("compatibleWith", JList [JStr "Circle"; JStr "Curve"]) ]);
           JDict (dict_of_items
             [ ("name", JStr "Line");
               ("description", JStr "A line segment");
               ("compatibleWith", JList [JStr "Line"; JStr "Curve"]) ]);
           JDict (dict_of_items
             [ ("name", JStr "Curve");
               ("description", JStr "A curve object");
               ("compatibleWith",
                JList
                  [ JStr "Curve";
                    JStr "Circle";
                    JStr "Line";
                    JStr "Arc";
                    JStr "Polyline" ]) ]);
           JDict (dict_of_items
             [ ("name", JStr "Brep");
               ("description", JStr "A boundary representation object");
               ("compatibleWith",
                JList [JStr "Brep"; JStr "Surface"; JStr "Solid"]) ]) ]) ]).

(** ** More operations on Python values *)

(** Results of library calls in sequence. *)
Definition sbind {A B} (r : exn + A) (k : A → exn + B) : exn + B :=
  match r with
  | inl e => inl e
  | inr a => k a
  end.

Notation "'step' x '<-' e ';' k" := (sbind e (fun x => k))
  (at level 10, x name, e at level 100, k at level 200, only parsing).

Module PyObj.

(** The number a value stands for in a comparison or a sum; [True] is 1
    and [False] is 0. *)
Definition num_of (v : json) : option Q :=
  match v with
  | JBool b => Some (if b then 1 else 0)%Q
  | JInt z => Some (inject_Z z)
  | JFloat q => Some q
  | _ => None
  end.

(** [a == b]: numbers by value, strings, lists and dicts by content,
    values of different kinds are unequal. *)
Fixpoint eq (a b : json) {struct a} : bool :=
  match a, b with
  | JNull, JNull => true
  | JStr s, JStr t => String.eqb s t
  | JList l, JList k =>
      (fix eq_list (l k : list json) : bool :=
         match l, k with
         | [], [] => true
         | x :: l', y :: k' => eq x y && eq_list l' k'
         | _, _ => false
         end) l k
  | JDict d, JDict e =>
      bool_decide (dom d = dom e)
      && map_fold (fun key test acc =>
                     acc && match e !! key with
                            | Some y => test y
                            | None => false
                            end)
           true (eq <$> d)
  | _, _ =>
      match num_of a, num_of b with
      | Some p, Some q => Qeq_bool p q
      | _, _ => false
      end
  end.

(** [v[key] = value] for a string [key]. *)
Definition set_item (v : json) (key : string) (value : json) : exn + json :=
  match v with
  | JDict d => inr (JDict (<[key := value]> d))
  | _ => inl (PyVal.type_error "object does not support item assignment")
  end.

(** [v.get(key, dflt)]. *)
Definition get_or (v : json) (key : string) (dflt : json) : exn + json :=
  match v with
  | JDict d => inr (default dflt (d !! key))
  | _ => inl (PyVal.attribute_error "object has no attribute 'get'")
  end.

(** [v + n] for an integer literal [n]. *)
Definition add_int (v : json) (n : Z) : exn + json :=
  match v with
  | JInt z => inr (JInt (z + n))
  | JBool b => inr (JInt ((if b then 1 else 0) + n))
  | JFloat q => inr (JFloat (q + inject_Z n))
  | _ => inl (PyVal.type_error "unsupported operand type(s) for +")
  end.

(** [len(v)]. *)
Definition len (v : json) : exn + nat :=
  match v with
  | JList l => inr (length l)
  | JDict d => inr (size d)
  | JStr s => inr (String.length s)
  | _ => inl (PyVal.type_error "object has no len()")
  end.

(** [str(n)] for a length. *)
Fixpoint digits (fuel n : nat) (acc : string) : string :=
  match fuel with
  | O => acc
  | S fuel' =>
      let acc := String (ascii_of_nat (48 + n mod 10)) acc in
      if (n / 10 =? 0)%nat then acc else digits fuel' (n / 10) acc
  end.

Definition str_of_nat (n : nat) : string := digits (S n) n EmptyString.

End PyObj.

(** ** The second [get_all_components] *)

(** Lines 726-734.  This definition comes after the one of lines 496-556
    and takes its name: a call of [get_all_components] from inside the
    module, as in [get_grasshopper_status], runs this body. *)
Definition get_all_components (E : environment) : M json :=
  send_to_grasshopper E "get_all_components" (Some ∅).

(** ** [get_component_info] and the first [get_all_components] *)

Module Enrich.

(** [if key in lib_component: component_data[target] = lib_component[key]],
    for each pair [(key, target)] in turn. *)
Fixpoint copy_entries (keys : list (string * string))
    (lib_component component_data : json) : exn + json :=
  match keys with
  | [] => inr component_data
  | (key, target) :: keys' =>
      step present <- PyVal.contains_key key lib_component;
      if present : bool then
        step value <- PyVal.subscript lib_component key;
        step component_data <- PyObj.set_item component_data target value;
        copy_entries keys' lib_component component_data
      else copy_entries keys' lib_component component_data
  end.

(** The loop over [component_library["components"]], left at the first
    component whose [name] or [fullName] equals the type. *)
Fixpoint merge_first_match (keys : list (string * string))
    (component_type : json) (lib_components : list json)
    (component_data : json) : exn + json :=
  match lib_components with
  | [] => inr component_data
  | lib_component :: lib_components' =>
      step name <- PyVal.get lib_component "name";
      step found <-
        (if PyObj.eq name component_type then inr true
         else step full_name <- PyVal.get lib_component "fullName";
              inr (PyObj.eq full_name component_type));
      if found : bool then copy_entries keys lib_component component_data
      else merge_first_match keys component_type lib_components' component_data
  end.

(** Lines 453-468 and 522-532: [if "components" in component_library: ...]. *)
Definition merge_library (keys : list (string * string))
    (component_type component_data : json) : exn + json :=
  let component_library := get_component_library in
  step present <- PyVal.contains_key "components" component_library;
  if present : bool then
    step components <- PyVal.subscript component_library "components";
    step lib_components <- PyVal.iterate components;
    merge_first_match keys component_type lib_components component_data
  else inr component_data.

(** The entries copied by [get_component_info] (lines 458-467). *)
Definition info_keys : list (string * string) :=
  [ ("settings", "availableSettings");
    ("inputs", "inputDetails");
    ("outputs", "outputDetails");
    ("usage_examples", "usageExamples");
    ("common_issues", "commonIssues") ].

(** The entries copied by the first [get_all_components] (lines 526-531). *)
Definition all_keys : list (string * string) :=
  [ ("settings", "availableSettings");
    ("inputs", "inputDetails");
    ("outputs", "outputDetails") ].

(** The dict of slider settings read from [data] with the defaults of
    lines 550-553. *)
Definition slider_settings (data : json) : exn + gmap string json :=
  step min <- PyObj.get_or data "min" (JInt 0);
  step max <- PyObj.get_or data "max" (JInt 10);
  step value <- PyObj.get_or data "value" (JInt 5);
  step rounding <- PyObj.get_or data "rounding" (JFloat (1 # 10));
  inr (<["rounding" := rounding]> (<["value" := value]>
         (<["max" := max]> (<["min" := min]> ∅)))).

(** Lines 471-480: the settings of a Number Slider, added when absent. *)
Definition add_current_settings (component_type component_data : json)
  : exn + json :=
  if PyVal.eq_str component_type "Number Slider" then
    step present <- PyVal.contains_key "currentSettings" component_data;
    if present : bool then inr component_data
    else
      step settings <- slider_settings component_data;
      step type <- PyObj.get_or component_data "type" (JStr "float");
      PyObj.set_item component_data "currentSettings"
        (JDict (<["type" := type]> settings))
  else inr component_data.

(** The connections that leave or enter the component: those with
    [conn.get("sourceId") == id or conn.get("targetId") == id], where
    [is_id v] tests [v == id]. *)
Fixpoint related_connections (is_id : json → bool) (conns : list json)
  : exn + list json :=
  match conns with
  | [] => inr []
  | conn :: conns' =>
      step source <- PyVal.get conn "sourceId";
      step related <-
        (if is_id source then inr true
         else step target <- PyVal.get conn "targetId"; inr (is_id target));
      step rest <- related_connections is_id conns';
      inr (if related : bool then conn :: rest else rest)
  end.

(** [if related_connections: component["connections"] = related_connections]. *)
Definition attach_connections (related : list json) (component : json)
  : exn + json :=
  match related with
  | [] => inr component
  | _ => PyObj.set_item component "connections" (JList related)
  end.

(** Lines 484-492. *)
Definition add_connections (component_id : string)
    (connections component_data : json) : exn + json :=
  step listed <- Connect.and_then (PyVal.truthy connections)
                   (PyVal.contains_key "result" connections);
  if listed : bool then
    step result <- PyVal.subscript connections "result";
    step conns <- PyVal.iterate result;
    step related <-
      related_connections (fun v => PyVal.eq_str v component_id) conns;
    attach_connections related component_data
  else inr component_data.

(** The object [result] once the value under its key [result] has been
    changed in place to [data]. *)
Definition with_result (result data : json) : json :=
  match result with
  | JDict d => JDict (<["result" := data]> d)
  | _ => result
  end.

End Enrich.

(** Lines 438-494.  [component_data] is the object stored under
    [result["result"]]; what is assigned into it shows in the [result]
    that is returned. *)
Definition get_component_info (E : environment) (component_id : string)
  : M json :=
  do result <- send_to_grasshopper E "get_component_info"
                 (Some (<["id" := JStr component_id]> ∅));
  do has_result <- of_sum (Connect.and_then (PyVal.truthy result)
                             (PyVal.contains_key "result" result));
  if has_result : bool then
    do component_data <- of_sum (PyVal.subscript result "result");
    do has_type <- of_sum (PyVal.contains_key "type" component_data);
    if has_type : bool then
      do component_type <- of_sum (PyVal.subscript component_data "type");
      do component_data <-
        of_sum (Enrich.merge_library Enrich.info_keys component_type
                  component_data);
      do component_data <-
        of_sum (Enrich.add_current_settings component_type component_data);
      do connections <- send_to_grasshopper E "get_connections" None;
      do component_data <-
        of_sum (Enrich.add_connections component_id connections component_data);
      ret (Enrich.with_result result component_data)
    else ret result
  else ret result.

Module EnrichAll.

(** [connections.get("result", []) if connections else []] (line 513). *)
Definition connections_data (connections : json) : exn + json :=
  if PyVal.truthy connections
  then PyObj.get_or connections "result" (JList [])
  else inr (JList []).

(** Lines 545-554: the settings of a Number Slider, asked from the peer. *)
Definition ask_current_settings (E : environment)
    (component_id component_type component : json) : M json :=
  if PyVal.eq_str component_type "Number Slider" then
    do component_info <- send_to_grasshopper E "get_component_info"
                           (Some (<["id" := component_id]> ∅));
    do has_result <- of_sum (Connect.and_then (PyVal.truthy component_info)
                               (PyVal.contains_key "result" component_info));
    if has_result : bool then
      do info_data <- of_sum (PyVal.subscript component_info "result");
      do settings <- of_sum (Enrich.slider_settings info_data);
      of_sum (PyObj.set_item component "currentSettings" (JDict settings))
    else ret component
  else ret component.

(** Lines 517-554: the body of the loop, for one component. *)
Definition enhance (E : environment) (connections_data : json)
    (component : json) : M json :=
  do has_id <- of_sum (PyVal.contains_key "id" component);
  do has_both <- of_sum (Connect.and_then has_id
                           (PyVal.contains_key "type" component));
  if has_both : bool then
    do component_id <- of_sum (PyVal.subscript component "id");
    do component_type <- of_sum (PyVal.subscript component "type");
    do component <- of_sum (Enrich.merge_library Enrich.all_keys
                              component_type component);
    do conns <- of_sum (PyVal.iterate connections_data);
    do related <- of_sum (Enrich.related_connections
                            (fun v => PyObj.eq v component_id) conns);
    do component <- of_sum (Enrich.attach_connections related component);
    ask_current_settings E component_id component_type component
  else ret component.

(** The loop over [components] (line 516). *)
Fixpoint enhance_each (E : environment) (connections_data : json)
    (components : list json) : M (list json) :=
  match components with
  | [] => ret []
  | component :: components' =>
      do component <- enhance E connections_data component;
      do rest <- enhance_each E connections_data components';
      ret (component :: rest)
  end.

(** The value of [components] after the loop: a list holds the enhanced
    components; the strings met when iterating anything else cannot be
    assigned into. *)
Definition after_loop (components : json) (enhanced : list json) : json :=
  match components with
  | JList _ => JList enhanced
  | _ => components
  end.

End EnrichAll.

(** Lines 504-556: the first definition of [get_all_components], the one
    registered as a tool before the name is defined again at line 727. *)
Definition get_all_components_enhanced (E : environment) : M json :=
  do result <- send_to_grasshopper E "get_all_components" None;
  do has_result <- of_sum (Connect.and_then (PyVal.truthy result)
                             (PyVal.contains_key "result" result));
  if has_result : bool then
    do components <- of_sum (PyVal.subscript result "result");
    do connections <- send_to_grasshopper E "get_connections" None;
    do connections_data <- of_sum (EnrichAll.connections_data connections);
    do items <- of_sum (PyVal.iterate components);
    do enhanced <- EnrichAll.enhance_each E connections_data items;
    ret (Enrich.with_result result (EnrichAll.after_loop components enhanced))
  else ret result.

(** ** [generate_manual_setup_guide] *)

Module SetupGuide.

(** The dict [{"success": False, "error": message}]. *)
Definition failure (message : string) : json :=
  JDict (<["error" := JStr message]> (<["success" := JBool false]> ∅)).

(** [not info or not info.get("success")]. *)
Definition not_successful (info : json) : exn + bool :=
  if PyVal.truthy info then
    step success <- PyVal.get info "success";
    inr (negb (PyVal.truthy success))
  else inr true.

(** [info.get("data", {}).get("result", {})]. *)
Definition data_result (info : json) : exn + json :=
  step data <- PyObj.get_or info "data" (JDict ∅);
  PyObj.get_or data "result" (JDict ∅).

(** Lines 758-773: the first [try] block.  It leaves the function with a
    failure dict ([inl]) or goes on with the position [(x, y)] ([inr]). *)
Definition script_position (E : environment) (script_component_id : string)
  : M (json + json * json) :=
  try_except
    (do script_info <- send_to_grasshopper E "get_component_info"
                         (Some (<["id" := JStr script_component_id]> ∅));
     do failed <- of_sum (not_successful script_info);
     if failed : bool
     then ret (inl (failure "Failed to get script component info."))
     else
       do script_pos <- of_sum (data_result script_info);
       do x <- of_sum (PyObj.get_or script_pos "x" (JInt 100));
       do y <- of_sum (PyObj.get_or script_pos "y" (JInt 100));
       ret (inr (x, y)))
    (fun e =>
       ret (inl (failure ("Error getting component position: " ++ exn_str e)))).

(** Lines 783-789: the command that creates the panel. *)
Definition add_panel_command (panel_x panel_y : json) (guide_text : string)
  : gmap string json :=
  <["value" := JStr guide_text]>
    (<["name" := JStr "Setup Guide"]>
    (<["y" := panel_y]>
    (<["x" := panel_x]>
    (<["type" := JStr "Panel"]> ∅)))).

(** Lines 782-820: the second [try] block. *)
Definition show_guide (E : environment) (script_component_id : string)
    (panel_x panel_y : json) (guide_text : string) : M json :=
  try_except
    (do panel_info <- send_to_grasshopper E "add_component"
                        (Some (add_panel_command panel_x panel_y guide_text));
     do failed <- of_sum (not_successful panel_info);
     if failed : bool
     then ret (failure "Failed to create the guide panel.")
     else
       do created <- of_sum (data_result panel_info);
       do panel_id <- of_sum (PyVal.get created "id");
       do set_value_result <-
         send_to_grasshopper E "set_component_value"
           (Some (<["value" := JStr guide_text]> (<["id" := panel_id]> ∅)));
       do _ <- send_to_grasshopper E "connect_components"
                 (Some (<["targetId" := panel_id]>
                          (<["sourceId" := JStr script_component_id]> ∅)));
       ret set_value_result)
    (fun e => ret (failure ("Error creating guide panel: " ++ exn_str e))).

End SetupGuide.

(** Lines 757-820.  The sum [x + 300] of line 779 stands between the two
    [try] blocks. *)
Definition generate_manual_setup_guide (E : environment)
    (list_of_set : enumeration) (script_component_id code language : string)
    (input_params output_params : option (list param_entry)) : M json :=
  do position <- SetupGuide.script_position E script_component_id;
  match position with
  | inl failure => ret failure
  | inr (x, y) =>
      let guide_text :=
        _generate_guide_text list_of_set code language
          input_params output_params in
      do panel_x <- of_sum (PyObj.add_int x 300);
      let panel_y := y in
      SetupGuide.show_guide E script_component_id panel_x panel_y guide_text
  end.

(** ** [get_grasshopper_status] *)

Module Status.

(** [components_result.get("result", []) if components_result else []]
    (line 955). *)
Definition components_of (components_result : json) : exn + json :=
  if PyVal.truthy components_result
  then PyObj.get_or components_result "result" (JList [])
  else inr (JList []).

(** Lines 1017-1031: one entry of [conn_summary]. *)
Definition connection_summary (component conn : json) : exn + json :=
  step source <- PyVal.get conn "sourceId";
  step id <- PyVal.get component "id";
  if PyObj.eq source id then
    step target <- PyObj.get_or conn "targetId" (JStr EmptyString);
    step source_param <- PyObj.get_or conn "sourceParam" (JStr EmptyString);
    step target_param <- PyObj.get_or conn "targetParam" (JStr EmptyString);
    inr (JDict (<["targetParam" := target_param]>
                  (<["sourceParam" := source_param]>
                  (<["to" := target]>
                  (<["type" := JStr "output"]> ∅)))))
  else
    step from <- PyObj.get_or conn "sourceId" (JStr EmptyString);
    step source_param <- PyObj.get_or conn "sourceParam" (JStr EmptyString);
    step target_param <- PyObj.get_or conn "targetParam" (JStr EmptyString);
    inr (JDict (<["targetParam" := target_param]>
                  (<["sourceParam" := source_param]>
                  (<["from" := from]>
                  (<["type" := JStr "input"]> ∅))))).

Fixpoint connection_summaries (component : json) (conns : list json)
  : exn + list json :=
  match conns with
  | [] => inr []
  | conn :: conns' =>
      step entry <- connection_summary component conn;
      step rest <- connection_summaries component conns';
      inr (entry :: rest)
  end.

(** Lines 1003-1012: the [settings] entry. *)
Definition with_settings (component : json) (summary : gmap string json)
  : exn + gmap string json :=
  step present <- PyVal.contains_key "currentSettings" component;
  if present : bool then
    step settings <- PyVal.subscript component "currentSettings";
    inr (<["settings" := settings]> summary)
  else
    step type <- PyVal.get component "type";
    if PyVal.eq_str type "Number Slider" then
      step settings <- Enrich.slider_settings component;
      inr (<["settings" := JDict settings]> summary)
    else inr summary.

(** Lines 1015-1034: the [connections] entry. *)
Definition with_connections (component : json) (summary : gmap string json)
  : exn + gmap string json :=
  step present <- PyVal.contains_key "connections" component;
  if present : bool then
    step connections <- PyVal.subscript component "connections";
    step conns <- PyVal.iterate connections;
    step conn_summary <- connection_summaries component conns;
    inr match conn_summary with
        | [] => summary
        | _ => <["connections" := JList conn_summary]> summary
        end
  else inr summary.

(** Lines 993-1036: the summary of one component. *)
Definition summary (component : json) : exn + json :=
  step id <- PyObj.get_or component "id" (JStr EmptyString);
  step type <- PyObj.get_or component "type" (JStr EmptyString);
  step x <- PyObj.get_or component "x" (JInt 0);
  step y <- PyObj.get_or component "y" (JInt 0);
  let summary : gmap string json :=
    <["position" := JDict (<["y" := y]> (<["x" := x]> ∅))]>
      (<["type" := type]> (<["id" := id]> ∅)) in
  step summary <- with_settings component summary;
  step summary <- with_connections component summary;
  inr (JDict summary).

Fixpoint summaries (components : list json) : exn + list json :=
  match components with
  | [] => inr []
  | component :: components' =>
      step first <- summary component;
      step rest <- summaries components';
      inr (first :: rest)
  end.

(** The text under [canvas_summary] (line 1052). *)
Definition canvas_summary (components connections : nat) : string :=
  "Current canvas has " ++ PyObj.str_of_nat components
    ++ " components and " ++ PyObj.str_of_nat connections ++ " connections".

(** Lines 1038-1053: the dict returned when nothing fails. *)
Definition report (doc_info connections : json) (component_summaries : list json)
  : exn + json :=
  step document <- PyObj.get_or doc_info "result" (JDict ∅);
  step listed <- PyObj.get_or connections "result" (JList []);
  step listed_again <- PyObj.get_or connections "result" (JList []);
  step count <- PyObj.len listed_again;
  inr (JDict
         (<["canvas_summary" :=
              JStr (canvas_summary (length component_summaries) count)]>
         (<["recommendations" := recommendations]>
         (<["component_hints" := component_hints]>
         (<["connections" := listed]>
         (<["components" := JList component_summaries]>
         (<["document" := document]>
         (<["status" := JStr "Connected to Grasshopper"]> ∅)))))))).

(** Lines 1057-1062: the dict returned by the [except] clause. *)
Definition error_report (e : exn) : json :=
  JDict (<["connections" := JList []]>
        (<["components" := JList []]>
        (<["document" := JDict ∅]>
        (<["status" := JStr ("Error: " ++ exn_str e)]> ∅)))).

End Status.

(** Lines 949-1062. *)
Definition get_grasshopper_status (E : environment) : M json :=
  try_except
    (do doc_info <- send_to_grasshopper E "get_document_info" None;
     do components_result <- get_all_components E;
     do components <- of_sum (Status.components_of components_result);
     do connections <- send_to_grasshopper E "get_connections" None;
     do items <- of_sum (PyVal.iterate components);
     do component_summaries <- of_sum (Status.summaries items);
     of_sum (Status.report doc_info connections component_summaries))
    (fun e => ret (Status.error_report e)).

(** ** Vocabulary for the enriched answers *)

(** The connection leaves or enters the component whose id [is_id]
    recognises. *)
Definition touching (is_id : json → bool) (conn : gmap string json) : bool :=
  is_id (default JNull (conn !! "sourceId"))
  || is_id (default JNull (conn !! "targetId")).

Definition touches (component_id : string) : gmap string json → bool :=
  touching (fun v => PyVal.eq_str v component_id).

(** The settings that [get_component_info] gives a Number Slider whose
    data has none: what the data holds, or else the defaults. *)
Definition default_settings (data : gmap string json) : gmap string json :=
  <["type" := default (JStr "float") (data !! "type")]>
    (<["rounding" := default (JFloat (1 # 10)) (data !! "rounding")]>
       (<["value" := default (JInt 5) (data !! "value")]>
          (<["max" := default (JInt 10) (data !! "max")]>
             (<["min" := default (JInt 0) (data !! "min")]> ∅)))).

(** The data of a component of type [ty] once its settings are settled. *)
Definition settled (ty : json) (data : gmap string json) : gmap string json :=
  if PyVal.eq_str ty "Number Slider"
     && negb (bool_decide (is_Some (data !! "currentSettings")))
  then <["currentSettings" := JDict (default_settings data)]> data
  else data.

(** The data with the connections [related], when there are any. *)
Definition connected (related : list (gmap string json))
    (data : gmap string json) : gmap string json :=
  match related with
  | [] => data
  | _ => <["connections" := JList (JDict <$> related)]> data
  end.

(** A peer that holds the slider "s" and one wire from "s" to "t". *)
Definition slider_peer : environment :=
  answering_peer (fun text =>
    if String.eqb text "get_component_info" then
      JDict (<["result" := JDict (<["type" := JStr "Number Slider"]>
                                   (<["id" := JStr "s"]> ∅))]> ∅)
    else JDict (<["result" :=
                    JList [JDict (<["targetId" := JStr "t"]>
                                    (<["sourceId" := JStr "s"]> ∅))]]> ∅)).

(** The components for which the first [get_all_components] asks the
    peer once more: those with an [id] whose [type] is "Number Slider". *)
Definition asked_again (component : gmap string json) : bool :=
  bool_decide (is_Some (component !! "id"))
  && PyVal.eq_str (default JNull (component !! "type")) "Number Slider".

Definition slider_queries (components : list (gmap string json))
  : list command :=
  (fun component =>
     Command "get_component_info"
       (<["id" := default JNull (component !! "id")]> ∅))
    <$> List.filter asked_again components.

(** Every answer of the peer to [get_component_info] is an object whose
    [result], when it has one, is an object. *)
Definition answers_info_with_objects (E : environment) : Prop :=
  ∀ log id,
    ∃ r, reply E log (Command "get_component_info" (<["id" := id]> ∅))
         = Returned (JDict r)
         ∧ ∀ v, r !! "result" = Some v → ∃ data, v = JDict data.

(** [enhanced] has the entries of [component], but for [connections] and
    [currentSettings]. *)
Definition same_but_enrichment (component enhanced : gmap string json)
  : Prop :=
  ∀ key, key ≠ "connections" → key ≠ "currentSettings" →
         enhanced !! key = component !! key.

(** A peer with two sliders and an addition on the canvas. *)
Definition canvas_peer : environment :=
  answering_peer (fun text =>
    if String.eqb text "get_all_components" then
      JDict (<["result" :=
                JList [JDict (<["type" := JStr "Number Slider"]>
                                (<["id" := JStr "s1"]> ∅));
                       JDict (<["type" := JStr "Addition"]>
                                (<["id" := JStr "t"]> ∅));
                       JDict (<["type" := JStr "Number Slider"]>
                                (<["id" := JStr "s2"]> ∅))]]> ∅)
    else if String.eqb text "get_connections" then
      JDict (<["result" :=
                JList [JDict (<["targetId" := JStr "t"]>
                                (<["sourceId" := JStr "s1"]> ∅))]]> ∅)
    else JDict (<["result" := JDict (<["min" := JInt 1]> ∅)]> ∅)).

(** *** Answers that report success *)

(** The answer has a true [success] entry. *)
Definition succeeded (info : gmap string json) : Prop :=
  PyVal.truthy (default JNull (info !! "success")) = true.

(** [holds_result info r]: the object under [data] and then [result] in
    [info] is [r]; a missing [data] or [result] counts as an empty
    object. *)
Inductive holds_result (info : gmap string json) : gmap string json → Prop :=
| holds_no_data :
    info !! "data" = None → holds_result info ∅
| holds_no_result data :
    info !! "data" = Some (JDict data) → data !! "result" = None →
    holds_result info ∅
| holds_some_result data r :
    info !! "data" = Some (JDict data) → data !! "result" = Some (JDict r) →
    holds_result info r.

(** The commands that follow the query for the script component. *)
Definition panel_command (panel_x panel_y : json) (guide_text : string)
  : command :=
  Command "add_component"
    (SetupGuide.add_panel_command panel_x panel_y guide_text).

Definition fill_panel_command (panel_id : json) (guide_text : string)
  : command :=
  Command "set_component_value"
    (<["value" := JStr guide_text]> (<["id" := panel_id]> ∅)).

Definition wire_panel_command (script_component_id : string) (panel_id : json)
  : command :=
  Command "connect_components"
    (<["targetId" := panel_id]> (<["sourceId" := JStr script_component_id]> ∅)).

(** A peer whose every answer is [{"success": true}]. *)
Definition agreeing_peer : environment :=
  answering_peer (fun _ => JDict (<["success" := JBool true]> ∅)).

(** A peer that places the script component at the text "12". *)
Definition text_position_peer : environment :=
  answering_peer (fun _ =>
    JDict (<["data" := JDict (<["result" := JDict (<["x" := JStr "12"]> ∅)]> ∅)]>
             (<["success" := JBool true]> ∅))).

(** *** The status report *)

(** The three queries of [get_grasshopper_status]. *)
Definition status_queries : list command :=
  [Command "get_document_info" ∅; Command "get_all_components" ∅;
   connections_query].

(** The entries that every status report has. *)
Definition report_keys : list string :=
  ["status"; "document"; "components"; "connections"].

(** [summary] describes [component]: same [id] and [type] (the empty
    string when missing), and settings exactly when the component has
    [currentSettings] or is a Number Slider. *)
Definition summarises (component summary : gmap string json) : Prop :=
  summary !! "id" = Some (default (JStr EmptyString) (component !! "id"))
  ∧ summary !! "type" = Some (default (JStr EmptyString) (component !! "type"))
  ∧ summary !! "position"
    = Some (JDict (<["y" := default (JInt 0) (component !! "y")]>
                     (<["x" := default (JInt 0) (component !! "x")]> ∅)))
  ∧ (is_Some (summary !! "settings")
     ↔ is_Some (component !! "currentSettings")
       ∨ PyVal.eq_str (default JNull (component !! "type")) "Number Slider"
         = true).

(** ** The slider ranges on IEEE 754 numbers *)

(** The arguments annotated [float] are IEEE 754 binary64 numbers: there
    are two zeros, two infinities and NaN, products and sums are rounded
    to nearest (ties to even), and every comparison with NaN is false.
    [SpecFloat] of the Standard Library defines these numbers and their
    operations; [Float64] reads lines 196-211 and 237-254 on them. *)
Module Float64.

Definition float : Type := spec_float.

Definition prec : Z := 53.
Definition emax : Z := 1024.




Definition mul : float → float → float := SFmul prec emax.
Definition add : float → float → float := SFadd prec emax.
Definition div : float → float → float := SFdiv prec emax.
Definition neg : float → float := SFopp.
Definition abs : float → float := SFabs.

(** [a < b] and [a <= b]. *)
Definition ltb : float → float → bool := SFltb.
Definition leb : float → float → bool := SFleb.

(** [max(a, b)] and [min(a, b)]: the first argument unless the second is
    greater, respectively smaller. *)
Definition max (a b : float) : float := if ltb a b then b else a.
Definition min (a b : float) : float := if ltb b a then b else a.

(** The number an integer literal stands for. *)
Definition of_Z (z : Z) : float := binary_normalize prec emax z 0 false.

(** The literals of the two functions. *)
Definition zero : float := of_Z 0.
Definition one : float := of_Z 1.
Definition two : float := of_Z 2.
Definition ten : float := of_Z 10.
Definition half : float := div one two.
Definition tenth : float := div one ten.
Definition hundredth : float := div one (of_Z 100).


(** Lines 237-246: the locals [min_val] and [max_val]. *)
Definition min_val (target_value : float) : float :=
  if leb target_value zero then
    if ltb target_value zero then min (mul target_value two) (neg ten)
    else neg ten
  else if leb target_value one then zero
  else zero.

Definition max_val (target_value : float) : float :=
  if leb target_value zero then max ten (mul (abs target_value) two)
  else if leb target_value one then max two (mul target_value two)
  else max (mul target_value two) (add target_value ten).

(** Lines 249-254: the local [precision]. *)
Definition precision (target_value : float) : float :=
  if ltb (abs target_value) tenth then hundredth
  else if ltb (abs target_value) one then tenth
  else half.

(** Lines 196-211: the bounds [(min, max)] that [add_component] infers
    for a slider with a value and no bounds. *)
Definition auto_adjust_range (value : float) : float * float :=
  if ltb one value then (zero, max ten (mul value two))
  else if ltb value zero then
    (min (mul value two) (neg ten), max ten (mul (abs value) two))
  else (zero, max two (mul value two)).

(** *** The order of the numbers, in integers *)

(** A number that is not NaN, as a triple of integers ordered
    lexicographically: the class (infinities outermost, zeros in the
    middle), then exponent and mantissa, both negated for a negative
    number. *)
Definition key (a : float) : Z * Z * Z :=
  match a with
  | S754_nan => (0, 0, 0)
  | S754_infinity true => (-2, 0, 0)
  | S754_infinity false => (2, 0, 0)
  | S754_zero _ => (0, 0, 0)
  | S754_finite true m e => (-1, - e, - Zpos m)
  | S754_finite false m e => (1, e, Zpos m)
  end%Z.



End Float64.

(** ** Vocabulary for the choice of the target port *)

(** [v] is a number equal to zero: the integer 0, a float that is zero,
    or [False]. *)
Definition is_zero (v : json) : Prop :=
  match v with
  | JInt z => z = 0%Z
  | JFloat q => (q == 0)%Q
  | JBool b => b = false
  | _ => False
  end.

(** The connection goes into [target_id] and sits on its first input: its
    [targetParam] is "A" or its [targetParamIndex] is zero. *)
Definition sits_on_first (target_id : string) (conn : gmap string json) : Prop :=
  conn !! "targetId" = Some (JStr target_id)
  ∧ (conn !! "targetParam" = Some (JStr "A")
     ∨ ∃ i, conn !! "targetParamIndex" = Some i ∧ is_zero i).

Definition first_input_in_use (target_id : string)
    (conns : list (gmap string json)) : Prop :=
  ∃ conn, conn ∈ conns ∧ sits_on_first target_id conn.

(** The answer is an object that reports no type: it has no [result], or
    its [result] is an object without [type]. *)
Definition reports_no_type (target_info : json) : Prop :=
  ∃ d, target_info = JDict d
       ∧ (d !! "result" = None
          ∨ ∃ r, d !! "result" = Some (JDict r) ∧ r !! "type" = None).

(** One connection into "t", on the input with index 0. *)
Definition connection_into_index_0 : gmap string json :=
  <["targetParamIndex" := JInt 0]>
    (<["targetId" := JStr "t"]> (<["sourceId" := JStr "s0"]> ∅)).

(** The peer holds an Addition "t" whose input 0 is connected. *)
Definition indexed_peer : environment :=
  answering_peer (fun text =>
    if String.eqb text "get_component_info" then addition_info
    else if String.eqb text "get_connections"
    then JDict (<["result" := JList [JDict connection_into_index_0]]> ∅)
    else JDict (<["success" := JBool true]> ∅)).

(** * Properties *)

(** ** Computations that leave the command list alone *)

Definition silent {A} (c : M A) : Prop := ∀ log, (c log).2 = log.

Create HintDb silent discriminated.

Lemma silent_ret {A} (a : A) : silent (ret a).
Proof. by intros log. Qed.

Lemma silent_raise {A} (e : exn) : silent (@raise A e).
Proof. by intros log. Qed.

Lemma silent_of_sum {A} (r : exn + A) : silent (of_sum r).
Proof. by destruct r; intros log. Qed.

Lemma silent_may_fail (r : option exn) : silent (may_fail r).
Proof. by destruct r; intros log. Qed.

Lemma silent_of_outcome {A} (o : outcome A) : silent (of_outcome o).
Proof. by intros log. Qed.

Lemma silent_bind {A B} (c : M A) (k : A → M B) :
  silent c → (∀ a, silent (k a)) → silent (bind c k).
Proof.
  intros Hc Hk log. unfold bind. specialize (Hc log).
  destruct (c log) as [[a|e|] log']; simpl in *; subst; auto.
  apply Hk.
Qed.

Lemma silent_try_except {A} (body : M A) (handler : exn → M A) :
  silent body → (∀ e, silent (handler e)) → silent (try_except body handler).
Proof.
  intros Hb Hh log. unfold try_except. specialize (Hb log).
  destruct (body log) as [[a|e|] log']; simpl in *; subst; auto.
  apply Hh.
Qed.

Lemma bind_silent_log {A B} (c : M A) (k : A → M B) log :
  (∀ a, silent (k a)) → (bind c k log).2 = (c log).2.
Proof.
  intros Hk. unfold bind.
  destruct (c log) as [[a|e|] log']; simpl; auto. apply Hk.
Qed.

#[export] Hint Resolve silent_ret silent_raise silent_of_sum silent_may_fail
  silent_of_outcome silent_bind silent_try_except : silent.

Lemma silent_exchange_body E x : silent (Transport.exchange_body E x).
Proof. unfold Transport.exchange_body. auto 20 with silent. Qed.

#[export] Hint Resolve silent_exchange_body : silent.

(** The command issued by a call of [send_to_grasshopper]. *)
Lemma send_to_grasshopper_log E ty params log :
  (send_to_grasshopper E ty params log).2
  = (log ++ [Command ty (default ∅ params)])%list.
Proof.
  unfold send_to_grasshopper.
  apply (silent_try_except _ _ (silent_exchange_body _ _)).
  intros e. apply silent_ret.
Qed.

(** ** The transport client *)

Lemma exchange_body_raises E x log e :
  (Transport.exchange_body E x log).1 = Raised e ↔ first_failure E x e.
Proof.
  unfold Transport.exchange_body, bind, may_fail, of_outcome, of_sum, ret, raise.
  split.
  - destruct (socket_fails x) as [e1|] eqn:H1; simpl.
    { intros [= ->]. by apply socket_failure. }
    destruct (connect_fails x) as [e2|] eqn:H2; simpl.
    { intros [= ->]. by apply connect_failure. }
    destruct (sendall_fails x) as [e3|] eqn:H3; simpl.
    { intros [= ->]. by apply sendall_failure. }
    destruct (Transport.recv_loop _ _) as [data|e4|] eqn:H4; simpl;
      [| intros [= ->]; by apply recv_failure | done].
    destruct (utf8_sig_decode E data) as [e5|text] eqn:H5; simpl.
    { intros [= ->]. by eapply decode_failure. }
    destruct (json_loads E _) as [e6|response] eqn:H6; simpl.
    { intros [= ->]. by eapply json_failure. }
    destruct (close_fails x) as [e7|] eqn:H7; simpl; [|done].
    intros [= ->]. by eapply close_failure.
  - intros [ e' H1 | e' H1 H2 | e' H1 H2 H3 | e' H1 H2 H3 H4
           | e' data H1 H2 H3 H4 H5 | e' data text H1 H2 H3 H4 H5 H6
           | e' data text response H1 H2 H3 H4 H5 H6 H7 ];
      repeat match goal with H : _ = _ |- _ => rewrite H; simpl end; done.
Qed.

Lemma failure_response_shape e :
  ∃ d, Transport.failure_response e = JDict d
       ∧ d !! "success" = Some (JBool false)
       ∧ d !! "error" = Some (JStr (Transport.error_prefix ++ exn_str e))
       ∧ dom d = {["success"; "error"]}.
Proof.
  eexists. split; [reflexivity|]. split; [|split].
  - by rewrite lookup_insert_ne, lookup_insert_eq.
  - by rewrite lookup_insert_eq.
  - rewrite !dom_insert_L. set_solver.
Qed.


Lemma send_to_grasshopper_failure E command_type params log e :
  first_failure E
    (peer E (log ++ [Command command_type (default ∅ params)])%list) e →
  (send_to_grasshopper E command_type params log).1
  = Returned (Transport.failure_response e).
Proof.
  intros He.
  apply (exchange_body_raises E _
           (log ++ [Command command_type (default ∅ params)])%list) in He.
  unfold send_to_grasshopper, try_except.
  by destruct (Transport.exchange_body _ _ _) as [[a|e'|] log']; simplify_eq/=.
Qed.



(** ** Slider ranges *)

Lemma ltb_lt a b : PyNum.ltb a b = true ↔ (a < b)%Q.
Proof.
  unfold PyNum.ltb. rewrite negb_true_iff, <- not_true_iff_false, Qle_bool_iff.
  split; [apply Qnot_le_lt | apply Qlt_not_le].
Qed.

Lemma ltb_ge a b : PyNum.ltb a b = false ↔ (b <= a)%Q.
Proof.
  unfold PyNum.ltb. by rewrite negb_false_iff, Qle_bool_iff.
Qed.

Lemma leb_gt a b : Qle_bool a b = false ↔ (b < a)%Q.
Proof.
  rewrite <- not_true_iff_false, Qle_bool_iff.
  split; [apply Qnot_le_lt | apply Qlt_not_le].
Qed.

(** Turns the tests of the source into order facts. *)
Ltac order_facts :=
  repeat match goal with
    | H : PyNum.ltb _ _ = true |- _ => apply ltb_lt in H
    | H : PyNum.ltb _ _ = false |- _ => apply ltb_ge in H
    | H : Qle_bool _ _ = true |- _ => apply Qle_bool_iff in H
    | H : Qle_bool _ _ = false |- _ => apply leb_gt in H
    end.

Ltac split_tests :=
  repeat match goal with
    | |- context [PyNum.ltb ?a ?b] => destruct (PyNum.ltb a b) eqn:?
    | |- context [Qle_bool ?a ?b] => destruct (Qle_bool a b) eqn:?
    end.

Lemma max_bounds a b : (a <= PyNum.max a b ∧ b <= PyNum.max a b)%Q.
Proof. unfold PyNum.max. split_tests; order_facts; lra. Qed.

Lemma min_bounds a b : (PyNum.min a b <= a ∧ PyNum.min a b <= b)%Q.
Proof. unfold PyNum.min. split_tests; order_facts; lra. Qed.

Lemma max_is_Qmax a b : (PyNum.max a b == Qmax a b)%Q.
Proof.
  unfold PyNum.max. split_tests; order_facts.
  - symmetry. apply Q.max_r. lra.
  - symmetry. by apply Q.max_l.
Qed.

(** What the two slider tools issue. *)

Lemma add_component_log E component_type x y min_value max_value value log :
  (add_component E component_type x y min_value max_value value log).2
  = (log ++ [Command "add_component"
               (add_component_params component_type x y min_value max_value value)])%list.
Proof. apply send_to_grasshopper_log. Qed.

Lemma create_slider_with_value_log E x y target_value name log :
  (create_slider_with_value E x y target_value name log).2
  = (log ++ [Command "add_component"
               (create_slider_with_value_params x y target_value name)])%list.
Proof.
  unfold create_slider_with_value. rewrite bind_silent_log.
  - apply send_to_grasshopper_log.
  - intros result. apply silent_bind; [|intros ok; apply silent_bind].
    + destruct (PyVal.truthy result); auto with silent.
    + destruct (PyVal.truthy ok); auto with silent.
    + auto with silent.
Qed.

Lemma create_slider_with_value_params_lookup x y target_value name :
  let params := create_slider_with_value_params x y target_value name in
  params !! "min" = Some (JFloat (min_val target_value))
  ∧ params !! "max" = Some (JFloat (max_val target_value))
  ∧ params !! "value" = Some (JFloat target_value)
  ∧ params !! "rounding" = Some (JFloat (precision target_value)).
Proof.
  unfold create_slider_with_value_params.
  destruct (negb _); repeat split; by simplify_map_eq.
Qed.

Lemma add_component_params_slider component_type x y value :
  is_slider_type component_type →
  let params := add_component_params component_type x y None None (Some value) in
  params !! "value" = Some (JFloat value)
  ∧ ((1 < value)%Q →
       params !! "min" = Some (JFloat 0)
       ∧ params !! "max" = Some (JFloat (PyNum.max 10 (value * 2))))
  ∧ ((value < 0)%Q →
       params !! "min" = Some (JFloat (PyNum.min (value * 2) (-10)))
       ∧ params !! "max" = Some (JFloat (PyNum.max 10 (PyNum.abs value * 2))))
  ∧ ((0 <= value)%Q → (value <= 1)%Q →
       params !! "min" = Some (JFloat 0)
       ∧ params !! "max" = Some (JFloat (PyNum.max 2 (value * 2)))).
Proof.
  unfold is_slider_type, add_component_params. intros ->.
  unfold auto_adjust_range, set_if_given; simpl.
  split_tests; order_facts; repeat split; intros; try lra; by simplify_map_eq.
Qed.

(** C1 (as the code has it).  For the value 3.0 the two inference paths give
    different maxima: [add_component] with a slider type, [value = 3.0]
    and no bounds issues [max = 10.0], from [max(10.0, value * 2)];
    [create_slider_with_value] with [target_value = 3.0] issues
    [max = 13.0], from [max(target * 2, target + 10.0)]. *)
Theorem slider_paths_at_three E component_type x y name log :
  is_slider_type component_type →
  ∃ simple rich,
    issues (add_component E component_type x y None None (Some 3%Q)) log
      (Command "add_component" simple)
    ∧ simple !! "max" = Some (JFloat 10)
    ∧ issues (create_slider_with_value E x y 3 name) log
        (Command "add_component" rich)
    ∧ rich !! "max" = Some (JFloat 13).
Proof.
  intros Hslider. do 2 eexists. split; [apply add_component_log|].
  split; [|split; [apply create_slider_with_value_log|]].
  - destruct (add_component_params_slider component_type x y 3 Hslider)
      as (_ & Hbig & _).
    by destruct Hbig as [_ ->].
  - by destruct (create_slider_with_value_params_lookup x y 3 name) as (_ & -> & _).
Qed.

Lemma slider_paths_at_three_witness :
  ∃ simple rich,
    issues (add_component refusing_peer "slider" 0 0 None None (Some 3%Q)) []
      (Command "add_component" simple)
    ∧ simple !! "max" = Some (JFloat 10)
    ∧ issues (create_slider_with_value refusing_peer 0 0 3 EmptyString) []
        (Command "add_component" rich)
    ∧ rich !! "max" = Some (JFloat 13).
Proof.
  apply (slider_paths_at_three refusing_peer "slider" 0 0 EmptyString []).
  vm_compute. reflexivity.
Defined.

(** The maximum issued by [add_component] for a slider with value 3.0 is
    not 6.0. *)
Lemma simple_path_max_at_three_is_not_six :
  ¬ ∃ simple q,
      issues (add_component refusing_peer "slider" 0 0 None None (Some 3%Q)) []
        (Command "add_component" simple)
      ∧ simple !! "max" = Some (JFloat q) ∧ (q == 6)%Q.
Proof.
  intros (simple & q & Hissues & Hmax & Hq).
  unfold issues in Hissues. rewrite add_component_log in Hissues.
  apply app_inv_head in Hissues. injection Hissues as Hsimple. subst simple.
  vm_compute in Hmax. injection Hmax as Hten. subst q.
  vm_compute in Hq. discriminate Hq.
Qed.

(** ** Binary64 numbers: order and doubling *)

Section Float64_facts.
Import Float64.
Local Open Scope Z_scope.


















End Float64_facts.

Section Slider_ranges.
Import Float64.












End Slider_ranges.




(** C3 (as the code has it).  For every target with [0 < target <= 1] the
    range issued by [create_slider_with_value] has [min = 0] and
    [max = max(2, target * 2)]; for [target = 0] it has [min = -10] and
    [max = 10]. *)
Theorem rich_range_up_to_one E x y target_value name log :
  ∃ params,
    issues (create_slider_with_value E x y target_value name) log
      (Command "add_component" params)
    ∧ ((0 < target_value)%Q → (target_value <= 1)%Q →
         params !! "min" = Some (JFloat 0)
         ∧ ∃ mx, params !! "max" = Some (JFloat mx)
                 ∧ (mx == Qmax 2 (target_value * 2))%Q)
    ∧ ((target_value == 0)%Q →
         ∃ mn mx, params !! "min" = Some (JFloat mn) ∧ (mn == -10)%Q
                  ∧ params !! "max" = Some (JFloat mx) ∧ (mx == 10)%Q).
Proof.
  destruct (create_slider_with_value_params_lookup x y target_value name)
    as (Hmin & Hmax & _).
  eexists. split; [apply create_slider_with_value_log|].
  rewrite Hmin, Hmax. split.
  - intros Hpos Hle. unfold min_val, max_val.
    apply leb_gt in Hpos. apply Qle_bool_iff in Hle. rewrite Hpos, Hle.
    split; [done|]. eexists. split; [done|]. apply max_is_Qmax.
  - intros Hzero. eexists _, _. split; [done|]. split; [|split; [done|]].
    + unfold min_val. split_tests; order_facts; lra.
    + unfold max_val. pose proof (Qabs_nonneg target_value).
      assert (Qabs target_value == 0)%Q as Habs by (rewrite Hzero; reflexivity).
      unfold PyNum.max, PyNum.abs. split_tests; order_facts; lra.
Qed.

Lemma rich_range_up_to_one_witness :
  ∃ params,
    issues (create_slider_with_value refusing_peer 0 0 (1 # 2) EmptyString) []
      (Command "add_component" params)
    ∧ params !! "min" = Some (JFloat 0)
    ∧ ∃ mx, params !! "max" = Some (JFloat mx) ∧ (mx == Qmax 2 ((1 # 2) * 2))%Q.
Proof.
  destruct (rich_range_up_to_one refusing_peer 0 0 (1 # 2) EmptyString [])
    as (params & Hissues & Hsmall & _).
  exists params. split; [exact Hissues|].
  apply Hsmall; by vm_compute.
Defined.

(** At [target = 0] the minimum issued by [create_slider_with_value] is
    not 0. *)
Lemma rich_range_at_zero_min_is_not_zero :
  ¬ ∃ params mn,
      issues (create_slider_with_value refusing_peer 0 0 0 EmptyString) []
        (Command "add_component" params)
      ∧ params !! "min" = Some (JFloat mn) ∧ (mn == 0)%Q.
Proof.
  intros (params & mn & Hissues & Hmin & Hmn).
  unfold issues in Hissues. rewrite create_slider_with_value_log in Hissues.
  apply app_inv_head in Hissues. injection Hissues as Hparams. subst params.
  vm_compute in Hmin. injection Hmin as Hten. subst mn.
  vm_compute in Hmn. discriminate Hmn.
Qed.

(** ** Component names *)

Lemma between_spec lo hi c :
  PyStr.between lo hi c = true ↔ (lo <= PyStr.code c ∧ PyStr.code c <= hi)%N.
Proof. unfold PyStr.between. rewrite andb_true_iff, !N.leb_le. done. Qed.

Lemma between_false lo hi c :
  PyStr.between lo hi c = false ↔ (PyStr.code c < lo ∨ hi < PyStr.code c)%N.
Proof.
  unfold PyStr.between. rewrite andb_false_iff, !N.leb_gt. done.
Qed.

Lemma ascii_of_code c : ascii_of_N (PyStr.code c) = c.
Proof. apply ascii_N_embedding. Qed.

Lemma same_letter_to_lower c c' :
  same_letter c c' → PyStr.to_lower c' = PyStr.to_lower c.
Proof.
  unfold same_letter, PyStr.to_lower, PyStr.is_upper, PyStr.is_lower.
  intros [-> | [[Hl Hc] | [Hu Hc]]]; [done | |].
  - apply between_spec in Hl.
    assert (PyStr.between 65 90 c' = true) as -> by (apply between_spec; lia).
    assert (PyStr.between 65 90 c = false) as -> by (apply between_false; lia).
    by rewrite <- Hc, ascii_of_code.
  - rewrite Hu. apply between_spec in Hu.
    assert (PyStr.between 65 90 c' = false) as -> by (apply between_false; lia).
    by rewrite <- Hc, ascii_of_code.
Qed.

Lemma case_variant_lower s s' :
  case_variant s s' → PyStr.lower s' = PyStr.lower s.
Proof.
  induction 1 as [|c c' s s' Hc _ IH]; simpl; [done|].
  by rewrite IH, (same_letter_to_lower c c').
Qed.

Lemma dict_of_items_lookup {V} (items : list (string * V)) key v :
  dict_of_items items !! key = Some v → (key, v) ∈ items.
Proof.
  unfold dict_of_items.
  assert (∀ d : gmap string V,
            foldl (fun d kv => <[kv.1 := kv.2]> d) d items !! key = Some v →
            d !! key = Some v ∨ (key, v) ∈ items) as Hgen.
  { induction items as [|[k w] items IH]; intros d; simpl; [by left|].
    intros [Hd | Hin]%IH; [|right; by right].
    destruct (decide (k = key)) as [->|Hne].
    - rewrite lookup_insert_eq in Hd. simplify_eq. right. by left.
    - rewrite lookup_insert_ne in Hd by done. by left. }
  intros [Hd | Hin]%Hgen; [by rewrite lookup_empty in Hd | done].
Qed.

Lemma component_mapping_keys_lower key canonical :
  component_mapping !! key = Some canonical → PyStr.lower key = key.
Proof.
  intros Hin%dict_of_items_lookup.
  assert (Forall (fun kv => PyStr.lower kv.1 = kv.1) component_mapping_items)
    as Hall by (repeat constructor).
  rewrite Forall_forall in Hall. apply (Hall _ Hin).
Qed.

Lemma add_component_params_type component_type x y min_value max_value value :
  add_component_params component_type x y min_value max_value value !! "type"
  = Some (JStr (normalize_component_type component_type)).
Proof.
  unfold add_component_params.
  destruct (PyStr.contains _ _); [|by simplify_map_eq].
  unfold auto_adjust_range, set_if_given.
  destruct min_value, max_value, value; simpl; split_tests; by simplify_map_eq.
Qed.

(** C8.  Component-name resolution lower-cases the raw name and looks it
    up in the alias table: every case variant of a table key resolves to
    the key's canonical name, hence to what the key itself resolves to; a
    name whose lower-casing is not a key is returned unchanged; "toggle"
    gives "Boolean Toggle", "add" and "+" give "Addition", and "gizmo"
    stays "gizmo".  The resolved name is the [type] that [add_component]
    sends. *)
Theorem component_name_resolution :
  (∀ key canonical variant,
     component_mapping !! key = Some canonical →
     case_variant key variant →
     normalize_component_type variant = canonical
     ∧ normalize_component_type variant = normalize_component_type key)
  ∧ (∀ name,
       component_mapping !! PyStr.lower name = None →
       normalize_component_type name = name)
  ∧ normalize_component_type "toggle" = "Boolean Toggle"
  ∧ normalize_component_type "add" = "Addition"
  ∧ normalize_component_type "+" = "Addition"
  ∧ normalize_component_type "gizmo" = "gizmo"
  ∧ (∀ component_type x y min_value max_value value,
       add_component_params component_type x y min_value max_value value !! "type"
       = Some (JStr (normalize_component_type component_type))).
Proof.
  split; [|split; [|split; [|split; [|split; [|split]]]]].
  - intros key canonical variant Hkey Hvariant.
    pose proof (component_mapping_keys_lower key canonical Hkey) as Hlower.
    unfold normalize_component_type.
    rewrite (case_variant_lower _ _ Hvariant), Hlower, Hkey. done.
  - intros name Hnone. unfold normalize_component_type. by rewrite Hnone.
  - by vm_compute.
  - by vm_compute.
  - by vm_compute.
  - by vm_compute.
  - apply add_component_params_type.
Qed.

Lemma component_name_resolution_witness :
  normalize_component_type "ToGgLe" = "Boolean Toggle"
  ∧ normalize_component_type "ToGgLe" = normalize_component_type "toggle".
Proof.
  apply (proj1 component_name_resolution "toggle" "Boolean Toggle" "ToGgLe").
  - by vm_compute.
  - repeat (apply case_variant_char;
            [first [ by left | right; left; by vm_compute | right; right; by vm_compute ]|]).
    apply case_variant_empty.
Defined.

(** ** Connections *)

Lemma send_to_grasshopper_reply E ty params log :
  send_to_grasshopper E ty (Some params) log
  = (reply E log (Command ty params), (log ++ [Command ty params])%list).
Proof.
  unfold reply. cbn [cmd_type cmd_parameters].
  pose proof (send_to_grasshopper_log E ty (Some params) log) as Hlog.
  change (default ∅ (Some params)) with params in Hlog.
  destruct (send_to_grasshopper _ _ _ _) as [o log']. cbn [fst snd] in *.
  by subst.
Qed.

Lemma send_to_grasshopper_no_params E ty log :
  send_to_grasshopper E ty None log = send_to_grasshopper E ty (Some ∅) log.
Proof. reflexivity. Qed.

Lemma into_spec target_id conn :
  into target_id conn = true ↔ conn !! "targetId" = Some (JStr target_id).
Proof.
  unfold into. destruct (conn !! "targetId") as [[]|]; simpl; try (by split).
  rewrite String.eqb_eq. split; congruence.
Qed.

Lemma connections_to_dicts target_id (conns : list (gmap string json)) :
  Connect.connections_to target_id (JDict <$> conns)
  = inr (JDict <$> List.filter (into target_id) conns).
Proof.
  induction conns as [|conn conns IH]; [done|].
  rewrite fmap_cons. cbn [Connect.connections_to PyVal.get List.filter].
  rewrite IH. fold (into target_id conn). by destruct (into target_id conn).
Qed.

Lemma existing_connections_listed target_id connections conns :
  lists_connections connections conns →
  Connect.existing_connections target_id connections
  = inr (JDict <$> List.filter (into target_id) conns).
Proof.
  intros [d Hd | d conns' Hd];
    unfold Connect.existing_connections, Connect.and_then,
      PyVal.truthy, PyVal.contains_key, PyVal.subscript, PyVal.iterate.
  - rewrite (bool_decide_eq_false_2 (is_Some (d !! "result")))
      by (rewrite Hd; by intros [x Hx]).
    by destruct (negb _).
  - assert (d ≠ ∅) as Hne by (intros ->; by rewrite lookup_empty in Hd).
    rewrite (bool_decide_eq_false_2 _ Hne).
    rewrite (bool_decide_eq_true_2 (is_Some (d !! "result"))) by (by rewrite Hd).
    cbn [negb]. rewrite Hd. apply connections_to_dicts.
Qed.

Lemma occupies_first_input_dict (conn : gmap string json) :
  ∃ b, Connect.occupies_first_input (JDict conn) = inr b
       ∧ (b = true ↔
          conn !! "targetParam" = Some (JStr "A")
          ∨ ∃ i, conn !! "targetParamIndex" = Some i ∧ PyVal.eq_zero i = true).
Proof.
  unfold Connect.occupies_first_input; simpl.
  destruct (PyVal.eq_str (default JNull (conn !! "targetParam")) "A") eqn:Hname.
  - exists true. split; [done|]. split; [|done]. intros _. left.
    destruct (conn !! "targetParam") as [[]|]; simpl in Hname; try done.
    apply String.eqb_eq in Hname. by subst.
  - eexists. split; [done|]. split.
    + intros Hzero. right. destruct (conn !! "targetParamIndex") as [i|]; [eauto|done].
    + intros [Hname' | (i & Hi & Hzero)].
      * by rewrite Hname' in Hname.
      * by rewrite Hi.
Qed.

Lemma first_input_occupied_dicts target_id (conns : list (gmap string json)) :
  ∃ b, Connect.first_input_occupied (JDict <$> List.filter (into target_id) conns)
       = inr b
       ∧ (b = true ↔ first_input_taken target_id conns).
Proof.
  unfold first_input_taken.
  induction conns as [|conn conns (b & Hb & IH)]; simpl.
  - exists false. split; [done|]. split; [done|]. by intros (conn & ?%elem_of_nil & _).
  - destruct (into target_id conn) eqn:Hinto; simpl.
    + destruct (occupies_first_input_dict conn) as (b1 & -> & Hb1).
      destruct b1.
      * exists true. split; [done|]. split; [|done]. intros _.
        exists conn. split; [by left|]. split; [by apply into_spec | by apply Hb1].
      * exists b. split; [done|]. rewrite IH. split.
        -- intros (c & Hc & Hocc). exists c. split; [by right | done].
        -- intros (c & [-> | Hc]%elem_of_cons & Hocc); [|by exists c].
           destruct Hocc as [_ Hocc]. apply Hb1 in Hocc. done.
    + exists b. split; [done|]. rewrite IH. split.
      * intros (c & Hc & Hocc). exists c. split; [by right | done].
      * intros (c & [-> | Hc]%elem_of_cons & Hocc); [|by exists c].
        destruct Hocc as [Hid _]. apply into_spec in Hid. congruence.
Qed.

Lemma reports_type_guard target_info ty :
  reports_type target_info ty →
  Connect.has_result_type target_info = inr true
  ∧ ∃ r, PyVal.subscript target_info "result" = inr (JDict r)
         ∧ PyVal.subscript (JDict r) "type" = inr ty.
Proof.
  intros (d & r & -> & Hd & Hr).
  assert (d ≠ ∅) as Hne by (intros ->; by rewrite lookup_empty in Hd).
  unfold Connect.has_result_type, Connect.and_then,
    PyVal.truthy, PyVal.contains_key, PyVal.subscript.
  rewrite (bool_decide_eq_false_2 _ Hne).
  rewrite (bool_decide_eq_true_2 (is_Some (d !! "result"))) by (by rewrite Hd).
  cbn [negb]. rewrite Hd.
  rewrite (bool_decide_eq_true_2 (is_Some (r !! "type"))) by (by rewrite Hr).
  split; [done|]. exists r. by rewrite Hr.
Qed.

(** With a typed target and a well-formed list of connections, the call
    makes its two queries and then connects with the port that
    [assign_target_param] gives. *)
Lemma connect_components_typed E source_id target_id source_param target_param
    source_param_index target_param_index log target_info ty connections conns :
  reply E log (info_query target_id) = Returned target_info →
  reports_type target_info ty →
  reply E (log ++ [info_query target_id])%list connections_query = Returned connections →
  lists_connections connections conns →
  ∃ chosen,
    Connect.assign_target_param ty
      (JDict <$> List.filter (into target_id) conns)
      target_param target_param_index = inr chosen
    ∧ connect_components E source_id target_id source_param target_param
        source_param_index target_param_index log
      = send_to_grasshopper E "connect_components"
          (Some (Connect.connect_params source_id target_id source_param chosen
                   source_param_index target_param_index))
          (log ++ [info_query target_id; connections_query])%list.
Proof.
  intros Hinfo Htype Hconns Hlisted.
  destruct (reports_type_guard _ _ Htype) as (Hguard & r & Hresult & Hty).
  pose proof (existing_connections_listed target_id _ _ Hlisted) as Hexisting.
  assert (∃ chosen,
            Connect.assign_target_param ty
              (JDict <$> List.filter (into target_id) conns)
              target_param target_param_index = inr chosen) as [chosen Hchosen].
  { unfold Connect.assign_target_param.
    destruct (first_input_occupied_dicts target_id conns) as (b & -> & _).
    destruct (Connect.is_binary_input_type ty),
      (is_None target_param && is_None target_param_index), b; eauto. }
  exists chosen. split; [done|].
  unfold connect_components, bind.
  rewrite send_to_grasshopper_reply. fold (info_query target_id). rewrite Hinfo.
  rewrite Hguard. cbn [of_sum ret]. rewrite Hresult. cbn [of_sum ret].
  rewrite Hty. cbn [of_sum ret].
  rewrite send_to_grasshopper_no_params, send_to_grasshopper_reply.
  fold connections_query. rewrite Hconns.
  rewrite Hexisting. cbn [of_sum ret]. rewrite Hchosen. cbn [of_sum ret].
  by rewrite <- app_assoc.
Qed.

(** Without type information the call connects at once, with the ports the
    caller gave. *)
Lemma connect_components_untyped E source_id target_id source_param target_param
    source_param_index target_param_index log target_info :
  reply E log (info_query target_id) = Returned target_info →
  Connect.has_result_type target_info = inr false →
  connect_components E source_id target_id source_param target_param
    source_param_index target_param_index log
  = send_to_grasshopper E "connect_components"
      (Some (Connect.connect_params source_id target_id source_param target_param
               source_param_index target_param_index))
      (log ++ [info_query target_id])%list.
Proof.
  intros Hinfo Hguard.
  unfold connect_components, bind.
  rewrite send_to_grasshopper_reply. fold (info_query target_id). rewrite Hinfo.
  rewrite Hguard. by cbn [of_sum ret].
Qed.

Lemma connect_params_target source_id target_id source_param target_param
    source_param_index target_param_index :
  let params := Connect.connect_params source_id target_id source_param
                  target_param source_param_index target_param_index in
  params !! "sourceId" = Some (JStr source_id)
  ∧ params !! "targetId" = Some (JStr target_id)
  ∧ params !! "targetParam" = JStr <$> target_param
  ∧ params !! "targetParamIndex"
    = (if target_param is Some _ then None else JInt <$> target_param_index)
  ∧ params !! "sourceParam" = JStr <$> source_param
  ∧ params !! "sourceParamIndex"
    = (if source_param is Some _ then None else JInt <$> source_param_index).
Proof.
  unfold Connect.connect_params, Connect.set_port.
  destruct source_param, source_param_index, target_param, target_param_index;
    repeat split; by simplify_map_eq.
Qed.

Lemma is_binary_input_type_spec ty :
  Connect.is_binary_input_type ty = true
  ↔ ∃ name, ty = JStr name ∧ name ∈ Connect.binary_input_types.
Proof.
  unfold Connect.is_binary_input_type. rewrite existsb_exists. split.
  - intros (name & Hin & Heq). destruct ty; try done. simpl in Heq.
    apply String.eqb_eq in Heq. subst. exists name.
    split; [done|]. by apply list_elem_of_In.
  - intros (name & -> & Hin). exists name.
    split; [by apply list_elem_of_In|]. simpl. apply String.eqb_refl.
Qed.

(** ** The target port that [connect_components] chooses *)

Lemma eq_zero_spec v : PyVal.eq_zero v = true ↔ is_zero v.
Proof.
  destruct v as [|b|z|q|s|l|d]; simpl; try (by split).
  - destruct b; by split.
  - apply Z.eqb_eq.
  - apply Qeq_bool_iff.
Qed.

Lemma first_input_taken_in_use target_id conns :
  first_input_taken target_id conns ↔ first_input_in_use target_id conns.
Proof.
  unfold first_input_taken, first_input_in_use, occupies_first, sits_on_first.
  split; intros (conn & Hin & Hid & Hport); exists conn;
    (split; [done|]); (split; [done|]);
    (destruct Hport as [?|(i & Hi & Hzero)]; [by left|right]);
    exists i; (split; [done|]); by apply eq_zero_spec.
Qed.

(** C4, at a target that reports the type Addition while the answer to
    [get_connections] is [{"result": null}]: the caller names the port
    "A" (or the index 1, or no port), yet the loop of line 355 over the
    null list raises [TypeError], the call ends with that exception after
    its two queries, and no connect command is sent: the port the caller
    gave is not used. *)
Theorem connect_components_null_connections :
  reports_type addition_info (JStr "Addition")
  ∧ reply null_connections_peer [] (info_query "t") = Returned addition_info
  ∧ reply null_connections_peer [info_query "t"] connections_query
    = Returned (JDict (<["result" := JNull]> ∅))
  ∧ Forall
      (fun run : outcome json * list command =>
         ∃ e, run = (Raised e, [info_query "t"; connections_query])
              ∧ exn_class e = "TypeError")
      [ connect_components null_connections_peer "s" "t" None (Some "A")
          None None [];
        connect_components null_connections_peer "s" "t" None None
          None (Some 1%Z) [];
        connect_components null_connections_peer "s" "t" None None
          None None [] ].
Proof.
  split.
  { eexists _, _. split; [reflexivity|]. split; by vm_compute. }
  split; [by vm_compute|]. split; [by vm_compute|].
  repeat constructor; eexists; (split; [by vm_compute|done]).
Qed.

(** ** Connecting without type information *)

(** When the answer to [get_component_info] is an object without
    [result], or whose [result] is an object without [type], no query for
    the connections is made and the connect command carries the caller's
    ports only. *)
Lemma connect_components_without_type E source_id target_id source_param
    target_param source_param_index target_param_index log d :
  reply E log (info_query target_id) = Returned (JDict d) →
  (d !! "result" = None
   ∨ ∃ r, d !! "result" = Some (JDict r) ∧ r !! "type" = None) →
  connect_components E source_id target_id source_param target_param
    source_param_index target_param_index log
  = send_to_grasshopper E "connect_components"
      (Some (Connect.connect_params source_id target_id source_param target_param
               source_param_index target_param_index))
      (log ++ [info_query target_id])%list.
Proof.
  intros Hinfo Hd. apply connect_components_untyped with (JDict d); [done|].
  unfold Connect.has_result_type, Connect.and_then,
    PyVal.truthy, PyVal.contains_key, PyVal.subscript.
  destruct (negb _); [|done].
  destruct Hd as [Hnone | (r & Hsome & Htype)].
  - by rewrite (bool_decide_eq_false_2 (is_Some (d !! "result")))
      by (rewrite Hnone; by intros [x Hx]).
  - rewrite (bool_decide_eq_true_2 (is_Some (d !! "result")))
      by (by rewrite Hsome).
    rewrite Hsome.
    by rewrite (bool_decide_eq_false_2 (is_Some (r !! "type")))
      by (rewrite Htype; by intros [x Hx]).
Qed.

(** A failed exchange is such an answer. *)
Lemma connect_components_after_failure E source_id target_id source_param
    target_param source_param_index target_param_index log e :
  first_failure E (peer E (log ++ [info_query target_id])%list) e →
  connect_components E source_id target_id source_param target_param
    source_param_index target_param_index log
  = send_to_grasshopper E "connect_components"
      (Some (Connect.connect_params source_id target_id source_param target_param
               source_param_index target_param_index))
      (log ++ [info_query target_id])%list.
Proof.
  intros Hfail.
  pose proof (send_to_grasshopper_failure E "get_component_info"
                (Some (<["id" := JStr target_id]> ∅)) log e Hfail) as Hreturned.
  destruct (failure_response_shape e) as (d & Hd & _ & _ & Hdom).
  apply connect_components_without_type with d.
  - unfold reply, info_query; cbn [cmd_type cmd_parameters].
    by rewrite Hreturned, Hd.
  - left. apply not_elem_of_dom. rewrite Hdom.
    rewrite elem_of_union, !elem_of_singleton. by intros [?|?].
Qed.

(** C10, at the answer
    [{"success": false, "error": "Component not found", "result": null}]:
    the answer has no [result] entry with a [type] field, yet the test
    ["type" in target_info["result"]] of line 347 raises [TypeError], the
    call of [connect_components] ends with that exception, and the only
    command issued is the query; no connect command is sent. *)
Theorem connect_components_null_result :
  reply not_found_peer [] (info_query "t") = Returned not_found_info
  ∧ (¬ ∃ ty, reports_type not_found_info ty)
  ∧ connect_components not_found_peer "s" "t" None None None None []
    = (Raised (PyVal.type_error "argument is not iterable"), [info_query "t"]).
Proof.
  split; [by vm_compute|]. split; [|by vm_compute].
  intros (ty & d & r & Hinfo & Hresult & _).
  injection Hinfo as <-. vm_compute in Hresult. discriminate Hresult.
Qed.

(** ** Code analysis *)

Lemma elements_valid : valid_enumeration elements.
Proof.
  intros X. split; [apply NoDup_elements|]. intros x. apply elem_of_elements.
Qed.

Lemma reversed_elements_valid : valid_enumeration reversed_elements.
Proof.
  intros X. unfold reversed_elements. split.
  - rewrite reverse_Permutation. apply NoDup_elements.
  - intros x. by rewrite elem_of_reverse, elem_of_elements.
Qed.

Lemma valid_enumeration_nil list_of_set X :
  valid_enumeration list_of_set → list_of_set X = [] ↔ X = ∅.
Proof.
  intros Hvalid. destruct (Hvalid X) as [_ Hin]. split.
  - intros Hnil. apply set_eq. intros x. rewrite <- Hin, Hnil.
    split; [by intros ?%elem_of_nil | by intros ?%not_elem_of_empty].
  - intros HX. destruct (list_of_set X) as [|x l] eqn:Hl; [done|].
    exfalso. assert (x ∈ X) as Hx by (apply Hin; by left).
    rewrite HX in Hx. by apply not_elem_of_empty in Hx.
Qed.

Lemma valid_enumeration_perm list_of_set X l :
  valid_enumeration list_of_set → NoDup l → (∀ x, x ∈ l ↔ x ∈ X) →
  list_of_set X ≡ₚ l.
Proof.
  intros Hvalid Hl Hin. destruct (Hvalid X) as [Hnodup Hin'].
  apply NoDup_Permutation; [done|done|]. intros x. by rewrite Hin, Hin'.
Qed.

(** C6.  For every code and language, and whatever order the sets are
    listed in, the [inputs] and [outputs] returned by
    [analyze_code_variables] have no name in common: the inputs are the
    names collected as inputs that were not collected as outputs, and the
    outputs are all names collected as outputs.  When both are empty the
    warnings are the one line noting that the code might be
    self-contained, and otherwise there is no warning. *)
Theorem analysis_inputs_outputs_disjoint list_of_set code language :
  valid_enumeration list_of_set →
  let scanned := Analyzer.scanned code language in
  let result := analyze_code_variables list_of_set code language in
  (∀ x, x ∈ analysis_inputs result → x ∉ analysis_outputs result)
  ∧ (∀ x, x ∈ analysis_inputs result
          ↔ x ∈ Analyzer.inputs scanned ∧ x ∉ Analyzer.outputs scanned)
  ∧ (∀ x, x ∈ analysis_outputs result ↔ x ∈ Analyzer.outputs scanned)
  ∧ (analysis_inputs result = [] → analysis_outputs result = [] →
     analysis_warnings result
     = ["No variables detected - code might be self-contained"])
  ∧ (analysis_inputs result ≠ [] ∨ analysis_outputs result ≠ [] →
     analysis_warnings result = []).
Proof.
  intros Hvalid scanned result.
  assert (∀ x, x ∈ analysis_inputs result
               ↔ x ∈ Analyzer.inputs scanned ∧ x ∉ Analyzer.outputs scanned)
    as Hinputs.
  { intros x. subst result. unfold analyze_code_variables; cbn [analysis_inputs].
    destruct (Hvalid (Analyzer.inputs (Analyzer.variables code language)))
      as [_ ->].
    unfold Analyzer.variables; cbn [Analyzer.inputs]. fold scanned.
    apply elem_of_difference. }
  assert (∀ x, x ∈ analysis_outputs result ↔ x ∈ Analyzer.outputs scanned)
    as Houtputs.
  { intros x. subst result. unfold analyze_code_variables; cbn [analysis_outputs].
    destruct (Hvalid (Analyzer.outputs (Analyzer.variables code language)))
      as [_ ->].
    done. }
  split; [|split; [exact Hinputs|split; [exact Houtputs|split]]].
  - intros x [_ Hnot]%Hinputs Hout%Houtputs. done.
  - subst result. unfold analyze_code_variables;
      cbn [analysis_inputs analysis_outputs analysis_warnings].
    intros Hi%(valid_enumeration_nil _ _ Hvalid)
           Ho%(valid_enumeration_nil _ _ Hvalid).
    unfold Analyzer.warnings_for. by rewrite Hi, Ho, !bool_decide_eq_true_2.
  - subst result. unfold analyze_code_variables;
      cbn [analysis_inputs analysis_outputs analysis_warnings].
    rewrite !(valid_enumeration_nil _ _ Hvalid).
    unfold Analyzer.warnings_for. intros [Hi | Ho].
    + by rewrite (bool_decide_eq_false_2 _ Hi).
    + rewrite (bool_decide_eq_false_2 _ Ho). by rewrite andb_false_r.
Qed.

Lemma analysis_inputs_outputs_disjoint_witness :
  "b" ∉ analysis_outputs (analyze_code_variables elements "a = a + b" "python").
Proof.
  apply (proj1 (analysis_inputs_outputs_disjoint elements "a = a + b" "python"
                  elements_valid)).
  assert (analysis_inputs (analyze_code_variables elements "a = a + b" "python")
          = ["b"]) as -> by (by vm_compute).
  by left.
Defined.

Lemma result_snippet_sets language :
  language = "python" ∨ language = "csharp" →
  Analyzer.variables "result = a + b" language
  = Analyzer.Found ({["a"]} ∪ {["b"]}) {["result"]}.
Proof. intros [-> | ->]; by vm_compute. Qed.

(** C7 (as the code has it).  Analyzing the one-line snippet
    "result = a + b" with language "python" or "csharp" yields the outputs
    {"result"} and the inputs {"a", "b"} and no warning; with language
    "generic" no line is scanned: inputs and outputs are empty and the
    warning about self-contained code is recorded. *)
Theorem result_snippet_analysis list_of_set :
  valid_enumeration list_of_set →
  (∀ language, language = "python" ∨ language = "csharp" →
     let result := analyze_code_variables list_of_set "result = a + b" language in
     analysis_outputs result = ["result"]
     ∧ analysis_inputs result ≡ₚ ["a"; "b"]
     ∧ analysis_warnings result = [])
  ∧ (let result := analyze_code_variables list_of_set "result = a + b" "generic" in
     analysis_outputs result = []
     ∧ analysis_inputs result = []
     ∧ analysis_warnings result
       = ["No variables detected - code might be self-contained"]).
Proof.
  intros Hvalid. split.
  - intros language Hlanguage result. subst result.
    unfold analyze_code_variables.
    rewrite (result_snippet_sets language Hlanguage).
    cbn [analysis_inputs analysis_outputs analysis_warnings
         Analyzer.inputs Analyzer.outputs].
    split; [|split].
    + assert (list_of_set {["result"]} ≡ₚ ["result"]) as Hperm.
      { apply (valid_enumeration_perm _ _ _ Hvalid).
        - apply NoDup_singleton.
        - intros x. rewrite list_elem_of_singleton. set_solver. }
      by apply Permutation_singleton_r in Hperm.
    + apply (valid_enumeration_perm _ _ _ Hvalid).
      * apply NoDup_cons. split; [|apply NoDup_singleton].
        by intros ?%list_elem_of_singleton.
      * intros x. rewrite elem_of_cons, list_elem_of_singleton. set_solver.
    + by vm_compute.
  - assert (Analyzer.variables "result = a + b" "generic"
            = Analyzer.Found ∅ ∅) as Hsets by (by vm_compute).
    unfold analyze_code_variables. rewrite Hsets.
    cbn [analysis_inputs analysis_outputs analysis_warnings
         Analyzer.inputs Analyzer.outputs].
    rewrite !(proj2 (valid_enumeration_nil _ ∅ Hvalid) eq_refl).
    split; [done|]. split; [done|]. by vm_compute.
Qed.

Lemma result_snippet_analysis_witness :
  analysis_outputs (analyze_code_variables elements "result = a + b" "python")
  = ["result"]
  ∧ analysis_inputs (analyze_code_variables elements "result = a + b" "python")
    ≡ₚ ["a"; "b"]
  ∧ analysis_warnings (analyze_code_variables elements "result = a + b" "python")
    = [].
Proof.
  apply (proj1 (result_snippet_analysis elements elements_valid) "python").
  by left.
Defined.

(** With language "generic" the snippet "result = a + b" has no output
    named "result". *)
Lemma generic_snippet_has_no_output :
  ¬ ∀ list_of_set, valid_enumeration list_of_set →
      "result" ∈ analysis_outputs
                   (analyze_code_variables list_of_set "result = a + b" "generic").
Proof.
  intros Hclaim. specialize (Hclaim elements elements_valid).
  vm_compute in Hclaim. by apply elem_of_nil in Hclaim.
Qed.

(** ** The setup guide *)

Lemma string_app_assoc (a b c : string) : (a ++ b) ++ c = a ++ (b ++ c).
Proof.
  induction a as [|x a IH]; [done|].
  change (String x ((a ++ b) ++ c) = String x (a ++ (b ++ c))). by f_equal.
Qed.

Lemma string_app_nil_r (a : string) : a ++ EmptyString = a.
Proof.
  induction a as [|x a IH]; [done|].
  change (String x (a ++ EmptyString) = String x a). by f_equal.
Qed.

Lemma mem_spec key (d : Guide.ordered_dict) :
  Guide.mem key d = true ↔ key ∈ d.*1.
Proof.
  unfold Guide.mem. rewrite existsb_exists, list_elem_of_fmap. split.
  - intros (kv & Hin%list_elem_of_In & Hkey%bool_decide_eq_true). by exists kv.
  - intros (kv & -> & Hin). exists kv.
    split; [by apply list_elem_of_In | by apply bool_decide_eq_true].
Qed.

Lemma set_item_fresh key value (d : Guide.ordered_dict) :
  Guide.mem key d = false →
  Guide.set_item key value d = (d ++ [(key, value)])%list.
Proof.
  induction d as [|[k v] d IH]; simpl; [done|].
  intros [Hk Hd]%orb_false_iff. simpl in Hk.
  rewrite Hk. by rewrite IH.
Qed.

Lemma set_item_keys key value (d : Guide.ordered_dict) :
  Guide.mem key d = true → (Guide.set_item key value d).*1 = d.*1.
Proof.
  induction d as [|[k v] d IH]; [done|].
  cbn [Guide.set_item]. unfold Guide.mem; cbn [existsb fst].
  destruct (bool_decide (k = key)) eqn:Hk; cbn [orb].
  - intros _. by rewrite !fmap_cons.
  - intros Hd. rewrite !fmap_cons. f_equal. by apply IH.
Qed.

Lemma first_occurrences_snoc {A} `{EqDecision A} (l : list A) (x : A) :
  first_occurrences (l ++ [x])
  = if decide (x ∈ l) then first_occurrences l
    else (first_occurrences l ++ [x])%list.
Proof.
  unfold first_occurrences. rewrite reverse_snoc. simpl.
  destruct (decide_rel elem_of x (reverse l)) as [Hin | Hnot].
  - rewrite elem_of_reverse in Hin. by rewrite decide_True.
  - rewrite elem_of_reverse in Hnot. rewrite decide_False by done.
    by rewrite reverse_cons.
Qed.

Lemma elem_of_first_occurrences {A} `{EqDecision A} (l : list A) (x : A) :
  x ∈ first_occurrences l ↔ x ∈ l.
Proof.
  unfold first_occurrences.
  by rewrite elem_of_reverse, elem_of_remove_dups, elem_of_reverse.
Qed.

(** The explicit entries keep the order of declaration: one key per
    declared name, at the place where the name is declared first. *)
Lemma explicit_entries_keys params :
  (Guide.explicit_entries params).*1 = first_occurrences (declared_names params).
Proof.
  induction params as [|param params IH] using rev_ind; [done|].
  unfold Guide.explicit_entries, declared_names in *.
  rewrite foldl_snoc, omap_app.
  match goal with
  | |- context [foldl ?f [] params] => set (d := foldl f [] params) in *
  end.
  match goal with
  | |- context [omap ?f params] => set (names := omap f params) in *
  end.
  destruct param as [fields|]; simpl (omap _ [_]).
  - rewrite first_occurrences_snoc.
    destruct (Guide.mem (fields !! "name") d) eqn:Hmem.
    + rewrite (set_item_keys _ _ _ Hmem), IH.
      apply mem_spec in Hmem. rewrite IH in Hmem.
      apply (proj1 (elem_of_first_occurrences _ _)) in Hmem.
      by rewrite decide_True.
    + rewrite (set_item_fresh _ _ _ Hmem), fmap_app, IH.
      rewrite decide_False; [done|].
      intros Hin. apply (proj2 (elem_of_first_occurrences _ _)) in Hin.
      rewrite <- IH in Hin. apply mem_spec in Hin. congruence.
  - by rewrite app_nil_r.
Qed.

(** The analyzer's names follow the explicit entries, in the order of the
    list that the analyzer returned. *)
Lemma add_found_order entry (vars : list string) (d : Guide.ordered_dict) :
  NoDup vars →
  Guide.add_found entry vars d
  = (d ++ ((fun var => (Some var, entry var))
           <$> List.filter (fun var => negb (Guide.mem (Some var) d)) vars))%list.
Proof.
  unfold Guide.add_found. intros Hvars. revert d.
  induction Hvars as [|var vars Hvar Hvars IH]; intros d; simpl.
  - by rewrite app_nil_r.
  - destruct (Guide.mem (Some var) d) eqn:Hmem; simpl; [apply IH|].
    rewrite IH, set_item_fresh by done. rewrite <- app_assoc. simpl.
    do 3 f_equal. apply filter_ext_in. intros w Hw%list_elem_of_In.
    f_equal. unfold Guide.mem. rewrite existsb_app. simpl.
    rewrite orb_false_r.
    rewrite (bool_decide_eq_false_2 (Some var = Some w)); [by rewrite orb_false_r|].
    intros [= ->]. done.
Qed.

Lemma section_text_lines default_type (d : Guide.ordered_dict) :
  d ≠ [] →
  Guide.section_text default_type d
  = foldr (fun item rest => Guide.item_line default_type item ++ rest) EmptyString d.
Proof.
  intros Hd. unfold Guide.section_text. destruct d as [|item d]; [done|].
  clear Hd. generalize (item :: d). clear item d. intros d.
  assert (∀ acc, foldl (fun guide item => guide ++ Guide.item_line default_type item)
                   acc d
                 = acc ++ foldr (fun item rest =>
                                   Guide.item_line default_type item ++ rest) EmptyString d)
    as Hgen.
  { induction d as [|item d IH]; intros acc; simpl.
    - symmetry. apply string_app_nil_r.
    - by rewrite IH, string_app_assoc. }
  apply (Hgen EmptyString).
Qed.

Lemma generate_guide_text_from list_of_set code language input_params output_params :
  _generate_guide_text list_of_set code language input_params output_params
  = guide_text_from
      (analysis_inputs (analyze_code_variables list_of_set code language))
      (analysis_outputs (analyze_code_variables list_of_set code language))
      language (default [] input_params) (default [] output_params).
Proof.
  unfold _generate_guide_text, guide_text_from.
  by rewrite !string_app_assoc.
Qed.

(** C9 (as the code has it).  The guide is the preamble, the INPUTS
    section and the OUTPUTS section.  In each section the explicit
    entries come first, one per declared name in the order of first
    declaration; the names found by the analyzer and not declared follow
    in the order of the analyzer's list, which lists the set of found
    names once each in the order of the run's enumeration, not in the
    order of discovery.  Such an input has type "number", such an output
    type "geometry"; each entry is one line and an empty section reads
    "None required.". *)
Theorem guide_text_layout list_of_set code language input_params output_params :
  valid_enumeration list_of_set →
  let found := analyze_code_variables list_of_set code language in
  let sets := Analyzer.variables code language in
  let explicit_inputs := Guide.explicit_entries (default [] input_params) in
  let explicit_outputs := Guide.explicit_entries (default [] output_params) in
  let new_inputs :=
    List.filter (fun var => negb (Guide.mem (Some var) explicit_inputs))
      (analysis_inputs found) in
  let new_outputs :=
    List.filter (fun var => negb (Guide.mem (Some var) explicit_outputs))
      (analysis_outputs found) in
  _generate_guide_text list_of_set code language input_params output_params
  = Guide.preamble language
      ++ Guide.section_text "number"
           (explicit_inputs
              ++ ((fun var => (Some var, Guide.input_entry var)) <$> new_inputs))%list
      ++ Guide.nl ++ "---OUTPUTS---" ++ Guide.nl
      ++ Guide.section_text "geometry"
           (explicit_outputs
              ++ ((fun var => (Some var, Guide.output_entry var)) <$> new_outputs))%list
  ∧ explicit_inputs.*1
    = first_occurrences (declared_names (default [] input_params))
  ∧ explicit_outputs.*1
    = first_occurrences (declared_names (default [] output_params))
  ∧ analysis_inputs found = list_of_set (Analyzer.inputs sets)
  ∧ analysis_inputs found ≡ₚ elements (Analyzer.inputs sets)
  ∧ analysis_outputs found = list_of_set (Analyzer.outputs sets)
  ∧ analysis_outputs found ≡ₚ elements (Analyzer.outputs sets)
  ∧ (∀ var, Guide.item_line "number" (Some var, Guide.input_entry var)
            = "- Name: " ++ var ++ ", Type: number" ++ Guide.nl)
  ∧ (∀ var, Guide.item_line "geometry" (Some var, Guide.output_entry var)
            = "- Name: " ++ var ++ ", Type: geometry" ++ Guide.nl)
  ∧ (∀ default_type items, items ≠ [] →
       Guide.section_text default_type items
       = foldr (fun item rest => Guide.item_line default_type item ++ rest)
           EmptyString items)
  ∧ (∀ default_type,
       Guide.section_text default_type [] = "None required." ++ Guide.nl).
Proof.
  intros Hvalid found sets explicit_inputs explicit_outputs new_inputs new_outputs.
  assert (NoDup (analysis_inputs found)) as Hin by apply Hvalid.
  assert (NoDup (analysis_outputs found)) as Hout by apply Hvalid.
  split; [|split; [|split; [|split; [|split; [|split; [|split;
    [|split; [|split; [|split]]]]]]]]].
  - rewrite generate_guide_text_from. unfold guide_text_from.
    unfold Guide.all_inputs, Guide.all_outputs.
    by rewrite (add_found_order _ _ _ Hin), (add_found_order _ _ _ Hout).
  - apply explicit_entries_keys.
  - apply explicit_entries_keys.
  - reflexivity.
  - apply (valid_enumeration_perm _ _ _ Hvalid); [apply NoDup_elements|].
    intros x. apply elem_of_elements.
  - reflexivity.
  - apply (valid_enumeration_perm _ _ _ Hvalid); [apply NoDup_elements|].
    intros x. apply elem_of_elements.
  - intros var. unfold Guide.item_line, Guide.input_entry; simpl.
    by rewrite lookup_insert_ne, lookup_insert_eq.
  - intros var. unfold Guide.item_line, Guide.output_entry; simpl.
    by rewrite lookup_insert_ne, lookup_insert_eq.
  - intros default_type items. apply section_text_lines.
  - reflexivity.
Qed.

Lemma guide_text_layout_witness :
  analysis_inputs (analyze_code_variables elements "x = b + a" "python")
  ≡ₚ elements (Analyzer.inputs (Analyzer.variables "x = b + a" "python")).
Proof.
  apply (guide_text_layout elements "x = b + a" "python" None None).
  apply elements_valid.
Defined.

(** For the code "x = b + a" the analyzer meets [b] before [a], yet with
    the set listed as [elements] lists it the guide names [a] first. *)
Lemma guide_text_not_in_discovery_order :
  ¬ ∀ list_of_set, valid_enumeration list_of_set →
      _generate_guide_text list_of_set "x = b + a" "python" None None
      = guide_text_from (Discovery.inputs "x = b + a" "python")
          (Discovery.outputs "x = b + a" "python") "python" [] [].
Proof.
  intros Hclaim. specialize (Hclaim elements elements_valid).
  vm_compute in Hclaim. discriminate Hclaim.
Qed.

(** Two runs that list the sets in different orders give different
    guides for the same code. *)
Lemma guide_text_depends_on_enumeration :
  _generate_guide_text elements "x = b + a" "python" None None
  ≠ _generate_guide_text reversed_elements "x = b + a" "python" None None.
Proof. vm_compute. discriminate. Qed.

(** ** Framing of the response *)

Lemma ends_with_newline_snoc data :
  Transport.ends_with_newline (data ++ [Byte.x0a]) = true.
Proof. unfold Transport.ends_with_newline. by rewrite last_snoc. Qed.

Lemma ends_with_newline_elem data :
  Transport.ends_with_newline data = true → Byte.x0a ∈ data.
Proof.
  unfold Transport.ends_with_newline.
  destruct (last data) as [b|] eqn:Hlast; [|done].
  intros Hb. apply last_Some in Hlast as [data' ->].
  assert (b = Byte.x0a) as -> by (by destruct b).
  apply elem_of_app. right. by left.
Qed.

Lemma snoc_cases {A} (l : list A) : l = [] ∨ ∃ l' x, l = (l' ++ [x])%list.
Proof. induction l as [|x l _] using rev_ind; [by left | right; eauto]. Qed.

(** The loop consumes non-empty chunks without a line feed and keeps
    what they carry. *)
Lemma recv_loop_chunks chunks events acc :
  Forall (fun chunk => chunk ≠ []) chunks →
  Byte.x0a ∉ (acc ++ concat chunks)%list →
  Transport.recv_loop ((Chunk <$> chunks) ++ events)%list acc
  = Transport.recv_loop events (acc ++ concat chunks)%list.
Proof.
  intros Hchunks. revert acc.
  induction Hchunks as [|chunk chunks Hchunk _ IH]; intros acc Hfree.
  - simpl. by rewrite app_nil_r.
  - rewrite concat_cons in Hfree.
    apply not_elem_of_app in Hfree as [Hacc Hfree].
    apply not_elem_of_app in Hfree as [Hc Hrest].
    rewrite fmap_cons, concat_cons, app_assoc.
    destruct chunk as [|b chunk]; [done|].
    cbn [app Transport.recv_loop].
    destruct (Transport.ends_with_newline (acc ++ b :: chunk)) eqn:Hend.
    + apply ends_with_newline_elem in Hend.
      apply elem_of_app in Hend as [?|?]; done.
    + apply IH. by rewrite !not_elem_of_app.
Qed.

(** X1.  A response line arrives whole however the peer's bytes are cut
    into [recv] chunks: when the non-empty chunks make up [payload]
    followed by one line feed, [payload] holding no line feed, the loop
    returns exactly these bytes and reads nothing after them; and when the
    peer closes the connection (an empty read) after bytes without a line
    feed, the bytes received so far are what is returned.  In both cases
    [send_to_grasshopper] returns the response parsed from these bytes. *)
Theorem response_framing E command_type params log chunks later payload response :
  let issued := (log ++ [Command command_type (default ∅ params)])%list in
  Forall (fun chunk => chunk ≠ []) chunks →
  Byte.x0a ∉ payload →
  (concat chunks = (payload ++ [Byte.x0a])%list →
   Transport.recv_loop ((Chunk <$> chunks) ++ later)%list []
   = Returned (payload ++ [Byte.x0a])%list
   ∧ (delivers (peer E issued) ((Chunk <$> chunks) ++ later)%list →
      parses_to E (payload ++ [Byte.x0a])%list response →
      send_to_grasshopper E command_type params log = (Returned response, issued)))
  ∧ (concat chunks = payload →
     Transport.recv_loop ((Chunk <$> chunks) ++ Chunk [] :: later)%list []
     = Returned payload
     ∧ (delivers (peer E issued) ((Chunk <$> chunks) ++ Chunk [] :: later)%list →
        parses_to E payload response →
        send_to_grasshopper E command_type params log = (Returned response, issued))).
Proof.
  intros issued Hchunks Hfree.
  assert (∀ events data,
            Transport.recv_loop events [] = Returned data →
            delivers (peer E issued) events → parses_to E data response →
            send_to_grasshopper E command_type params log
            = (Returned response, issued)) as Hsend.
  { intros events data Hloop (Hs & Hc & Hsd & Hev & Hcl) (text & Hdecode & Hloads).
    unfold send_to_grasshopper, try_except. fold issued.
    unfold Transport.exchange_body, bind, may_fail, of_outcome, of_sum, ret.
    by rewrite Hs, Hc, Hsd, Hev, Hloop, Hdecode, Hloads, Hcl. }
  split.
  - intros Hline.
    assert (Transport.recv_loop ((Chunk <$> chunks) ++ later)%list []
            = Returned (payload ++ [Byte.x0a])%list) as Hloop.
    { destruct (snoc_cases chunks) as [-> | (chunks' & chunk & ->)].
      { simpl in Hline. destruct payload; discriminate Hline. }
      rewrite concat_app in Hline. simpl in Hline. rewrite app_nil_r in Hline.
      rewrite Forall_app, Forall_singleton in Hchunks.
      destruct Hchunks as [Hchunks Hlast].
      destruct (snoc_cases chunk) as [-> | (chunk' & b & ->)];
        [exfalso; by apply Hlast|].
      rewrite app_assoc in Hline. apply app_inj_tail in Hline as [Hpayload ->].
      assert ((Byte.x0a ∉ concat chunks') ∧ (Byte.x0a ∉ chunk'))
        as [Hfree1 Hfree2].
      { rewrite <- Hpayload in Hfree. by apply not_elem_of_app. }
      rewrite fmap_app, <- app_assoc.
      rewrite recv_loop_chunks by done.
      cbn [fmap list_fmap app Transport.recv_loop].
      destruct (chunk' ++ [Byte.x0a])%list eqn:Hchunk;
        [by destruct chunk'|].
      rewrite <- Hchunk, app_assoc, Hpayload.
      by rewrite ends_with_newline_snoc. }
    split; [exact Hloop|]. intros Hpeer Hparse. by eapply Hsend.
  - intros Hdata.
    assert (Transport.recv_loop
              ((Chunk <$> chunks) ++ Chunk [] :: later)%list []
            = Returned payload) as Hloop.
    { rewrite recv_loop_chunks by (done || (simpl; by rewrite Hdata)).
      cbn [app Transport.recv_loop]. by rewrite Hdata. }
    split; [exact Hloop|]. intros Hpeer Hparse. by eapply Hsend.
Qed.

Lemma response_framing_witness :
  Transport.recv_loop
    [Chunk [Byte.x6f]; Chunk [Byte.x6b; Byte.x0a]; RecvFails (Exn "OSError" "reset")]
    []
  = Returned [Byte.x6f; Byte.x6b; Byte.x0a].
Proof.
  apply (proj1 (response_framing refusing_peer "get_connections" None []
                  [[Byte.x6f]; [Byte.x6b; Byte.x0a]]
                  [RecvFails (Exn "OSError" "reset")]
                  [Byte.x6f; Byte.x6b] JNull
                  ltac:(by repeat constructor)
                  ltac:(by intros [?|[?|?%elem_of_nil]%elem_of_cons]%elem_of_cons))).
  reflexivity.
Defined.

(** X2.  There is no time limit on an exchange: when the peer delivers
    bytes that hold no line feed and then neither sends more nor closes
    the connection, [send_to_grasshopper] never returns. *)
Theorem silent_peer_blocks E command_type params log chunks :
  let issued := (log ++ [Command command_type (default ∅ params)])%list in
  Forall (fun chunk => chunk ≠ []) chunks →
  Byte.x0a ∉ concat chunks →
  delivers (peer E issued) (Chunk <$> chunks) →
  send_to_grasshopper E command_type params log = (Blocked, issued).
Proof.
  intros issued Hchunks Hfree (Hs & Hc & Hsd & Hev & _).
  pose proof (recv_loop_chunks chunks [] [] Hchunks Hfree) as Hloop.
  rewrite app_nil_r in Hloop. simpl in Hloop.
  unfold send_to_grasshopper, try_except. fold issued.
  unfold Transport.exchange_body, bind, may_fail, of_outcome, of_sum, ret.
  by rewrite Hs, Hc, Hsd, Hev, Hloop.
Qed.

Lemma silent_peer_blocks_witness :
  send_to_grasshopper
    (Environment (fun _ => Exchange None None None [Chunk [Byte.x7b]] None)
       (fun _ => inr EmptyString) (fun _ => inr JNull))
    "get_connections" None []
  = (Blocked, [Command "get_connections" ∅]).
Proof.
  apply (silent_peer_blocks
           (Environment (fun _ => Exchange None None None [Chunk [Byte.x7b]] None)
              (fun _ => inr EmptyString) (fun _ => inr JNull))
           "get_connections" None [] [[Byte.x7b]]).
  - by repeat constructor.
  - simpl. by intros [?|?%elem_of_nil]%elem_of_cons.
  - by repeat split.
Defined.

(** ** Bounds of a slider *)

Lemma normalize_canonical :
  forallb (fun kv => String.eqb (normalize_component_type kv.2) kv.2)
    component_mapping_items = true.
Proof. by vm_compute. Qed.

(** X3.  Resolving a component name twice gives what resolving it once
    gives: a canonical name resolves to itself. *)
Theorem normalize_component_type_idempotent component_type :
  normalize_component_type (normalize_component_type component_type)
  = normalize_component_type component_type.
Proof.
  unfold normalize_component_type at 2 3.
  destruct (component_mapping !! PyStr.lower component_type)
    as [canonical|] eqn:Hkey.
  - apply dict_of_items_lookup in Hkey.
    pose proof normalize_canonical as Hall.
    rewrite forallb_forall in Hall.
    apply list_elem_of_In, Hall in Hkey. by apply String.eqb_eq in Hkey.
  - unfold normalize_component_type. by rewrite Hkey.
Qed.

Lemma add_component_params_not_slider component_type x y min_value max_value value :
  ¬ is_slider_type component_type →
  add_component_params component_type x y min_value max_value value
  = <["y" := JFloat y]> (<["x" := JFloat x]>
      (<["type" := JStr (normalize_component_type component_type)]> ∅)).
Proof.
  unfold is_slider_type, add_component_params. intros Hnot.
  by destruct (PyStr.contains _ _).
Qed.

(** X4.  How [add_component] treats bounds.  For a slider type, as soon
    as the caller gives a minimum or a maximum, the command carries what
    the caller gave and nothing else: a bound that is not given is not
    inferred, and the bounds are not compared with each other or with the
    value.  With no bound and no value the range is 0 to 10 and no value
    is sent.  For any other type the bounds and the value are dropped: the
    command carries the type and the position only. *)
Theorem add_component_bounds component_type x y min_value max_value value :
  let params :=
    add_component_params component_type x y min_value max_value value in
  (is_slider_type component_type →
   (is_Some min_value ∨ is_Some max_value →
    params !! "min" = JFloat <$> min_value
    ∧ params !! "max" = JFloat <$> max_value
    ∧ params !! "value" = JFloat <$> value)
   ∧ (min_value = None → max_value = None → value = None →
      params !! "min" = Some (JFloat 0)
      ∧ params !! "max" = Some (JFloat 10)
      ∧ params !! "value" = None))
  ∧ (¬ is_slider_type component_type →
     dom params = {["type"; "x"; "y"]}
     ∧ params !! "min" = None ∧ params !! "max" = None
     ∧ params !! "value" = None).
Proof.
  intros params. split.
  - intros Hslider. subst params.
    unfold is_slider_type in Hslider. unfold add_component_params.
    rewrite Hslider. unfold auto_adjust_range, set_if_given.
    split.
    + intros Hgiven. destruct min_value, max_value, value; simpl;
        try (by destruct Hgiven as [[? ?]|[? ?]]);
        repeat split; by simplify_map_eq.
    + intros -> -> ->. simpl. repeat split; by simplify_map_eq.
  - intros Hnot. subst params.
    rewrite (add_component_params_not_slider _ _ _ _ _ _ Hnot).
    split; [|repeat split; by simplify_map_eq].
    rewrite !dom_insert_L, dom_empty_L. set_solver.
Qed.

Lemma add_component_bounds_witness :
  add_component_params "slider" 0 0 (Some 5%Q) None (Some 3%Q) !! "min"
  = Some (JFloat 5)
  ∧ add_component_params "slider" 0 0 (Some 5%Q) None (Some 3%Q) !! "max" = None
  ∧ add_component_params "slider" 0 0 (Some 5%Q) None (Some 3%Q) !! "value"
    = Some (JFloat 3).
Proof.
  apply (proj1 (proj1 (add_component_bounds "slider" 0 0 (Some 5%Q) None (Some 3%Q))
                  ltac:(by vm_compute))).
  left. by eexists.
Defined.



(** ** What [create_slider_with_value] returns *)

(** X6.  [create_slider_with_value] issues one command and hands back
    the peer's answer unchanged when the answer is an object, whatever its
    [success] entry says.  When the answer is any other JSON value (null,
    a number, a string, a list), the lines that report the outcome call
    [get] on it and the tool raises [AttributeError].  When the exchange
    never ends, neither does the tool. *)
Theorem create_slider_with_value_outcome E x y target_value name log :
  let cmd := Command "add_component"
               (create_slider_with_value_params x y target_value name) in
  let run := create_slider_with_value E x y target_value name log in
  run.2 = (log ++ [cmd])%list
  ∧ (∀ d, reply E log cmd = Returned (JDict d) → run.1 = Returned (JDict d))
  ∧ (∀ v, reply E log cmd = Returned v → (∀ d, v ≠ JDict d) →
       run.1 = Raised (PyVal.attribute_error "object has no attribute 'get'"))
  ∧ (reply E log cmd = Blocked → run.1 = Blocked).
Proof.
  intros cmd run. split; [apply create_slider_with_value_log|].
  subst run. unfold create_slider_with_value, bind.
  rewrite send_to_grasshopper_reply. fold cmd.
  split; [|split].
  - intros d ->. cbn -[PyVal.truthy].
    destruct (PyVal.truthy (JDict d)) eqn:Ht; cbn -[PyVal.truthy].
    + destruct (PyVal.truthy (default _ _)); reflexivity.
    + rewrite Ht. reflexivity.
  - intros v -> Hnot.
    destruct v as [|b|z|q|s|l|d]; try (by destruct (Hnot d)).
    all: cbn -[PyVal.truthy];
      destruct (PyVal.truthy _) eqn:Ht; cbn -[PyVal.truthy];
      rewrite ?Ht; reflexivity.
  - by intros ->.
Qed.

Lemma create_slider_with_value_outcome_witness :
  (create_slider_with_value
     (answering_peer (fun _ => JList [])) 0 0 3 EmptyString []).1
  = Raised (PyVal.attribute_error "object has no attribute 'get'").
Proof.
  destruct (create_slider_with_value_outcome
              (answering_peer (fun _ => JList [])) 0 0 3 EmptyString [])
    as (_ & _ & Hother & _).
  apply (Hother (JList [])); [by vm_compute|done].
Defined.

(** ** The exchanges of [connect_components] *)

Lemma assign_target_param_cases component_type existing target_param
    target_param_index chosen :
  Connect.assign_target_param component_type existing target_param
    target_param_index = inr chosen →
  chosen = target_param
  ∨ (target_param = None ∧ target_param_index = None
     ∧ (chosen = Some "A" ∨ chosen = Some "B")).
Proof.
  unfold Connect.assign_target_param.
  destruct (Connect.is_binary_input_type component_type); [|by intros [= <-]; left].
  destruct target_param, target_param_index; cbn [is_None andb];
    try (by intros [= <-]; left).
  destruct (Connect.first_input_occupied existing) as [e|[|]];
    [done| |]; intros [= <-]; right; eauto.
Qed.

Lemma subscripts_report_type target_info result ty :
  PyVal.subscript target_info "result" = inr result →
  PyVal.subscript result "type" = inr ty →
  reports_type target_info ty.
Proof.
  destruct target_info as [| | | | | |d]; try done. cbn [PyVal.subscript].
  destruct (d !! "result") as [v|] eqn:Hresult; [|done]. intros [= ->].
  destruct result as [| | | | | |r]; try done. cbn [PyVal.subscript].
  destruct (r !! "type") as [v|] eqn:Htype; [|done]. intros [= ->].
  by exists d, r.
Qed.

(** The commands issued after an answer for the target: the query for
    the connections is the second command exactly when the answer reports
    a type. *)
Lemma connect_components_log_cases E source_id target_id source_param
    target_param source_param_index target_param_index log target_info :
  let run := connect_components E source_id target_id source_param target_param
               source_param_index target_param_index log in
  let info := info_query target_id in
  reply E log info = Returned target_info →
  ((∃ ty, reports_type target_info ty)
   ∧ ∃ tail, run.2 = (log ++ info :: connections_query :: tail)%list)
  ∨ ((¬ ∃ ty, reports_type target_info ty)
     ∧ (run.2 = (log ++ [info])%list
        ∨ run.2 = (log ++ [info;
                           connect_command source_id target_id source_param
                             target_param source_param_index
                             target_param_index])%list)).
Proof.
  intros run info Hinfo. subst run.
  unfold connect_components, bind.
  rewrite send_to_grasshopper_reply. fold (info_query target_id). fold info.
  rewrite Hinfo.
  destruct (Connect.has_result_type target_info) as [e|[|]] eqn:Hguard;
    cbn [of_sum ret raise].
  - right. split; [|by left].
    intros [ty [Hg _]%reports_type_guard]. congruence.
  - destruct (PyVal.subscript target_info "result") as [e|result] eqn:Hresult;
      cbn [of_sum ret raise].
    { right. split; [|by left].
      intros [ty (_ & r & Hr & _)%reports_type_guard]. congruence. }
    destruct (PyVal.subscript result "type") as [e|component_type] eqn:Hty;
      cbn [of_sum ret raise].
    { right. split; [|by left].
      intros [ty (_ & r & Hr & Ht)%reports_type_guard].
      rewrite Hresult in Hr. injection Hr as ->. congruence. }
    left. split.
    { exists component_type. by apply (subscripts_report_type _ result). }
    rewrite send_to_grasshopper_no_params, send_to_grasshopper_reply.
    fold connections_query.
    destruct (reply E (log ++ [info]) connections_query) as [connections|e|];
      [|exists []; by rewrite <- app_assoc ..].
    destruct (Connect.existing_connections target_id connections)
      as [e|existing]; cbn [of_sum ret raise];
      [exists []; by rewrite <- app_assoc|].
    destruct (Connect.assign_target_param component_type existing
                target_param target_param_index) as [e|chosen];
      cbn [of_sum ret raise]; [exists []; by rewrite <- app_assoc|].
    rewrite send_to_grasshopper_reply.
    eexists [_]. cbn [snd]. by rewrite <- !app_assoc.
  - right. split.
    + intros [ty [Hg _]%reports_type_guard]. congruence.
    + right. by rewrite send_to_grasshopper_reply, <- app_assoc.
Qed.

(** X7.  [connect_components] makes at most three exchanges, in a fixed
    order: the query for the target, the query for the connections, and
    last the connect command.  The query for the connections is made
    exactly when the answer for the target is an object whose [result] is
    an object with a [type]; after an object that reports no type the
    connect command follows the first query at once, with the caller's
    port; and when the first exchange does not end nothing else is sent.
    The connect command names the caller's target port, or "A" or "B" when
    the caller named none; the call returns a value only if the connect
    command was issued, and then it returns the answer to that command.
    The connect command always carries [sourceId] and [targetId] and never
    both a name and an index for the same side. *)
Theorem connect_components_exchanges E source_id target_id source_param
    target_param source_param_index target_param_index log :
  let run := connect_components E source_id target_id source_param target_param
               source_param_index target_param_index log in
  let info := info_query target_id in
  let connect chosen :=
    connect_command source_id target_id source_param chosen
      source_param_index target_param_index in
  (∃ new,
     run.2 = (log ++ new)%list
     ∧ ((new = [info] ∨ new = [info; connections_query])
        ∧ (∀ v, run.1 ≠ Returned v)
        ∨ ∃ chosen,
            (new = [info; connect chosen]
             ∨ new = [info; connections_query; connect chosen])
            ∧ run.1 = reply E (removelast run.2) (connect chosen)
            ∧ (chosen = target_param
               ∨ (target_param = None ∧ target_param_index = None
                  ∧ (chosen = Some "A" ∨ chosen = Some "B")))))
  ∧ (∀ target_info,
       reply E log info = Returned target_info →
       (∃ tail, run.2 = (log ++ info :: connections_query :: tail)%list)
       ↔ ∃ ty, reports_type target_info ty)
  ∧ (∀ target_info,
       reply E log info = Returned target_info →
       reports_no_type target_info →
       run = (reply E (log ++ [info])%list (connect target_param),
              (log ++ [info; connect target_param])%list))
  ∧ (reply E log info = Blocked → run = (Blocked, (log ++ [info])%list))
  ∧ (∀ chosen,
       let params := cmd_parameters (connect chosen) in
       params !! "sourceId" = Some (JStr source_id)
       ∧ params !! "targetId" = Some (JStr target_id)
       ∧ ¬ (is_Some (params !! "sourceParam")
            ∧ is_Some (params !! "sourceParamIndex"))
       ∧ ¬ (is_Some (params !! "targetParam")
            ∧ is_Some (params !! "targetParamIndex"))).
Proof.
  intros run info connect. split; [|split; [|split; [|split]]].
  - subst run. unfold connect_components, bind.
    rewrite send_to_grasshopper_reply. fold (info_query target_id). fold info.
    destruct (reply E log info) as [target_info|e|];
      [|exists [info]; split; [done|left; by split; [left|]] ..].
    destruct (Connect.has_result_type target_info) as [e|[|]]; cbn [of_sum ret raise].
    + exists [info]. split; [done|]. left. by split; [left|].
    + destruct (PyVal.subscript target_info "result") as [e|result];
        cbn [of_sum ret raise];
        [exists [info]; split; [done|left; by split; [left|]]|].
      destruct (PyVal.subscript result "type") as [e|component_type];
        cbn [of_sum ret raise];
        [exists [info]; split; [done|left; by split; [left|]]|].
      rewrite send_to_grasshopper_no_params, send_to_grasshopper_reply.
      fold connections_query.
      destruct (reply E (log ++ [info]) connections_query) as [connections|e|];
        [|exists [info; connections_query];
          (split; [by rewrite <- app_assoc|left; by split; [right|]]) ..].
      destruct (Connect.existing_connections target_id connections)
        as [e|existing]; cbn [of_sum ret raise];
        [exists [info; connections_query];
         (split; [by rewrite <- app_assoc|left; by split; [right|]])|].
      destruct (Connect.assign_target_param component_type existing
                  target_param target_param_index) as [e|chosen] eqn:Hchosen;
        cbn [of_sum ret raise];
        [exists [info; connections_query];
         (split; [by rewrite <- app_assoc|left; by split; [right|]])|].
      rewrite send_to_grasshopper_reply. fold (connect chosen).
      exists [info; connections_query; connect chosen].
      split; [by rewrite <- !app_assoc|]. right. exists chosen.
      split; [by right|]. cbn [fst snd]. rewrite removelast_last.
      split; [done|]. by eapply assign_target_param_cases.
    + rewrite send_to_grasshopper_reply. fold (connect target_param).
      exists [info; connect target_param].
      split; [by rewrite <- !app_assoc|]. right. exists target_param.
      split; [by left|]. cbn [fst snd]. rewrite removelast_last.
      split; [done|]. by left.
  - intros target_info Hinfo.
    destruct (connect_components_log_cases E source_id target_id source_param
                target_param source_param_index target_param_index log
                target_info Hinfo) as [[Htyped Htail]|[Huntyped Hlog]];
      subst run info.
    + by split.
    + split; [|by intros ?]. intros [tail Htail]. exfalso.
      destruct Hlog as [Hlog|Hlog]; rewrite Hlog in Htail;
        apply app_inv_head in Htail; discriminate Htail.
  - intros target_info Hinfo (d & -> & Hd). subst run.
    rewrite (connect_components_without_type E source_id target_id source_param
               target_param source_param_index target_param_index log d
               Hinfo Hd).
    rewrite send_to_grasshopper_reply. unfold connect, connect_command.
    by rewrite <- app_assoc.
  - intros Hblocked. subst run. unfold connect_components, bind.
    rewrite send_to_grasshopper_reply. fold (info_query target_id). fold info.
    by rewrite Hblocked.
  - intros chosen params.
    destruct (connect_params_target source_id target_id source_param chosen
                source_param_index target_param_index)
      as (Hs & Ht & Htn & Hti & Hsn & Hsi).
    subst params. unfold connect, connect_command. cbn [cmd_parameters].
    rewrite Hs, Ht, Htn, Hti, Hsn, Hsi.
    split; [done|]. split; [done|]. split.
    + destruct source_param; simpl; intros [[? ?] [? ?]]; done.
    + destruct chosen; simpl; intros [[? ?] [? ?]]; done.
Qed.

Lemma connect_components_exchanges_witness :
  connect_components refusing_peer "s" "t" None (Some "A") None None []
  = (reply refusing_peer [info_query "t"]
       (connect_command "s" "t" None (Some "A") None None),
     [info_query "t"; connect_command "s" "t" None (Some "A") None None]).
Proof.
  destruct (connect_components_exchanges refusing_peer "s" "t" None (Some "A")
              None None []) as (_ & _ & Huntyped & _).
  apply (Huntyped (Transport.failure_response
                     (Exn "ConnectionRefusedError"
                        "[Errno 111] Connection refused"))).
  - by vm_compute.
  - eexists. split; [by vm_compute|]. left. by vm_compute.
Defined.

(** ** [connect_components] and a connection list that cannot be read *)

Lemma connections_to_non_object target_id (conns : list json) conn :
  conn ∈ conns → (∀ c, conn ≠ JDict c) →
  ∃ e, Connect.connections_to target_id conns = inl e
       ∧ exn_class e = "AttributeError".
Proof.
  intros Hin Hconn. induction conns as [|first conns IH].
  - by apply elem_of_nil in Hin.
  - cbn [Connect.connections_to].
    destruct first as [| | | | | |c];
      try (eexists; split; [reflexivity|done]).
    apply elem_of_cons in Hin as [->|Hin]; [by destruct (Hconn c)|].
    destruct (IH Hin) as (e & -> & He). cbn [PyVal.get]. by exists e.
Qed.

(** X8.  After an answer that reports a type, [connect_components] reads
    the list of connections without a guard.  When the [result] of the
    answer to [get_connections] is null, a number or a boolean, the loop
    over it raises [TypeError]; when it is a list that holds a value that
    is not an object, wherever in the list, or a string or an object that
    is not empty, the call of [get] on an element raises
    [AttributeError].  In each case the tool ends with the exception after
    its two queries and no connect command is issued, also when the caller
    named the target port. *)
Theorem connect_components_bad_connections E source_id target_id source_param
    target_param source_param_index target_param_index log
    target_info ty d result :
  let run := connect_components E source_id target_id source_param target_param
               source_param_index target_param_index log in
  let asked := (log ++ [info_query target_id; connections_query])%list in
  reply E log (info_query target_id) = Returned target_info →
  reports_type target_info ty →
  reply E (log ++ [info_query target_id])%list connections_query
  = Returned (JDict d) →
  d !! "result" = Some result →
  (result = JNull ∨ (∃ b, result = JBool b) ∨ (∃ z, result = JInt z)
   ∨ (∃ q, result = JFloat q) →
   ∃ e, run = (Raised e, asked) ∧ exn_class e = "TypeError")
  ∧ (∀ conns conn, result = JList conns → conn ∈ conns →
       (∀ c, conn ≠ JDict c) →
       ∃ e, run = (Raised e, asked) ∧ exn_class e = "AttributeError")
  ∧ (∀ text, result = JStr text → text ≠ EmptyString →
       ∃ e, run = (Raised e, asked) ∧ exn_class e = "AttributeError")
  ∧ (∀ entries : gmap string json, result = JDict entries → entries ≠ ∅ →
       ∃ e, run = (Raised e, asked) ∧ exn_class e = "AttributeError").
Proof.
  intros run asked Hinfo Htype Hconns Hresult.
  destruct (reports_type_guard _ _ Htype) as (Hguard & r & Hsub & Hty).
  assert (d ≠ ∅) as Hne by (intros ->; by rewrite lookup_empty in Hresult).
  assert (∀ e,
            Connect.existing_connections target_id (JDict d) = inl e →
            run = (Raised e, asked)) as Hraise.
  { intros e He. subst run asked. unfold connect_components, bind.
    rewrite send_to_grasshopper_reply. fold (info_query target_id).
    rewrite Hinfo, Hguard. cbn [of_sum ret]. rewrite Hsub. cbn [of_sum ret].
    rewrite Hty. cbn [of_sum ret].
    rewrite send_to_grasshopper_no_params, send_to_grasshopper_reply.
    fold connections_query. rewrite Hconns, He. cbn [of_sum raise].
    by rewrite <- app_assoc. }
  assert (Connect.existing_connections target_id (JDict d)
          = sbind (PyVal.iterate result) (Connect.connections_to target_id))
    as Hexisting.
  { unfold Connect.existing_connections, Connect.and_then,
      PyVal.truthy, PyVal.contains_key, PyVal.subscript.
    rewrite (bool_decide_eq_false_2 _ Hne).
    rewrite (bool_decide_eq_true_2 (is_Some (d !! "result")))
      by (by rewrite Hresult).
    cbn [negb]. rewrite Hresult. by destruct (PyVal.iterate result). }
  assert (∀ items conn,
            PyVal.iterate result = inr items → conn ∈ items →
            (∀ c, conn ≠ JDict c) →
            ∃ e, run = (Raised e, asked) ∧ exn_class e = "AttributeError")
    as Hitems.
  { intros items conn Hiter Hin Hconn.
    destruct (connections_to_non_object target_id items conn Hin Hconn)
      as (e & He & Hclass).
    exists e. split; [|done]. apply Hraise. rewrite Hexisting, Hiter. exact He. }
  split; [|split; [|split]].
  - intros Hbad. eexists. split.
    + apply Hraise. rewrite Hexisting.
      by destruct Hbad as [-> | [[b ->] | [[z ->] | [q ->]]]].
    + done.
  - intros conns conn -> Hin Hconn. by apply (Hitems conns conn).
  - intros text -> Htext. destruct text as [|c text]; [done|].
    apply (Hitems _ (JStr (String c EmptyString)) eq_refl); [by left|done].
  - intros entries -> Hentries.
    destruct (map_to_list entries) as [|[key value] rest] eqn:Hlist.
    { by apply map_to_list_empty_iff in Hlist. }
    apply (Hitems _ (JStr key) eq_refl); [|done].
    cbn [PyVal.iterate]. rewrite Hlist. by left.
Qed.

Lemma connect_components_bad_connections_witness :
  ∃ e, connect_components null_connections_peer "s" "t" None (Some "A")
         None None []
       = (Raised e, [info_query "t"; connections_query])
       ∧ exn_class e = "TypeError".
Proof.
  apply (proj1 (connect_components_bad_connections null_connections_peer
                  "s" "t" None (Some "A")
                  None None [] addition_info (JStr "Addition")
                  (<["result" := JNull]> ∅) JNull
                  ltac:(by vm_compute)
                  ltac:(eexists _, _; split; [reflexivity|split; by vm_compute])
                  ltac:(by vm_compute) ltac:(by vm_compute))).
  by left.
Defined.

(** ** What the analysis finds *)

Lemma add_inputs_spec d assigned vars (inputs : gset string) x :
  x ∈ Analyzer.add_inputs d assigned vars inputs
  ↔ x ∈ inputs
    ∨ (In x vars ∧ PyStr.in_list x (Analyzer.skipped_names d) = false
       ∧ assigned ≠ Some x).
Proof.
  unfold Analyzer.add_inputs. revert inputs.
  induction vars as [|var vars IH]; intros inputs; simpl.
  - split; [by left | by intros [?|[[] _]]].
  - rewrite IH. clear IH.
    destruct (PyStr.in_list var (Analyzer.skipped_names d)) eqn:Hskip; simpl.
    + split; [intros [?|(? & ? & ?)]; [by left|right; by auto]|].
      intros [?|([->|?] & Hx & ?)]; [by left|congruence|right; by auto].
    + destruct assigned as [name|].
      * destruct (String.eqb var name) eqn:Hname; simpl.
        -- apply String.eqb_eq in Hname as ->.
           split; [intros [?|(? & ? & ?)]; [by left|right; by auto]|].
           intros [?|([->|?] & ? & Hne)]; [by left|done|right; by auto].
        -- apply String.eqb_neq in Hname.
           rewrite elem_of_union, elem_of_singleton.
           split.
           ++ intros [[->|?]|(? & ? & ?)];
                [right; repeat split; [by left|done|congruence]
                |by left|right; by auto].
           ++ intros [?|([->|?] & ? & ?)];
                [left; by right|left; by left|right; by auto].
      * rewrite elem_of_union, elem_of_singleton. split.
        -- intros [[->|?]|(? & ? & ?)];
             [right; repeat split; [by left|done|done]
             |by left|right; by auto].
        -- intros [?|([->|?] & ? & ?)];
             [left; by right|left; by left|right; by auto].
Qed.

Lemma visited_dec d line :
  (String.eqb (PyStr.strip line) EmptyString
   || PyStr.startswith (PyStr.strip line) (Analyzer.comment_marker d)) = false
  ↔ visited d line.
Proof.
  unfold visited. rewrite orb_false_iff, String.eqb_neq. done.
Qed.

Lemma visit_line_inputs d st line x :
  x ∈ Analyzer.inputs (Analyzer.visit_line d st line)
  ↔ x ∈ Analyzer.inputs st ∨ gives_input d line x.
Proof.
  unfold Analyzer.visit_line, gives_input.
  destruct (_ || _) eqn:Hv.
  - split; [by left|]. intros [?|[Hvisited _]]; [done|].
    apply visited_dec in Hvisited. congruence.
  - apply visited_dec in Hv. cbn [Analyzer.inputs].
    rewrite add_inputs_spec. split.
    + intros [?|(? & ? & ?)]; [by left|right; by auto].
    + intros [?|(_ & ? & ? & ?)]; [by left|right; by auto].
Qed.

Lemma visit_line_outputs d st line x :
  x ∈ Analyzer.outputs (Analyzer.visit_line d st line)
  ↔ x ∈ Analyzer.outputs st ∨ gives_output d line x.
Proof.
  unfold Analyzer.visit_line, gives_output.
  destruct (_ || _) eqn:Hv.
  - split; [by left|]. intros [?|[Hvisited _]]; [done|].
    apply visited_dec in Hvisited. congruence.
  - apply visited_dec in Hv. cbn [Analyzer.outputs].
    destruct (Analyzer.assignment_match (PyStr.strip line)) as [var_name|].
    + destruct (PyStr.in_list (PyStr.lower var_name) _) eqn:Hout.
      * rewrite elem_of_union, elem_of_singleton. split.
        -- intros [->|?]; [right; by auto|by left].
        -- intros [?|(_ & [= ->] & _)]; [by right|by left].
      * split; [by left|]. intros [?|(_ & [= ->] & ?)]; [done|congruence].
    + split; [by left|]. intros [?|(_ & ? & _)]; done.
Qed.

Lemma visit_lines_spec d lines st x :
  (x ∈ Analyzer.inputs (foldl (Analyzer.visit_line d) st lines)
   ↔ x ∈ Analyzer.inputs st ∨ ∃ line, line ∈ lines ∧ gives_input d line x)
  ∧ (x ∈ Analyzer.outputs (foldl (Analyzer.visit_line d) st lines)
     ↔ x ∈ Analyzer.outputs st ∨ ∃ line, line ∈ lines ∧ gives_output d line x).
Proof.
  revert st. induction lines as [|line lines IH]; intros st; simpl.
  - split; (split; [by left|intros [?|(? & ?%elem_of_nil & _)]; done]).
  - destruct (IH (Analyzer.visit_line d st line)) as [-> ->].
    rewrite visit_line_inputs, visit_line_outputs.
    split; (split;
      [intros [[?|?]|(l & ? & ?)];
         [by left|right; exists line; split; [by left|done]
         |right; exists l; split; [by right|done]]
      |intros [?|(l & [->|?]%elem_of_cons & ?)];
         [left; by left|left; by right|right; by exists l]]).
Qed.

Lemma scanned_dialect code language :
  Analyzer.scanned code language
  = match dialect_of language with
    | Some d => foldl (Analyzer.visit_line d) (Analyzer.Found ∅ ∅)
                  (PyStr.split_lines code)
    | None => Analyzer.Found ∅ ∅
    end.
Proof.
  unfold Analyzer.scanned, dialect_of.
  by repeat destruct (String.eqb _ _).
Qed.

Lemma analysis_sets list_of_set code language x :
  valid_enumeration list_of_set →
  let scanned := Analyzer.scanned code language in
  let result := analyze_code_variables list_of_set code language in
  (x ∈ analysis_inputs result
   ↔ x ∈ Analyzer.inputs scanned ∧ x ∉ Analyzer.outputs scanned)
  ∧ (x ∈ analysis_outputs result ↔ x ∈ Analyzer.outputs scanned).
Proof.
  intros Hvalid scanned result. subst result.
  unfold analyze_code_variables; cbn [analysis_inputs analysis_outputs].
  destruct (Hvalid (Analyzer.inputs (Analyzer.variables code language)))
    as [_ ->].
  destruct (Hvalid (Analyzer.outputs (Analyzer.variables code language)))
    as [_ ->].
  unfold Analyzer.variables; cbn [Analyzer.inputs Analyzer.outputs].
  fold scanned. split; [apply elem_of_difference|done].
Qed.

(** X9.  What [analyze_code_variables] reports, line by line.  A name is
    reported as an output exactly when some visited line (not blank, not a
    comment) assigns to it at its start and the name in lower case is one
    of the dialect's output names.  A name is reported as an input exactly
    when it is not reported as an output and some visited line holds it as
    an identifier that is not a skipped name and not the name that line
    assigns to.  So a keyword of the dialect is never an input, and
    nothing is reported that does not occur in the code. *)
Theorem analysis_line_by_line list_of_set code language d x :
  valid_enumeration list_of_set →
  dialect_of language = Some d →
  let result := analyze_code_variables list_of_set code language in
  (x ∈ analysis_outputs result
   ↔ ∃ line, line ∈ PyStr.split_lines code ∧ gives_output d line x)
  ∧ (x ∈ analysis_inputs result
     ↔ (∃ line, line ∈ PyStr.split_lines code ∧ gives_input d line x)
       ∧ ¬ ∃ line, line ∈ PyStr.split_lines code ∧ gives_output d line x)
  ∧ (x ∈ analysis_inputs result →
     PyStr.in_list x (Analyzer.skipped_names d) = false).
Proof.
  intros Hvalid Hd result.
  destruct (analysis_sets list_of_set code language x Hvalid) as [Hin Hout].
  fold result in Hin, Hout.
  rewrite scanned_dialect, Hd in Hin, Hout.
  destruct (visit_lines_spec d (PyStr.split_lines code) (Analyzer.Found ∅ ∅) x)
    as [Hi Ho].
  rewrite Hi in Hin. rewrite Ho in Hin, Hout. cbn [Analyzer.inputs Analyzer.outputs] in *.
  assert (∀ P : Prop, (x ∈ (∅ : gset string) ∨ P) ↔ P) as Hempty.
  { intros P. split; [intros [?%not_elem_of_empty|?]; done | by right]. }
  rewrite !Hempty in Hin. rewrite Hempty in Hout.
  split; [done|]. split; [done|].
  rewrite Hin. intros [(line & _ & _ & _ & Hskip & _) _]. done.
Qed.

Lemma analysis_line_by_line_witness :
  "result" ∈ analysis_outputs
               (analyze_code_variables elements "result = a + b" "Python").
Proof.
  apply (proj1 (analysis_line_by_line elements "result = a + b" "Python"
                  Analyzer.python "result" elements_valid eq_refl)).
  exists "result = a + b". split.
  - apply list_elem_of_In. vm_compute. by left.
  - split; [split; [by vm_compute|by vm_compute]|split; by vm_compute].
Defined.

Lemma scanned_same_lines code1 code2 language :
  (∀ line, line ∈ PyStr.split_lines code1 ↔ line ∈ PyStr.split_lines code2) →
  Analyzer.inputs (Analyzer.scanned code1 language)
  = Analyzer.inputs (Analyzer.scanned code2 language)
  ∧ Analyzer.outputs (Analyzer.scanned code1 language)
    = Analyzer.outputs (Analyzer.scanned code2 language).
Proof.
  intros Hlines. rewrite !scanned_dialect.
  destruct (dialect_of language) as [d|]; [|done].
  split; apply set_eq; intros x.
  - rewrite !(proj1 (visit_lines_spec d _ _ x)).
    by setoid_rewrite Hlines.
  - rewrite !(proj2 (visit_lines_spec d _ _ x)).
    by setoid_rewrite Hlines.
Qed.

(** X10.  The analysis does not depend on the order of the lines of the
    code, nor on how often a line is repeated: two codes with the same
    lines give the same sets of inputs and outputs and the same warnings.
    The returned lists hold the same names, each once, in an order that
    may differ from one run to the next.  (The outputs are subtracted from
    the inputs once, after the loop, so a name assigned as an output on a
    late line is no input of an earlier one.) *)
Theorem analysis_ignores_line_order list_of_set1 list_of_set2 code1 code2
    language :
  valid_enumeration list_of_set1 →
  valid_enumeration list_of_set2 →
  (∀ line, line ∈ PyStr.split_lines code1 ↔ line ∈ PyStr.split_lines code2) →
  let first := analyze_code_variables list_of_set1 code1 language in
  let second := analyze_code_variables list_of_set2 code2 language in
  Analyzer.variables code1 language = Analyzer.variables code2 language
  ∧ analysis_inputs first ≡ₚ analysis_inputs second
  ∧ analysis_outputs first ≡ₚ analysis_outputs second
  ∧ analysis_warnings first = analysis_warnings second.
Proof.
  intros Hvalid1 Hvalid2 Hlines first second.
  destruct (scanned_same_lines code1 code2 language Hlines) as [Hi Ho].
  assert (Analyzer.variables code1 language = Analyzer.variables code2 language)
    as Hsets.
  { unfold Analyzer.variables. by rewrite Hi, Ho. }
  split; [done|]. subst first second. unfold analyze_code_variables.
  cbn [analysis_inputs analysis_outputs analysis_warnings]. rewrite Hsets.
  assert (∀ X : gset string, list_of_set1 X ≡ₚ list_of_set2 X) as Hperm.
  { intros X. destruct (Hvalid2 X) as [Hnodup Hin].
    by apply (valid_enumeration_perm list_of_set1 X _ Hvalid1). }
  by split; [|split].
Qed.

Lemma analysis_ignores_line_order_witness :
  analysis_inputs
    (analyze_code_variables elements ("x = a" ++ Guide.nl ++ "a = 1") "python")
  ≡ₚ analysis_inputs
       (analyze_code_variables reversed_elements
          ("a = 1" ++ Guide.nl ++ "x = a" ++ Guide.nl ++ "a = 1") "python").
Proof.
  apply (analysis_ignores_line_order elements reversed_elements
           ("x = a" ++ Guide.nl ++ "a = 1")
           ("a = 1" ++ Guide.nl ++ "x = a" ++ Guide.nl ++ "a = 1") "python"
           elements_valid reversed_elements_valid).
  intros line. split; intros Hline; apply list_elem_of_In in Hline;
    apply list_elem_of_In; vm_compute in Hline |- *; tauto.
Defined.

(** X11.  A language other than "python" and "csharp" (compared in lower
    case) is not analysed, whatever the code: no input and no output is
    reported, and the one warning says that the code might be
    self-contained. *)
Theorem analysis_unknown_language list_of_set code language :
  valid_enumeration list_of_set →
  dialect_of language = None →
  analyze_code_variables list_of_set code language
  = Analysis [] []
      ["No variables detected - code might be self-contained"].
Proof.
  intros Hvalid Hd. unfold analyze_code_variables, Analyzer.variables.
  rewrite scanned_dialect, Hd. cbn [Analyzer.inputs Analyzer.outputs].
  assert ((∅ : gset string) ∖ ∅ = ∅) as -> by set_solver.
  by rewrite (proj2 (valid_enumeration_nil list_of_set ∅ Hvalid) eq_refl).
Qed.

Lemma analysis_unknown_language_witness :
  analyze_code_variables elements "result = a + b" "VB"
  = Analysis [] []
      ["No variables detected - code might be self-contained"].
Proof.
  apply (analysis_unknown_language elements "result = a + b" "VB"
           elements_valid eq_refl).
Defined.

(** ** The entries of a guide section *)







(** ** [get_component_info] *)

(** [get_component_library] has the keys [categories] and [dataTypes]
    only, so nothing is merged from it. *)
Lemma merge_library_unchanged keys component_type component_data :
  Enrich.merge_library keys component_type component_data = inr component_data.
Proof.
  unfold Enrich.merge_library.
  assert (PyVal.contains_key "components" get_component_library = inr false)
    as -> by (by vm_compute).
  done.
Qed.

Lemma related_connections_dicts is_id (conns : list (gmap string json)) :
  Enrich.related_connections is_id (JDict <$> conns)
  = inr (JDict <$> List.filter (touching is_id) conns).
Proof.
  induction conns as [|conn conns IH]; [done|].
  rewrite fmap_cons. cbn [Enrich.related_connections].
  rewrite IH. cbn [PyVal.get sbind List.filter].
  change (touching is_id conn)
    with (is_id (default JNull (conn !! "sourceId"))
          || is_id (default JNull (conn !! "targetId"))).
  destruct (is_id (default JNull (conn !! "sourceId")));
    cbn [sbind orb]; [done|].
  by destruct (is_id (default JNull (conn !! "targetId"))).
Qed.

Lemma add_current_settings_dict ty (data : gmap string json) :
  Enrich.add_current_settings ty (JDict data) = inr (JDict (settled ty data)).
Proof.
  unfold Enrich.add_current_settings, settled.
  destruct (PyVal.eq_str ty "Number Slider"); [|done].
  cbn [PyVal.contains_key sbind andb].
  by destruct (bool_decide (is_Some (data !! "currentSettings"))).
Qed.

Lemma truthy_dict_with_key (d : gmap string json) key v :
  d !! key = Some v → PyVal.truthy (JDict d) = true.
Proof.
  intros Hkey. cbn [PyVal.truthy]. rewrite bool_decide_eq_false_2; [done|].
  intros ->. by rewrite lookup_empty in Hkey.
Qed.

Lemma add_connections_listed component_id connections conns
    (data : gmap string json) :
  lists_connections connections conns →
  Enrich.add_connections component_id connections (JDict data)
  = inr (JDict (connected (List.filter (touches component_id) conns) data)).
Proof.
  intros [d Hnone|d conns' Hsome]; unfold Enrich.add_connections.
  - cbn [PyVal.contains_key]. rewrite Hnone.
    rewrite bool_decide_eq_false_2 by (by intros [? ?]).
    by destruct (PyVal.truthy (JDict d)).
  - rewrite (truthy_dict_with_key d _ _ Hsome).
    cbn [Connect.and_then PyVal.contains_key PyVal.subscript]. rewrite Hsome.
    rewrite bool_decide_eq_true_2 by (by eexists).
    cbn [sbind PyVal.iterate]. rewrite related_connections_dicts.
    cbn [sbind]. unfold connected, touches.
    by destruct (List.filter _ conns').
Qed.

(** X13.  [get_component_info] on well-formed answers.  When the peer
    reports the component with a type and lists its connections, the tool
    issues the two queries and returns the peer's answer with its [result]
    changed in two entries at most: [currentSettings], added to a Number
    Slider that has none (what the data holds for [min], [max], [value]
    and [rounding], or else 0, 10, 5 and 0.1; its [type] is the component
    type, never the default "float"), and [connections], set to the
    connections that leave or enter the component when there is one.  Every
    other entry is as the peer sent it: the library of components has no
    [components] list, so [availableSettings], [inputDetails],
    [outputDetails], [usageExamples] and [commonIssues] are never added. *)
Theorem get_component_info_enriched E component_id log d data ty
    connections conns :
  reply E log (info_query component_id) = Returned (JDict d) →
  d !! "result" = Some (JDict data) →
  data !! "type" = Some ty →
  reply E (log ++ [info_query component_id])%list connections_query
  = Returned connections →
  lists_connections connections conns →
  ∃ enriched,
    get_component_info E component_id log
    = (Returned (JDict (<["result" := JDict enriched]> d)),
       (log ++ [info_query component_id; connections_query])%list)
    ∧ enriched
      = connected (List.filter (touches component_id) conns) (settled ty data)
    ∧ (∀ key, key ≠ "currentSettings" → key ≠ "connections" →
              enriched !! key = data !! key)
    ∧ default_settings data !! "type" = Some ty.
Proof.
  intros Hinfo Hresult Htype Hconns Hlisted. eexists. split; [|split; [done|split]].
  - unfold get_component_info, bind.
    rewrite send_to_grasshopper_reply. fold (info_query component_id).
    rewrite Hinfo. rewrite (truthy_dict_with_key d _ _ Hresult).
    cbn [Connect.and_then PyVal.contains_key PyVal.subscript of_sum ret].
    rewrite Hresult. rewrite bool_decide_eq_true_2 by (by eexists).
    cbn [of_sum ret PyVal.contains_key PyVal.subscript].
    rewrite Htype. rewrite bool_decide_eq_true_2 by (by eexists).
    cbn [of_sum ret]. rewrite merge_library_unchanged. cbn [of_sum ret].
    rewrite add_current_settings_dict. cbn [of_sum ret].
    rewrite send_to_grasshopper_no_params, send_to_grasshopper_reply.
    fold connections_query. rewrite Hconns.
    rewrite (add_connections_listed _ _ _ _ Hlisted). cbn [of_sum ret].
    cbn [Enrich.with_result]. by rewrite <- app_assoc.
  - intros key Hsettings Hconnections. unfold connected, settled.
    destruct (List.filter _ _), (_ && _); by simplify_map_eq.
  - unfold default_settings. rewrite lookup_insert_eq, Htype. done.
Qed.

Lemma get_component_info_enriched_witness :
  (get_component_info slider_peer "s" []).2
  = [info_query "s"; connections_query].
Proof.
  destruct (get_component_info_enriched slider_peer "s" []
              (<["result" := JDict (<["type" := JStr "Number Slider"]>
                                     (<["id" := JStr "s"]> ∅))]> ∅)
              (<["type" := JStr "Number Slider"]> (<["id" := JStr "s"]> ∅))
              (JStr "Number Slider")
              (JDict (<["result" :=
                          JList [JDict (<["targetId" := JStr "t"]>
                                          (<["sourceId" := JStr "s"]> ∅))]]> ∅))
              [<["targetId" := JStr "t"]> (<["sourceId" := JStr "s"]> ∅)])
    as (enriched & Hrun & _).
  - by vm_compute.
  - by vm_compute.
  - by vm_compute.
  - by vm_compute.
  - apply lists_result. by vm_compute.
  - by rewrite Hrun.
Defined.

(** X14.  [get_component_info] when the answer carries no typed result.
    The tool issues the one query and stops.  An answer that is empty or
    has no [result], and so also the failure report of an exchange that
    went wrong, is returned as it is; so is an answer whose [result] is an
    object without [type].  An answer whose [result] is null makes the
    test for [type] raise [TypeError]. *)
Theorem get_component_info_without_type E component_id log :
  let run := get_component_info E component_id log in
  let asked := (log ++ [info_query component_id])%list in
  (∀ d, reply E log (info_query component_id) = Returned (JDict d) →
        d !! "result" = None → run = (Returned (JDict d), asked))
  ∧ (∀ e, first_failure E (peer E asked) e →
          run = (Returned (Transport.failure_response e), asked))
  ∧ (∀ d data, reply E log (info_query component_id) = Returned (JDict d) →
               d !! "result" = Some (JDict data) → data !! "type" = None →
               run = (Returned (JDict d), asked))
  ∧ (∀ d, reply E log (info_query component_id) = Returned (JDict d) →
          d !! "result" = Some JNull →
          run = (Raised (PyVal.type_error "argument is not iterable"), asked)).
Proof.
  intros run asked.
  assert (∀ d, reply E log (info_query component_id) = Returned (JDict d) →
               d !! "result" = None → run = (Returned (JDict d), asked))
    as Hnone.
  { intros d Hinfo Hresult. subst run. unfold get_component_info, bind.
    rewrite send_to_grasshopper_reply. fold (info_query component_id).
    rewrite Hinfo. cbn [PyVal.contains_key]. rewrite Hresult.
    rewrite bool_decide_eq_false_2 by (by intros [? ?]).
    by destruct (PyVal.truthy (JDict d)). }
  split; [exact Hnone|]. split; [|split].
  - intros e Hfail.
    destruct (failure_response_shape e) as (d & Hd & _ & _ & Hdom).
    rewrite Hd. apply Hnone.
    + unfold reply. cbn [cmd_type cmd_parameters info_query].
      rewrite <- Hd. by apply send_to_grasshopper_failure.
    + apply not_elem_of_dom. rewrite Hdom.
      rewrite elem_of_union, !elem_of_singleton. by intros [?|?].
  - intros d data Hinfo Hresult Htype. subst run.
    unfold get_component_info, bind.
    rewrite send_to_grasshopper_reply. fold (info_query component_id).
    rewrite Hinfo. rewrite (truthy_dict_with_key d _ _ Hresult).
    cbn [Connect.and_then PyVal.contains_key PyVal.subscript of_sum ret].
    rewrite Hresult. rewrite bool_decide_eq_true_2 by (by eexists).
    cbn [of_sum ret PyVal.contains_key]. rewrite Htype.
    by rewrite bool_decide_eq_false_2 by (by intros [? ?]).
  - intros d Hinfo Hresult. subst run.
    unfold get_component_info, bind.
    rewrite send_to_grasshopper_reply. fold (info_query component_id).
    rewrite Hinfo. rewrite (truthy_dict_with_key d _ _ Hresult).
    cbn [Connect.and_then PyVal.contains_key PyVal.subscript of_sum ret].
    rewrite Hresult. rewrite bool_decide_eq_true_2 by (by eexists).
    done.
Qed.

Lemma get_component_info_without_type_witness :
  get_component_info not_found_peer "t" []
  = (Raised (PyVal.type_error "argument is not iterable"), [info_query "t"]).
Proof.
  destruct (get_component_info_without_type not_found_peer "t" [])
    as (_ & _ & _ & Hnull).
  apply (Hnull (<["result" := JNull]>
                  (<["error" := JStr "Component not found"]>
                     (<["success" := JBool false]> ∅)))); by vm_compute.
Defined.

(** ** The first [get_all_components] *)

Lemma same_but_enrichment_refl component : same_but_enrichment component component.
Proof. by intros key _ _. Qed.

Lemma ask_current_settings_spec E id ty (component : gmap string json) log :
  answers_info_with_objects E →
  ∃ enhanced,
    EnrichAll.ask_current_settings E id ty (JDict component) log
    = (Returned (JDict enhanced),
       (log ++ if PyVal.eq_str ty "Number Slider"
               then [Command "get_component_info" (<["id" := id]> ∅)]
               else [])%list)
    ∧ same_but_enrichment component enhanced.
Proof.
  intros Hpeer. unfold EnrichAll.ask_current_settings.
  destruct (PyVal.eq_str ty "Number Slider").
  - destruct (Hpeer log id) as (r & Hreply & Hobject).
    unfold bind. rewrite send_to_grasshopper_reply, Hreply.
    cbn [PyVal.contains_key PyVal.subscript].
    destruct (r !! "result") as [v|] eqn:Hresult.
    + rewrite (truthy_dict_with_key r _ _ Hresult).
      rewrite bool_decide_eq_true_2 by (by eexists).
      destruct (Hobject v eq_refl) as [data ->].
      cbn. eexists. split; [done|].
      intros key _ Hkey. by rewrite lookup_insert_ne.
    + rewrite bool_decide_eq_false_2 by (by intros [? ?]).
      exists component. split; [|apply same_but_enrichment_refl].
      by destruct (PyVal.truthy (JDict r)).
  - exists component. split; [|apply same_but_enrichment_refl].
    cbn [ret]. by rewrite app_nil_r.
Qed.

Lemma enhance_spec E (conns : list (gmap string json))
    (component : gmap string json) log :
  answers_info_with_objects E →
  ∃ enhanced,
    EnrichAll.enhance E (JList (JDict <$> conns)) (JDict component) log
    = (Returned (JDict enhanced), (log ++ slider_queries [component])%list)
    ∧ same_but_enrichment component enhanced.
Proof.
  intros Hpeer. unfold EnrichAll.enhance, slider_queries, asked_again, bind.
  cbn [PyVal.contains_key of_sum ret List.filter].
  destruct (component !! "id") as [id|] eqn:Hid.
  - rewrite bool_decide_eq_true_2 by (by eexists).
    cbn [Connect.and_then PyVal.contains_key andb].
    destruct (component !! "type") as [ty|] eqn:Hty.
    + rewrite bool_decide_eq_true_2 by (by eexists).
      cbn [of_sum ret PyVal.subscript]. rewrite Hid, Hty. cbn [of_sum ret].
      rewrite merge_library_unchanged. cbn [of_sum ret PyVal.iterate].
      rewrite related_connections_dicts. cbn [of_sum ret].
      set (related := List.filter _ conns).
      assert (∃ attached,
                Enrich.attach_connections (JDict <$> related) (JDict component)
                = inr (JDict attached)
                ∧ same_but_enrichment component attached)
        as (attached & -> & Hattached).
      { destruct related as [|conn related].
        - exists component. split; [done|apply same_but_enrichment_refl].
        - eexists. split; [done|]. intros key Hkey _.
          by rewrite lookup_insert_ne. }
      cbn [of_sum ret].
      destruct (ask_current_settings_spec E id ty attached log Hpeer)
        as (enhanced & -> & Henhanced).
      exists enhanced. cbn [default].
      split.
      * change (Datatypes.id ty) with ty.
        destruct (PyVal.eq_str ty "Number Slider"); [|done].
        cbn [fmap list_fmap]. by rewrite Hid.
      * intros key Hc Hs. by rewrite Henhanced, Hattached.
    + rewrite bool_decide_eq_false_2 by (by intros [? ?]).
      cbn [of_sum ret default PyVal.eq_str]. exists component.
      split; [by rewrite app_nil_r|apply same_but_enrichment_refl].
  - rewrite bool_decide_eq_false_2 by (by intros [? ?]).
    cbn [Connect.and_then of_sum ret andb]. exists component.
    split; [by rewrite app_nil_r|apply same_but_enrichment_refl].
Qed.

Lemma slider_queries_cons component components :
  slider_queries (component :: components)
  = (slider_queries [component] ++ slider_queries components)%list.
Proof.
  unfold slider_queries. cbn [List.filter].
  by destruct (asked_again component).
Qed.

Lemma enhance_each_spec E (conns components : list (gmap string json)) log :
  answers_info_with_objects E →
  ∃ enhanced,
    EnrichAll.enhance_each E (JList (JDict <$> conns)) (JDict <$> components) log
    = (Returned (JDict <$> enhanced), (log ++ slider_queries components)%list)
    ∧ Forall2 same_but_enrichment components enhanced.
Proof.
  intros Hpeer. revert log.
  induction components as [|component components IH]; intros log.
  - exists []. split; [|constructor]. cbn. by rewrite app_nil_r.
  - rewrite fmap_cons. cbn [EnrichAll.enhance_each]. unfold bind.
    destruct (enhance_spec E conns component log Hpeer) as (c' & -> & Hc').
    destruct (IH (log ++ slider_queries [component])%list)
      as (rest & -> & Hrest).
    exists (c' :: rest). split; [|by constructor].
    cbn [ret]. by rewrite (slider_queries_cons component components), app_assoc.
Qed.

Lemma connections_data_listed connections conns :
  lists_connections connections conns →
  EnrichAll.connections_data connections = inr (JList (JDict <$> conns)).
Proof.
  intros [d Hnone|d conns' Hsome]; unfold EnrichAll.connections_data.
  - destruct (PyVal.truthy (JDict d)); [|done].
    cbn [PyObj.get_or]. by rewrite Hnone.
  - rewrite (truthy_dict_with_key d _ _ Hsome).
    cbn [PyObj.get_or]. by rewrite Hsome.
Qed.

(** X15.  The first [get_all_components] on well-formed answers.  When
    the peer lists the components and the connections, and its answers to
    [get_component_info] are objects, the tool asks for the components,
    then for the connections, and then once more for every component that
    has an [id] and the type "Number Slider", in the order of the list:
    two exchanges and one per slider.  It returns the peer's answer with
    as many components as the peer listed, in the same order, each with
    its entries unchanged but for [connections] and [currentSettings]. *)
Theorem get_all_components_enhanced_queries E log d components
    connections conns :
  answers_info_with_objects E →
  reply E log (Command "get_all_components" ∅) = Returned (JDict d) →
  d !! "result" = Some (JList (JDict <$> components)) →
  reply E (log ++ [Command "get_all_components" ∅])%list connections_query
  = Returned connections →
  lists_connections connections conns →
  ∃ enhanced,
    get_all_components_enhanced E log
    = (Returned (JDict (<["result" := JList (JDict <$> enhanced)]> d)),
       (log ++ [Command "get_all_components" ∅; connections_query]
            ++ slider_queries components)%list)
    ∧ Forall2 same_but_enrichment components enhanced.
Proof.
  intros Hpeer Hall Hresult Hconns Hlisted.
  destruct (enhance_each_spec E conns components
              (log ++ [Command "get_all_components" ∅; connections_query])%list
              Hpeer) as (enhanced & Heach & Hsame).
  exists enhanced. split; [|done].
  unfold get_all_components_enhanced, bind.
  rewrite send_to_grasshopper_no_params, send_to_grasshopper_reply, Hall.
  rewrite (truthy_dict_with_key d _ _ Hresult).
  cbn [Connect.and_then PyVal.contains_key PyVal.subscript of_sum ret].
  rewrite Hresult. rewrite bool_decide_eq_true_2 by (by eexists).
  cbn [of_sum ret].
  rewrite send_to_grasshopper_no_params, send_to_grasshopper_reply.
  fold connections_query. rewrite Hconns.
  rewrite (connections_data_listed _ _ Hlisted).
  cbn [of_sum ret PyVal.iterate].
  rewrite <- app_assoc. cbn [app]. rewrite Heach.
  cbn [ret Enrich.with_result EnrichAll.after_loop].
  by rewrite <- app_assoc.
Qed.

Lemma canvas_peer_answers : answers_info_with_objects canvas_peer.
Proof.
  intros log id. exists (<["result" := JDict (<["min" := JInt 1]> ∅)]> ∅).
  split.
  - unfold reply, send_to_grasshopper.
    cbn [cmd_type cmd_parameters default from_option peer canvas_peer
         answering_peer].
    rewrite last_snoc. by vm_compute.
  - intros v [_ <-]%lookup_singleton_Some. by eexists.
Qed.

Lemma get_all_components_enhanced_queries_witness :
  (get_all_components_enhanced canvas_peer []).2
  = [Command "get_all_components" ∅; connections_query;
     Command "get_component_info" (<["id" := JStr "s1"]> ∅);
     Command "get_component_info" (<["id" := JStr "s2"]> ∅)].
Proof.
  destruct (get_all_components_enhanced_queries canvas_peer []
              (<["result" :=
                   JList [JDict (<["type" := JStr "Number Slider"]>
                                   (<["id" := JStr "s1"]> ∅));
                          JDict (<["type" := JStr "Addition"]>
                                   (<["id" := JStr "t"]> ∅));
                          JDict (<["type" := JStr "Number Slider"]>
                                   (<["id" := JStr "s2"]> ∅))]]> ∅)
              [<["type" := JStr "Number Slider"]> (<["id" := JStr "s1"]> ∅);
               <["type" := JStr "Addition"]> (<["id" := JStr "t"]> ∅);
               <["type" := JStr "Number Slider"]> (<["id" := JStr "s2"]> ∅)]
              (JDict (<["result" :=
                          JList [JDict (<["targetId" := JStr "t"]>
                                          (<["sourceId" := JStr "s1"]> ∅))]]> ∅))
              [<["targetId" := JStr "t"]> (<["sourceId" := JStr "s1"]> ∅)])
    as (enhanced & Hrun & _).
  - apply canvas_peer_answers.
  - by vm_compute.
  - by vm_compute.
  - by vm_compute.
  - apply lists_result. by vm_compute.
  - rewrite Hrun. by vm_compute.
Defined.

(** ** [generate_manual_setup_guide] *)

Lemma succeeded_truthy (info : gmap string json) :
  succeeded info → PyVal.truthy (JDict info) = true.
Proof.
  unfold succeeded. destruct (info !! "success") as [v|] eqn:Hs; [|done].
  intros _. by apply (truthy_dict_with_key info "success" v).
Qed.

Lemma not_successful_succeeded (info : gmap string json) :
  succeeded info → SetupGuide.not_successful (JDict info) = inr false.
Proof.
  intros Hs. unfold SetupGuide.not_successful.
  rewrite (succeeded_truthy info Hs). cbn [PyVal.get sbind].
  unfold succeeded in Hs. by rewrite Hs.
Qed.

Lemma data_result_holds (info r : gmap string json) :
  holds_result info r → SetupGuide.data_result (JDict info) = inr (JDict r).
Proof.
  unfold SetupGuide.data_result.
  intros [Hdata|data Hdata Hresult|data r' Hdata Hresult];
    cbn [PyObj.get_or]; rewrite Hdata; cbn [default sbind PyObj.get_or id];
    [done|by rewrite Hresult|by rewrite Hresult].
Qed.

Lemma script_position_found E script_component_id log (info pos : gmap string json) :
  reply E log (info_query script_component_id) = Returned (JDict info) →
  succeeded info → holds_result info pos →
  SetupGuide.script_position E script_component_id log
  = (Returned (inr (default (JInt 100) (pos !! "x"),
                    default (JInt 100) (pos !! "y"))),
     (log ++ [info_query script_component_id])%list).
Proof.
  intros Hinfo Hs Hpos. unfold SetupGuide.script_position, try_except, bind.
  rewrite send_to_grasshopper_reply. fold (info_query script_component_id).
  rewrite Hinfo, (not_successful_succeeded info Hs). cbn [of_sum ret].
  rewrite (data_result_holds info pos Hpos). done.
Qed.

(** X16.  [generate_manual_setup_guide] when the peer reports success.
    The tool asks for the script component, creates a panel named
    "Setup Guide" that holds the guide text, 300 to the right of the
    position found under [data] and [result] of the answer (x and y are
    100 each when the answer has none, so the panel goes to 400, 100),
    sets the panel's value to the same text and wires the script
    component to the panel: four commands in this order.  It returns the
    answer to the third command; the answer to the fourth is dropped,
    whatever it says. *)
Theorem setup_guide_commands E list_of_set script_component_id code language
    input_params output_params log info pos panel_x panel_info created
    set_value_result connect_result :
  let guide_text :=
    _generate_guide_text list_of_set code language input_params output_params in
  let panel_y := default (JInt 100) (pos !! "y") in
  let panel_id := default JNull (created !! "id") in
  let asked := (log ++ [info_query script_component_id])%list in
  let placed := (asked ++ [panel_command panel_x panel_y guide_text])%list in
  let filled := (placed ++ [fill_panel_command panel_id guide_text])%list in
  reply E log (info_query script_component_id) = Returned (JDict info) →
  succeeded info → holds_result info pos →
  PyObj.add_int (default (JInt 100) (pos !! "x")) 300 = inr panel_x →
  reply E asked (panel_command panel_x panel_y guide_text)
  = Returned (JDict panel_info) →
  succeeded panel_info → holds_result panel_info created →
  reply E placed (fill_panel_command panel_id guide_text)
  = Returned set_value_result →
  reply E filled (wire_panel_command script_component_id panel_id)
  = Returned connect_result →
  generate_manual_setup_guide E list_of_set script_component_id code language
    input_params output_params log
  = (Returned set_value_result,
     (filled ++ [wire_panel_command script_component_id panel_id])%list)
  ∧ (pos = ∅ → panel_x = JInt 400 ∧ panel_y = JInt 100).
Proof.
  intros guide_text panel_y panel_id asked placed filled
    Hinfo Hs Hpos Hx Hpanel Hps Hcreated Hset Hconnect.
  split.
  - unfold generate_manual_setup_guide, bind.
    rewrite (script_position_found E _ log info pos Hinfo Hs Hpos).
    rewrite Hx. cbn [of_sum ret]. fold guide_text panel_y asked.
    unfold SetupGuide.show_guide, try_except, bind.
    rewrite send_to_grasshopper_reply.
    fold (panel_command panel_x panel_y guide_text). rewrite Hpanel.
    rewrite (not_successful_succeeded panel_info Hps). cbn [of_sum ret].
    rewrite (data_result_holds panel_info created Hcreated).
    cbn [of_sum ret PyVal.get]. fold panel_id.
    rewrite send_to_grasshopper_reply.
    fold (fill_panel_command panel_id guide_text). fold placed. rewrite Hset.
    rewrite send_to_grasshopper_reply.
    fold (wire_panel_command script_component_id panel_id). fold filled.
    by rewrite Hconnect.
  - intros ->. subst panel_y. rewrite lookup_empty in *. cbn in Hx.
    by injection Hx as <-.
Qed.

Lemma setup_guide_commands_witness :
  (generate_manual_setup_guide agreeing_peer elements "s" "x = 1" "python"
     None None []).2
  = [info_query "s";
     panel_command (JInt 400) (JInt 100)
       (_generate_guide_text elements "x = 1" "python" None None);
     fill_panel_command JNull
       (_generate_guide_text elements "x = 1" "python" None None);
     wire_panel_command "s" JNull].
Proof.
  destruct (setup_guide_commands agreeing_peer elements "s" "x = 1" "python"
              None None [] (<["success" := JBool true]> ∅) ∅ (JInt 400)
              (<["success" := JBool true]> ∅) ∅
              (JDict (<["success" := JBool true]> ∅))
              (JDict (<["success" := JBool true]> ∅))) as [Hrun _].
  - by vm_compute.
  - by vm_compute.
  - by apply holds_no_data.
  - by vm_compute.
  - by vm_compute.
  - by vm_compute.
  - by apply holds_no_data.
  - by vm_compute.
  - by vm_compute.
  - by rewrite Hrun.
Defined.

Lemma not_successful_failed (info : gmap string json) :
  ¬ succeeded info → SetupGuide.not_successful (JDict info) = inr true.
Proof.
  intros Hs. unfold SetupGuide.not_successful.
  destruct (PyVal.truthy (JDict info)); [|done].
  cbn [PyVal.get sbind]. unfold succeeded in Hs.
  by destruct (PyVal.truthy (default JNull (info !! "success"))).
Qed.

(** X17.  [generate_manual_setup_guide] when something goes wrong.  If
    the query for the script component fails, or its answer has no true
    [success], the tool returns the failure dict "Failed to get script
    component info." after that one command.  If the answer places the
    component at an x that is no number, the sum [x + 300] raises outside
    both [try] blocks and the tool raises, again after one command.  If
    the panel cannot be created, the tool returns "Failed to create the
    guide panel." and sends neither the value nor the connection. *)
Theorem setup_guide_failures E list_of_set script_component_id code language
    input_params output_params log :
  let run :=
    generate_manual_setup_guide E list_of_set script_component_id code
      language input_params output_params log in
  let guide_text :=
    _generate_guide_text list_of_set code language input_params output_params in
  let asked := (log ++ [info_query script_component_id])%list in
  (∀ e, first_failure E (peer E asked) e →
        run = (Returned
                 (SetupGuide.failure "Failed to get script component info."),
               asked))
  ∧ (∀ info, reply E log (info_query script_component_id)
             = Returned (JDict info) →
             ¬ succeeded info →
             run = (Returned
                      (SetupGuide.failure "Failed to get script component info."),
                    asked))
  ∧ (∀ info pos e,
       reply E log (info_query script_component_id) = Returned (JDict info) →
       succeeded info → holds_result info pos →
       PyObj.add_int (default (JInt 100) (pos !! "x")) 300 = inl e →
       run = (Raised e, asked))
  ∧ (∀ info pos panel_x panel_info,
       reply E log (info_query script_component_id) = Returned (JDict info) →
       succeeded info → holds_result info pos →
       PyObj.add_int (default (JInt 100) (pos !! "x")) 300 = inr panel_x →
       reply E asked
         (panel_command panel_x (default (JInt 100) (pos !! "y")) guide_text)
       = Returned (JDict panel_info) →
       ¬ succeeded panel_info →
       run = (Returned (SetupGuide.failure "Failed to create the guide panel."),
              (asked ++ [panel_command panel_x
                           (default (JInt 100) (pos !! "y")) guide_text])%list)).
Proof.
  intros run guide_text asked.
  assert (∀ info, reply E log (info_query script_component_id)
                  = Returned (JDict info) →
                  ¬ succeeded info →
                  run = (Returned
                           (SetupGuide.failure
                              "Failed to get script component info."),
                         asked)) as Hfailed.
  { intros info Hinfo Hs. subst run.
    unfold generate_manual_setup_guide, bind, SetupGuide.script_position,
      try_except, bind.
    rewrite send_to_grasshopper_reply. fold (info_query script_component_id).
    by rewrite Hinfo, (not_successful_failed info Hs). }
  split; [|split; [exact Hfailed|split]].
  - intros e Hfail.
    destruct (failure_response_shape e) as (d & Hd & Hsuccess & _).
    apply (Hfailed d).
    + unfold reply. cbn [cmd_type cmd_parameters info_query].
      rewrite <- Hd. by apply send_to_grasshopper_failure.
    + unfold succeeded. by rewrite Hsuccess.
  - intros info pos e Hinfo Hs Hpos Hx. subst run.
    unfold generate_manual_setup_guide, bind.
    rewrite (script_position_found E _ log info pos Hinfo Hs Hpos).
    by rewrite Hx.
  - intros info pos panel_x panel_info Hinfo Hs Hpos Hx Hpanel Hps. subst run.
    unfold generate_manual_setup_guide, bind.
    rewrite (script_position_found E _ log info pos Hinfo Hs Hpos).
    rewrite Hx. cbn [of_sum ret]. fold guide_text asked.
    unfold SetupGuide.show_guide, try_except, bind.
    rewrite send_to_grasshopper_reply.
    fold (panel_command panel_x (default (JInt 100) (pos !! "y")) guide_text).
    by rewrite Hpanel, (not_successful_failed panel_info Hps).
Qed.

Lemma setup_guide_failures_witness :
  generate_manual_setup_guide text_position_peer elements "s" "x = 1" "python"
    None None []
  = (Raised (PyVal.type_error "unsupported operand type(s) for +"),
     [info_query "s"]).
Proof.
  destruct (setup_guide_failures text_position_peer elements "s" "x = 1"
              "python" None None []) as (_ & _ & Hsum & _).
  apply (Hsum (<["data" := JDict (<["result" := JDict (<["x" := JStr "12"]> ∅)]> ∅)]>
                 (<["success" := JBool true]> ∅))
              (<["x" := JStr "12"]> ∅)).
  - by vm_compute.
  - by vm_compute.
  - by apply (holds_some_result _ (<["result" := JDict (<["x" := JStr "12"]> ∅)]> ∅)).
  - by vm_compute.
Defined.

(** ** [get_grasshopper_status] *)

Lemma failure_response_no_result e :
  ∃ d, Transport.failure_response e = JDict d
       ∧ PyVal.truthy (JDict d) = true
       ∧ d !! "result" = None.
Proof.
  destruct (failure_response_shape e) as (d & Hd & Hsuccess & _ & Hdom).
  exists d. split; [done|]. split.
  - by apply (truthy_dict_with_key d "success" (JBool false)).
  - apply not_elem_of_dom. rewrite Hdom.
      rewrite elem_of_union, !elem_of_singleton. by intros [?|?].
Qed.

(** X18.  [get_grasshopper_status] when Grasshopper cannot be reached.
    If every exchange fails, the three queries are still made, in the
    order document, components, connections, and the report reads
    "Connected to Grasshopper" all the same: the failures show only as an
    empty document, no components and no connections. *)
Theorem status_when_unreachable E log :
  (∀ log', ∃ e, first_failure E (peer E log') e) →
  get_grasshopper_status E log
  = (Returned
       (JDict
          (<["canvas_summary" :=
               JStr "Current canvas has 0 components and 0 connections"]>
          (<["recommendations" := recommendations]>
          (<["component_hints" := component_hints]>
          (<["connections" := JList []]>
          (<["components" := JList []]>
          (<["document" := JDict ∅]>
          (<["status" := JStr "Connected to Grasshopper"]> ∅)))))))),
     (log ++ [Command "get_document_info" ∅; Command "get_all_components" ∅;
              connections_query])%list).
Proof.
  intros Hfails.
  assert (∀ ty log', ∃ d,
            send_to_grasshopper E ty (Some ∅) log'
            = (Returned (JDict d), (log' ++ [Command ty ∅])%list)
            ∧ PyVal.truthy (JDict d) = true ∧ d !! "result" = None)
    as Hsend.
  { intros ty log'. destruct (Hfails (log' ++ [Command ty ∅])%list) as [e He].
    destruct (failure_response_no_result e) as (d & Hd & Ht & Hr).
    exists d. split; [|done]. rewrite send_to_grasshopper_reply. f_equal.
    unfold reply. cbn [cmd_type cmd_parameters]. rewrite <- Hd.
    by apply send_to_grasshopper_failure. }
  unfold get_grasshopper_status, get_all_components, try_except, bind.
  rewrite send_to_grasshopper_no_params.
  destruct (Hsend "get_document_info" log) as (d1 & -> & _ & Hr1).
  destruct (Hsend "get_all_components" (log ++ [Command "get_document_info" ∅])%list)
    as (d2 & -> & Ht2 & Hr2).
  unfold Status.components_of. rewrite Ht2. cbn [PyObj.get_or].
  rewrite Hr2. cbn [default of_sum ret].
  rewrite send_to_grasshopper_no_params.
  match goal with
  | |- context [send_to_grasshopper E "get_connections" (Some ∅) ?l] =>
      destruct (Hsend "get_connections" l) as (d3 & -> & _ & Hr3)
  end.
  cbn [PyVal.iterate of_sum ret Status.summaries].
  unfold Status.report. cbn [PyObj.get_or]. rewrite Hr1, Hr3.
  cbn [default sbind PyObj.len length of_sum ret].
  rewrite <- !app_assoc. cbn [app]. unfold connections_query.
  f_equal.
Qed.

Lemma status_when_unreachable_witness :
  (get_grasshopper_status refusing_peer []).2
  = [Command "get_document_info" ∅; Command "get_all_components" ∅;
     connections_query].
Proof.
  rewrite (status_when_unreachable refusing_peer []); [done|].
  intros log'. eexists. by apply connect_failure.
Defined.

Lemma report_shape doc_info connections component_summaries v :
  Status.report doc_info connections component_summaries = inr v →
  ∃ d, v = JDict d ∧ Forall (fun key => is_Some (d !! key)) report_keys.
Proof.
  unfold Status.report.
  destruct (PyObj.get_or doc_info "result" (JDict ∅)) as [e|document];
    [done|]. cbn [sbind].
  destruct (PyObj.get_or connections "result" (JList [])) as [e|listed];
    [done|]. cbn [sbind].
  destruct (PyObj.len listed) as [e|count]; [done|]. cbn [sbind].
  intros [= <-]. eexists. split; [done|].
  repeat constructor; by simplify_map_eq.
Qed.

Lemma error_report_shape e :
  ∃ d, Status.error_report e = JDict d
       ∧ Forall (fun key => is_Some (d !! key)) report_keys.
Proof.
  eexists. split; [done|]. repeat constructor; by simplify_map_eq.
Qed.

(** X19.  [get_grasshopper_status] never raises, whatever the peer
    answers: an exception met on the way becomes a report whose [status]
    holds the error.  What it returns is always an object with the entries
    [status], [document], [components] and [connections].  It makes the
    three queries in order (document, components, connections) and stops
    early only when an exchange does not end or an answer cannot be read;
    it never asks for a single component, also when the canvas holds
    sliders. *)
Theorem status_never_raises E log :
  let run := get_grasshopper_status E log in
  (∀ e, run.1 ≠ Raised e)
  ∧ (∀ v, run.1 = Returned v →
          ∃ d, v = JDict d ∧ Forall (fun key => is_Some (d !! key)) report_keys)
  ∧ (∃ n, (0 < n ≤ 3)%nat ∧ run.2 = (log ++ take n status_queries)%list).
Proof.
  intros run. subst run.
  unfold get_grasshopper_status, get_all_components, try_except, bind.
  rewrite send_to_grasshopper_no_params, send_to_grasshopper_reply.
  assert (∀ (e : exn) l,
            (∀ e', (ret (Status.error_report e) l).1 ≠ Raised e')
            ∧ (∀ v, (ret (Status.error_report e) l).1 = Returned v →
                    ∃ d, v = JDict d
                         ∧ Forall (fun key => is_Some (d !! key)) report_keys))
    as Hhandler.
  { intros e l. split; [done|]. intros v [= <-]. apply error_report_shape. }
  destruct (reply E log (Command "get_document_info" ∅)) as [doc_info|e|].
  2: { destruct (Hhandler e (log ++ [Command "get_document_info" ∅])%list)
         as [H1 H2].
       split; [exact H1|]. split; [exact H2|]. exists 1%nat. split; [lia|done]. }
  2: { split; [done|]. split; [done|]. exists 1%nat. split; [lia|done]. }
  rewrite send_to_grasshopper_reply.
  destruct (reply E _ (Command "get_all_components" ∅))
    as [components_result|e|].
  2: { destruct (Hhandler e ((log ++ [Command "get_document_info" ∅])
                               ++ [Command "get_all_components" ∅])%list)
         as [H1 H2].
       split; [exact H1|]. split; [exact H2|]. exists 2%nat. split; [lia|].
       by rewrite <- app_assoc. }
  2: { split; [done|]. split; [done|]. exists 2%nat. split; [lia|].
       by rewrite <- app_assoc. }
  destruct (Status.components_of components_result) as [e|components].
  { cbn [of_sum raise].
    destruct (Hhandler e ((log ++ [Command "get_document_info" ∅])
                            ++ [Command "get_all_components" ∅])%list)
      as [H1 H2].
    split; [exact H1|]. split; [exact H2|]. exists 2%nat. split; [lia|].
    by rewrite <- app_assoc. }
  cbn [of_sum ret].
  rewrite send_to_grasshopper_no_params, send_to_grasshopper_reply.
  fold connections_query.
  assert ((((log ++ [Command "get_document_info" ∅])
              ++ [Command "get_all_components" ∅]) ++ [connections_query])%list
          = (log ++ take 3 status_queries)%list) as ->.
  { by rewrite <- !app_assoc. }
  destruct (reply E _ connections_query) as [connections|e|].
  2: { destruct (Hhandler e (log ++ take 3 status_queries)%list) as [H1 H2].
       split; [exact H1|]. split; [exact H2|]. exists 3%nat. split; [lia|done]. }
  2: { split; [done|]. split; [done|]. exists 3%nat. split; [lia|done]. }
  destruct (PyVal.iterate components) as [e|items].
  { cbn [of_sum raise].
    destruct (Hhandler e (log ++ take 3 status_queries)%list) as [H1 H2].
    split; [exact H1|]. split; [exact H2|]. exists 3%nat. split; [lia|done]. }
  cbn [of_sum ret].
  destruct (Status.summaries items) as [e|component_summaries].
  { cbn [of_sum raise].
    destruct (Hhandler e (log ++ take 3 status_queries)%list) as [H1 H2].
    split; [exact H1|]. split; [exact H2|]. exists 3%nat. split; [lia|done]. }
  cbn [of_sum ret].
  destruct (Status.report doc_info connections component_summaries)
    as [e|report] eqn:Hreport.
  { cbn [of_sum raise].
    destruct (Hhandler e (log ++ take 3 status_queries)%list) as [H1 H2].
    split; [exact H1|]. split; [exact H2|]. exists 3%nat. split; [lia|done]. }
  cbn [of_sum ret]. split; [done|]. split.
  - intros v [= <-]. by apply (report_shape _ _ _ _ Hreport).
  - exists 3%nat. split; [lia|done].
Qed.

Lemma status_never_raises_witness :
  (get_grasshopper_status not_found_peer []).1
  ≠ Raised (PyVal.attribute_error "object has no attribute 'get'").
Proof.
  apply (proj1 (status_never_raises not_found_peer [])).
Defined.

Lemma summary_spec (component : gmap string json) :
  component !! "connections" = None →
  ∃ summary, Status.summary (JDict component) = inr (JDict summary)
             ∧ summarises component summary.
Proof.
  intros Hconnections. unfold Status.summary, summarises.
  cbn [PyObj.get_or sbind].
  unfold Status.with_settings, Status.with_connections.
  cbn [PyVal.contains_key PyVal.subscript PyVal.get sbind].
  rewrite Hconnections.
  rewrite (bool_decide_eq_false_2 (is_Some None)) by (by intros [? ?]).
  destruct (component !! "currentSettings") as [settings|] eqn:Hsettings.
  - rewrite bool_decide_eq_true_2 by (by eexists). cbn [sbind].
    eexists. split; [done|]. simplify_map_eq.
    repeat split; eauto.
  - rewrite bool_decide_eq_false_2 by (by intros [? ?]).
    destruct (PyVal.eq_str (default JNull (component !! "type"))
                "Number Slider") eqn:Hslider.
    + cbn [Enrich.slider_settings PyObj.get_or sbind].
      eexists. split; [done|]. simplify_map_eq.
      repeat split; eauto.
    + cbn [sbind]. eexists. split; [done|]. simplify_map_eq.
      split; [done|]. split; [done|]. split; [done|].
      split; [by intros [? ?]|by intros [[? ?]|?]].
Qed.

Lemma summaries_spec (components : list (gmap string json)) :
  Forall (fun component => component !! "connections" = None) components →
  ∃ summaries, Status.summaries (JDict <$> components)
               = inr (JDict <$> summaries)
               ∧ Forall2 summarises components summaries.
Proof.
  induction 1 as [|component components Hc _ (summaries & IH & Hall)].
  - exists []. split; [done|constructor].
  - destruct (summary_spec component Hc) as (summary & Hsummary & Hs).
    exists (summary :: summaries). split; [|by constructor].
    rewrite fmap_cons. cbn [Status.summaries]. by rewrite Hsummary, IH.
Qed.

(** X20.  The report of [get_grasshopper_status] for a canvas.  When the
    peer answers the three queries with objects, lists the components as
    objects (without [connections] entries) and lists the connections,
    the report has the status "Connected to Grasshopper", the peer's list
    of connections, one summary per component in the order of the peer's
    list, each with the [id], [type] and position of its component and
    with settings exactly for the components that carry [currentSettings]
    or are Number Sliders, and a [canvas_summary] that counts the
    components and the connections. *)
Theorem status_report_of_canvas E log doc components_result components
    connections conns :
  reply E log (Command "get_document_info" ∅) = Returned (JDict doc) →
  reply E (log ++ take 1 status_queries)%list (Command "get_all_components" ∅)
  = Returned (JDict components_result) →
  components_result !! "result" = Some (JList (JDict <$> components)) →
  Forall (fun component => component !! "connections" = None) components →
  reply E (log ++ take 2 status_queries)%list connections_query
  = Returned connections →
  lists_connections connections conns →
  ∃ report summaries,
    get_grasshopper_status E log
    = (Returned (JDict report), (log ++ status_queries)%list)
    ∧ report !! "status" = Some (JStr "Connected to Grasshopper")
    ∧ report !! "document" = Some (default (JDict ∅) (doc !! "result"))
    ∧ report !! "components" = Some (JList (JDict <$> summaries))
    ∧ Forall2 summarises components summaries
    ∧ report !! "connections" = Some (JList (JDict <$> conns))
    ∧ report !! "canvas_summary"
      = Some (JStr (Status.canvas_summary (length components) (length conns))).
Proof.
  intros Hdoc Hall Hresult Hplain Hconns Hlisted.
  destruct (summaries_spec components Hplain) as (summaries & Hsummaries & Hs).
  assert (∃ d, connections = JDict d
               ∧ default (JList []) (d !! "result") = JList (JDict <$> conns))
    as (d & -> & Hd).
  { destruct Hlisted as [d Hnone|d conns Hsome]; exists d;
      (split; [done|]); [by rewrite Hnone|by rewrite Hsome]. }
  eexists. exists summaries. split.
  - unfold get_grasshopper_status, get_all_components, try_except, bind.
    rewrite send_to_grasshopper_no_params, send_to_grasshopper_reply, Hdoc.
    rewrite send_to_grasshopper_reply.
    change (log ++ [Command "get_document_info" ∅])%list
      with (log ++ take 1 status_queries)%list.
    rewrite Hall. unfold Status.components_of.
    rewrite (truthy_dict_with_key components_result _ _ Hresult).
    cbn [PyObj.get_or]. rewrite Hresult. cbn [default of_sum ret id].
    rewrite send_to_grasshopper_no_params, send_to_grasshopper_reply.
    fold connections_query.
    assert (((log ++ take 1 status_queries) ++ [Command "get_all_components" ∅])%list
            = (log ++ take 2 status_queries)%list) as ->
      by (by rewrite <- app_assoc).
    rewrite Hconns. cbn [PyVal.iterate of_sum ret].
    rewrite Hsummaries. cbn [of_sum ret].
    unfold Status.report. cbn [PyObj.get_or sbind]. rewrite Hd.
    cbn [PyObj.len sbind of_sum ret]. rewrite <- app_assoc. done.
  - rewrite !length_fmap, (Forall2_length _ _ _ Hs).
    by simplify_map_eq.
Qed.

Lemma status_report_of_canvas_witness :
  (get_grasshopper_status canvas_peer []).2 = status_queries.
Proof.
  destruct (status_report_of_canvas canvas_peer []
              (<["result" := JDict (<["min" := JInt 1]> ∅)]> ∅)
              (<["result" :=
                   JList [JDict (<["type" := JStr "Number Slider"]>
                                   (<["id" := JStr "s1"]> ∅));
                          JDict (<["type" := JStr "Addition"]>
                                   (<["id" := JStr "t"]> ∅));
                          JDict (<["type" := JStr "Number Slider"]>
                                   (<["id" := JStr "s2"]> ∅))]]> ∅)
              [<["type" := JStr "Number Slider"]> (<["id" := JStr "s1"]> ∅);
               <["type" := JStr "Addition"]> (<["id" := JStr "t"]> ∅);
               <["type" := JStr "Number Slider"]> (<["id" := JStr "s2"]> ∅)]
              (JDict (<["result" :=
                          JList [JDict (<["targetId" := JStr "t"]>
                                          (<["sourceId" := JStr "s1"]> ∅))]]> ∅))
              [<["targetId" := JStr "t"]> (<["sourceId" := JStr "s1"]> ∅)])
    as (report & summaries & Hrun & _).
  - by vm_compute.
  - by vm_compute.
  - by vm_compute.
  - repeat constructor.
  - by vm_compute.
  - apply lists_result. by vm_compute.
  - by rewrite Hrun.
Defined.

(** X21.  The target port of [connect_components].  When the answer for
    the target reports a type and the answer to [get_connections] lists
    the connections (objects, or no [result] at all), the connect command
    is the third command and its target port is chosen thus: for a type
    among Addition, Subtraction, Multiplication, Division and Math and a
    caller who gives neither a name nor an index, the port is "B" exactly
    when a listed connection into the target has [targetParam] "A" or a
    [targetParamIndex] equal to zero, and "A" otherwise; a port that the
    caller gives, name or index, is used as given; for any other type the
    caller's choice is kept.  When the answer for the target is an object
    that reports no type, the connections are not asked for and the
    connect command carries the caller's choice. *)
Theorem target_port_resolution E source_id target_id source_param target_param
    source_param_index target_param_index log target_info :
  let run := connect_components E source_id target_id source_param target_param
               source_param_index target_param_index log in
  let info := info_query target_id in
  let connect chosen :=
    connect_command source_id target_id source_param chosen
      source_param_index target_param_index in
  reply E log info = Returned target_info →
  (∀ ty connections conns,
     reports_type target_info ty →
     reply E (log ++ [info])%list connections_query = Returned connections →
     lists_connections connections conns →
     ∃ chosen,
       run = (reply E (log ++ [info; connections_query])%list (connect chosen),
              (log ++ [info; connections_query; connect chosen])%list)
       ∧ ((∃ name, ty = JStr name ∧ name ∈ Connect.binary_input_types) →
          target_param = None → target_param_index = None →
          (chosen = Some "B" ↔ first_input_in_use target_id conns)
          ∧ (chosen = Some "A" ↔ ¬ first_input_in_use target_id conns))
       ∧ (is_Some target_param ∨ is_Some target_param_index →
          chosen = target_param)
       ∧ ((∀ name, name ∈ Connect.binary_input_types → ty ≠ JStr name) →
          chosen = target_param))
  ∧ (reports_no_type target_info →
     run = (reply E (log ++ [info])%list (connect target_param),
            (log ++ [info; connect target_param])%list))
  ∧ (∀ chosen,
       cmd_parameters (connect chosen) !! "targetParam" = JStr <$> chosen
       ∧ cmd_parameters (connect chosen) !! "targetParamIndex"
         = (if chosen is Some _ then None else JInt <$> target_param_index)).
Proof.
  intros run info connect Hinfo. split; [|split].
  - intros ty connections conns Htype Hconns Hlisted.
    destruct (connect_components_typed E source_id target_id source_param
                target_param source_param_index target_param_index log
                target_info ty connections conns Hinfo Htype Hconns Hlisted)
      as (chosen & Hchosen & Hrun).
    exists chosen. split.
    { subst run. rewrite Hrun, send_to_grasshopper_reply.
      unfold connect, connect_command. by rewrite <- app_assoc. }
    unfold Connect.assign_target_param in Hchosen.
    destruct (first_input_occupied_dicts target_id conns) as (b & Hb & Htaken).
    rewrite first_input_taken_in_use in Htaken.
    rewrite Hb in Hchosen.
    split; [|split].
    + intros Harith%is_binary_input_type_spec -> ->.
      rewrite Harith in Hchosen. cbn [is_None andb] in Hchosen.
      destruct b; injection Hchosen as <-.
      * split; [by rewrite <- Htaken|].
        split; [done|]. intros Hfree. exfalso. apply Hfree. by apply Htaken.
      * assert (¬ first_input_in_use target_id conns) as Hfree
          by (intros Ht%Htaken; done).
        split; [split; [done|]; intros Ht; by destruct Hfree|]. done.
    + intros Hgiven.
      assert (is_None target_param && is_None target_param_index = false)
        as Hnone.
      { destruct Hgiven as [[p ->] | [i ->]]; [done|].
        by destruct target_param. }
      rewrite Hnone in Hchosen.
      destruct (Connect.is_binary_input_type ty); by injection Hchosen as <-.
    + intros Hother.
      assert (Connect.is_binary_input_type ty = false) as Hnot.
      { apply not_true_iff_false.
        intros (name & -> & Hin)%is_binary_input_type_spec.
        by apply (Hother name). }
      rewrite Hnot in Hchosen. by injection Hchosen as <-.
  - intros (d & -> & Hd). subst run.
    rewrite (connect_components_without_type E source_id target_id source_param
               target_param source_param_index target_param_index log d
               Hinfo Hd).
    rewrite send_to_grasshopper_reply. unfold connect, connect_command.
    by rewrite <- app_assoc.
  - intros chosen.
    destruct (connect_params_target source_id target_id source_param chosen
                source_param_index target_param_index)
      as (_ & _ & Hname & Hindex & _).
    unfold connect, connect_command. cbn [cmd_parameters]. by split.
Qed.

Lemma target_port_resolution_witness :
  (connect_components indexed_peer "s" "t" None None None None []).2
  = [info_query "t"; connections_query;
     connect_command "s" "t" None (Some "B") None None].
Proof.
  destruct (target_port_resolution indexed_peer "s" "t" None None None None []
              addition_info ltac:(by vm_compute)) as [Htyped _].
  destruct (Htyped (JStr "Addition")
              (JDict (<["result" := JList [JDict connection_into_index_0]]> ∅))
              [connection_into_index_0])
    as (chosen & Hrun & Hport & _).
  - eexists _, _. split; [reflexivity|]. split; by vm_compute.
  - by vm_compute.
  - apply lists_result. by vm_compute.
  - destruct Hport as [Hb _]; [|done|done|].
    + exists "Addition". split; [done|]. by left.
    + assert (chosen = Some "B") as ->.
      { apply Hb. exists connection_into_index_0. split; [by left|].
        split; [by vm_compute|]. right. exists (JInt 0).
        split; [by vm_compute|done]. }
      by rewrite Hrun.
Defined.
